(** * Layout matching for slide generation: a shallow embedding

    The development follows the JavaScript sources of the repository:

    - [ContentMatcher]   : the canonical matcher (core/content-matcher.js);
    - [LayoutAnalyzer]   : the extractor and its categorizer
                           (core/layout-analyzer.js);
    - [CompleteWorkflow] : the inline copy of the matcher carried by
                           n8n-functions/complete-workflow.js, and its
                           request builder;
    - [MatchLayout]      : the inline copy of the matcher carried by
                           n8n-functions/match-layout.js;
    - [Server]           : the helpers of external-service/server.js;
    - [Untyped]          : the canonical matcher and the request
                           builders once more, on arbitrary values
                           instead of well-typed records.

    Content and templates are records whose optional fields are [None]
    when the JavaScript object lacks them; the presentation read by the
    extractor is an untyped [value], since it may be anything, [null] and
    [undefined] included.  The records leave out what JavaScript allows
    besides: a title that is a number, a template without a placeholders
    array.  [Untyped] follows the code on such input, where a read can
    throw a TypeError, and agrees with the typed models on the records.
    A thrown exception is the [Throw] case of [result].

    Strings are sequences of 8-bit characters; case mapping and blank
    stripping are those of JavaScript on ASCII text, characters above 127
    are left alone.  Scores are small integers, so [Z] is exact for the
    JavaScript numbers involved. *)

From Stdlib Require Import ZArith List String Ascii Bool Lia.
From Stdlib Require Import Sorted Permutation DecimalString.
Import ListNotations.

Local Open Scope string_scope.
Local Open Scope Z_scope.

(** ** JavaScript strings *)

Module JsString.

Definition lowerChar (c : ascii) : ascii :=
  let n := N_of_ascii c in
  if ((65 <=? n) && (n <=? 90))%N then ascii_of_N (n + 32) else c.

Definition upperChar (c : ascii) : ascii :=
  let n := N_of_ascii c in
  if ((97 <=? n) && (n <=? 122))%N then ascii_of_N (n - 32) else c.

Fixpoint mapChars (f : ascii -> ascii) (s : string) : string :=
  match s with
  | EmptyString => EmptyString
  | String c t => String (f c) (mapChars f t)
  end.

Definition toLowerCase : string -> string := mapChars lowerChar.
Definition toUpperCase : string -> string := mapChars upperChar.

(** [includes hay needle] is [hay.includes(needle)]. *)
Fixpoint includes (hay needle : string) : bool :=
  if prefix needle hay then true
  else match hay with
       | EmptyString => false
       | String _ t => includes t needle
       end.

(** Blanks stripped by [trim]: TAB, LF, VT, FF, CR and SPACE. *)
Definition isSpace (c : ascii) : bool :=
  let n := N_of_ascii c in
  (((9 <=? n) && (n <=? 13)) || (n =? 32))%N.

Fixpoint trimStart (s : string) : string :=
  match s with
  | EmptyString => EmptyString
  | String c t => if isSpace c then trimStart t else s
  end.

Fixpoint trimEnd (s : string) : string :=
  match s with
  | EmptyString => EmptyString
  | String c t =>
      match trimEnd t with
      | EmptyString => if isSpace c then EmptyString else String c EmptyString
      | t' => String c t'
      end
  end.

Definition trim (s : string) : string := trimEnd (trimStart s).

(** Truthiness of a string: only the empty string is falsy. *)
Definition truthy (s : string) : bool :=
  match s with EmptyString => false | _ => true end.

(** [join sep l] is [l.join(sep)]. *)
Fixpoint join (sep : string) (l : list string) : string :=
  match l with
  | [] => EmptyString
  | [x] => x
  | x :: t => x ++ sep ++ join sep t
  end.

(** Decimal rendering of an integer inside a template literal. *)
Definition ofZ (z : Z) : string := NilZero.string_of_int (Z.to_int z).

End JsString.

(** ** Optional fields and arrays *)

(** [s || ''] for a field that holds a string or is absent. *)
Definition orEmpty (s : option string) : string :=
  match s with Some x => x | None => EmptyString end.

(** Truthiness of an optional string field. *)
Definition truthyField (s : option string) : bool :=
  match s with Some x => JsString.truthy x | None => false end.

(** [arr?.length] read as a number: [None] stands for [undefined]. *)
Definition optLength {A : Type} (arr : option (list A)) : option Z :=
  match arr with Some l => Some (Z.of_nat (List.length l)) | None => None end.

(** Truthiness of a number that may be [undefined]. *)
Definition truthyNum (n : option Z) : bool :=
  match n with Some v => negb (v =? 0) | None => false end.

(** [undefined > k] is false. *)
Definition gtNum (n : option Z) (k : Z) : bool :=
  match n with Some v => v >? k | None => false end.

(** [t === lit] for a value that is a string or [undefined]. *)
Definition isType (t : option string) (lit : string) : bool :=
  match t with Some s => String.eqb s lit | None => false end.

(** [types.includes(lit)] on an array whose entries are strings or
    [undefined]. *)
Definition arrIncludes (types : list (option string)) (lit : string) : bool :=
  existsb (fun t => isType t lit) types.

(** ** Errors *)

Inductive Error : Type :=
| NoLayoutsAvailable   (* new Error('No layouts available') *)
| TypeError.           (* raised by the runtime on a bad property access *)

Inductive result (A : Type) : Type :=
| Ok (a : A)
| Throw (e : Error).
Arguments Ok {A} a.
Arguments Throw {A} e.

(** ** Data model of the matcher *)

Module Placeholder.
Record t : Type := mk {
  objectId : string;
  type : option string;
  index : option Z
}.
End Placeholder.

Module Layout.
Record t : Type := mk {
  objectId : string;
  displayName : option string;
  placeholders : list Placeholder.t;
  score : Z
}.

(** [{...layout, score: s}] *)
Definition withScore (l : t) (s : Z) : t :=
  mk (objectId l) (displayName l) (placeholders l) s.

Definition placeholderTypes (l : t) : list (option string) :=
  map Placeholder.type (placeholders l).
End Layout.

Record Content : Type := mkContent {
  title : option string;
  body : option string;
  imageUrl : option string;
  images : option (list string);
  bullets : option (list string);
  bulletPoints : option (list string);
  columns : option (list string);
  comparison : bool
}.

Record ContentAnalysis : Type := mkAnalysis {
  hasTitle : bool;
  hasBody : bool;
  hasImage : bool;
  hasBullets : bool;
  hasMultipleColumns : bool;
  contentLength : string;
  contentType : string;
  imageCount : Z;
  bulletCount : Z
}.

(** Table lookup in an object literal written as a list of entries. *)
Fixpoint lookup {V : Type} (k : string) (tbl : list (string * V)) : option V :=
  match tbl with
  | [] => None
  | (k', v) :: rest => if String.eqb k k' then Some v else lookup k rest
  end.

(** [arr.push(x)] *)
Definition push {A : Type} (arr : list A) (x : A) : list A :=
  (arr ++ [x])%list.

(** [a || b] on numbers that may be [undefined]. *)
Definition orNum (a b : option Z) : option Z :=
  if truthyNum a then a else b.

(** [a || 0] *)
Definition orZero (a : option Z) : Z :=
  match a with Some v => v | None => 0 end.

(** [s.match(/[...]/)] for a character class: does some character of [s]
    belong to the class? *)
Fixpoint matchesClass (cls : list ascii) (s : string) : bool :=
  match s with
  | EmptyString => false
  | String c t => existsb (Ascii.eqb c) cls || matchesClass cls t
  end.

(** The two characters named in the matcher's character class. *)
Definition dquote : ascii := "034"%char.
Definition squote : ascii := "039"%char.

(** ** Tracing monad

    A computation yields a result or throws, and leaves the list of
    templates handed to the scorer so far. *)

Inductive Event : Type :=
| Scoring (l : Layout.t).

Definition M (A : Type) : Type := (list Event * result A)%type.

Definition ret {A : Type} (a : A) : M A := ([], Ok a).

Definition throw {A : Type} (e : Error) : M A := ([], Throw e).

Definition bind {A B : Type} (m : M A) (f : A -> M B) : M B :=
  match m with
  | (tr, Ok a) => let (tr', r) := f a in ((tr ++ tr')%list, r)
  | (tr, Throw e) => (tr, Throw e)
  end.

Definition emit (ev : Event) : M unit := ([ev], Ok tt).

Notation "x <- m ;; k" := (bind m (fun x => k))
  (at level 61, m at next level, right associativity).

Definition trace {A : Type} (m : M A) : list Event := fst m.
Definition outcome {A : Type} (m : M A) : result A := snd m.

(** An object created by the callback of [layouts.map]: [ref] is the rank of
    the call that allocated it and stands for the identity of the object,
    [obj] is its content. *)
Record Scored : Type := mkScored {
  ref : nat;
  obj : Layout.t
}.

Definition scoreOf (s : Scored) : Z := Layout.score (obj s).

Record MatchResult : Type := mkMatchResult {
  bestLayout : Scored;
  alternatives : list Scored;
  contentAnalysis : ContentAnalysis;
  reasoning : string
}.

(** ** Array.prototype.sort

    The comparator [(a, b) => b.score - a.score] is consistent, and the sort
    is stable (ECMAScript 2019; the package asks for node >= 16), so the
    outcome is the one of the stable insertion sort below. *)

Section Sort.
Context {A : Type} (cmp : A -> A -> Z).

Fixpoint insertSorted (x : A) (l : list A) : list A :=
  match l with
  | [] => [x]
  | y :: t => if cmp x y <=? 0 then x :: y :: t else y :: insertSorted x t
  end.

Definition sort (l : list A) : list A := fold_right insertSorted [] l.
End Sort.

(** * The canonical matcher *)

Module ContentMatcher.

Definition determineContentType (content : Content) (analysis : ContentAnalysis)
  : string :=
  let title := JsString.toLowerCase (orEmpty (title content)) in
  let body := JsString.toLowerCase (orEmpty (body content)) in
  if JsString.includes title "agenda" || JsString.includes body "agenda"
  then "agenda"
  else if JsString.includes title "quote"
          || matchesClass [dquote; squote; squote] body
  then "quote"
  else if JsString.includes title "section" || JsString.includes title "chapter"
  then "section"
  else if hasImage analysis && negb (hasBody analysis)
  then "image-focused"
  else if hasBullets analysis && (bulletCount analysis >? 5)
  then "list-heavy"
  else if comparison content || JsString.includes title "vs"
          || JsString.includes title "versus"
  then "comparison"
  else if JsString.includes title "thank" || JsString.includes title "conclusion"
  then "closing"
  else "general".

Definition analyzeContent (content : Content) : ContentAnalysis :=
  let hasField (f : option string) :=
    match f with
    | Some s => JsString.truthy s && JsString.truthy (JsString.trim s)
    | None => false
    end in
  let bodyText := orEmpty (body content) in
  let contentLength :=
    if Z.of_nat (String.length bodyText) >? 500 then "long"
    else if Z.of_nat (String.length bodyText) >? 150 then "medium"
    else "short" in
  let imageCount0 := if truthyField (imageUrl content) then 1 else 0 in
  let imageCount :=
    match images content with
    | Some l => Z.of_nat (List.length l)
    | None => imageCount0
    end in
  let bulletCount0 :=
    match bullets content with
    | Some l => Z.of_nat (List.length l)
    | None => 0
    end in
  let bulletCount :=
    match bulletPoints content with
    | Some l => Z.of_nat (List.length l)
    | None => bulletCount0
    end in
  let analysis :=
    {| hasTitle := hasField (title content);
       hasBody := hasField (body content);
       hasImage := truthyField (imageUrl content)
                   || truthyNum (optLength (images content));
       hasBullets := truthyNum (optLength (bullets content))
                     || truthyNum (optLength (bulletPoints content));
       hasMultipleColumns := gtNum (optLength (columns content)) 1;
       contentLength := contentLength;
       contentType := "general";
       imageCount := imageCount;
       bulletCount := bulletCount |} in
  {| hasTitle := hasTitle analysis;
     hasBody := hasBody analysis;
     hasImage := hasImage analysis;
     hasBullets := hasBullets analysis;
     hasMultipleColumns := hasMultipleColumns analysis;
     contentLength := contentLength;
     contentType := determineContentType content analysis;
     imageCount := imageCount;
     bulletCount := bulletCount |}.

Definition scoreMatrix : list (string * list (string * Z)) :=
  [ ("section",
      [ ("sectionHeader", 40); ("titleOnly", 30); ("titleAndBody", 20) ]);
    ("quote",
      [ ("sectionHeader", 35); ("titleOnly", 30); ("titleAndBody", 25) ]);
    ("image-focused",
      [ ("blank", 40); ("titleOnly", 35); ("titleAndBody", 20) ]);
    ("comparison",
      [ ("titleAndTwoColumns", 40); ("titleAndBody", 25); ("blank", 20) ]);
    ("list-heavy",
      [ ("titleAndBody", 35); ("titleAndTwoColumns", 30); ("blank", 20) ]);
    ("general",
      [ ("titleAndBody", 35); ("titleOnly", 25); ("sectionHeader", 20);
        ("titleAndTwoColumns", 15); ("blank", 10) ]) ].

(** [scoreMatrix[tag]?.[category]] *)
Definition cell (tag category : string) : option Z :=
  match lookup tag scoreMatrix with
  | Some row => lookup category row
  | None => None
  end.

Definition getCategoryScores (analysis : ContentAnalysis) (category : string)
  : Z :=
  orZero (orNum (cell (contentType analysis) category)
                (cell "general" category)).

Definition getLayoutCategory (layout : Layout.t) : string :=
  let placeholderTypes := Layout.placeholderTypes layout in
  let displayName :=
    orEmpty (option_map JsString.toUpperCase (Layout.displayName layout)) in
  if JsString.includes displayName "TITLE_ONLY"
     || JsString.includes displayName "TITLE ONLY" then "titleOnly"
  else if JsString.includes displayName "SECTION_HEADER" then "sectionHeader"
  else if JsString.includes displayName "TWO_COLUMNS" then "titleAndTwoColumns"
  else if JsString.includes displayName "BLANK" then "blank"
  else
    let hasTitle := arrIncludes placeholderTypes "TITLE" in
    let hasBody := arrIncludes placeholderTypes "BODY" in
    let bodyCount :=
      Z.of_nat (List.length
        (filter (fun t => isType t "BODY" || isType t "CONTENT")
                placeholderTypes)) in
    if hasTitle && negb hasBody then "titleOnly"
    else if hasTitle && hasBody && (bodyCount =? 1) then "titleAndBody"
    else if hasTitle && (bodyCount >=? 2) then "titleAndTwoColumns"
    else if arrIncludes placeholderTypes "SUBTITLE" then "sectionHeader"
    else if Z.of_nat (List.length placeholderTypes) =? 0 then "blank"
    else "other".

(** The score before the final clamp. *)
Definition rawScore (contentAnalysis : ContentAnalysis) (layout : Layout.t)
  : Z :=
  let placeholderTypes := Layout.placeholderTypes layout in
  let category := getLayoutCategory layout in
  let score := 0 in
  let score := score + getCategoryScores contentAnalysis category in
  let score :=
    if hasTitle contentAnalysis && arrIncludes placeholderTypes "TITLE"
    then score + 20 else score in
  let score :=
    if hasBody contentAnalysis && arrIncludes placeholderTypes "BODY"
    then score + 15 else score in
  let score :=
    if hasImage contentAnalysis && arrIncludes placeholderTypes "PICTURE"
    then score + 10 else score in
  let score :=
    if negb (hasTitle contentAnalysis) && arrIncludes placeholderTypes "TITLE"
    then score - 5 else score in
  let score :=
    if negb (hasBody contentAnalysis) && arrIncludes placeholderTypes "BODY"
    then score - 5 else score in
  let score :=
    if String.eqb (contentLength contentAnalysis) "long"
       && String.eqb category "titleOnly"
    then score - 15 else score in
  let score :=
    if String.eqb (contentLength contentAnalysis) "short"
       && String.eqb category "titleAndTwoColumns"
    then score - 10 else score in
  score.

Definition calculateLayoutScore (contentAnalysis : ContentAnalysis)
  (layout : Layout.t) : Z :=
  Z.max 0 (Z.min 100 (rawScore contentAnalysis layout)).

Definition generateReasoning (contentAnalysis : ContentAnalysis)
  (selectedLayout : Layout.t) : string :=
  let category := getLayoutCategory selectedLayout in
  let types := Layout.placeholderTypes selectedLayout in
  let reasons : list string := [] in
  let reasons :=
    if negb (String.eqb (contentType contentAnalysis) "general")
    then push reasons ("Content type '" ++ contentType contentAnalysis
                       ++ "' best matches " ++ category ++ " layout")
    else reasons in
  let reasons :=
    if hasTitle contentAnalysis && arrIncludes types "TITLE"
    then push reasons "Layout has title placeholder for provided title"
    else reasons in
  let reasons :=
    if hasBody contentAnalysis && arrIncludes types "BODY"
    then push reasons "Layout has body placeholder for provided content"
    else reasons in
  let reasons :=
    if hasImage contentAnalysis
    then push reasons "Layout can accommodate image content"
    else reasons in
  let reasons :=
    push reasons ("Score: " ++ JsString.ofZ (Layout.score selectedLayout)
                  ++ "/100") in
  JsString.join "; " reasons.

(** One call of the callback of [layouts.map]. *)
Definition scoreOne (contentAnalysis : ContentAnalysis) (i : nat)
  (layout : Layout.t) : M Scored :=
  _ <- emit (Scoring layout) ;;
  ret {| ref := i;
         obj := Layout.withScore layout
                  (calculateLayoutScore contentAnalysis layout) |}.

(** [layouts.map(layout => ({...layout, score: ...}))], the first call
    having rank [i]. *)
Fixpoint scoreAll (contentAnalysis : ContentAnalysis) (i : nat)
  (layouts : list Layout.t) : M (list Scored) :=
  match layouts with
  | [] => ret []
  | layout :: rest =>
      s <- scoreOne contentAnalysis i layout ;;
      others <- scoreAll contentAnalysis (S i) rest ;;
      ret (s :: others)
  end.

(** [(a, b) => b.score - a.score] *)
Definition byScore (a b : Scored) : Z := scoreOf b - scoreOf a.

Definition findBestLayout (content : Content) (layouts : list Layout.t)
  : M MatchResult :=
  if Nat.eqb (List.length layouts) 0 then throw NoLayoutsAvailable
  else
    let contentAnalysis := analyzeContent content in
    scoredLayouts <- scoreAll contentAnalysis 0 layouts ;;
    match sort byScore scoredLayouts with
    | [] => throw TypeError        (* scoredLayouts[0] is undefined *)
    | best :: others =>
        ret {| bestLayout := best;
               alternatives := firstn 2 others;
               contentAnalysis := contentAnalysis;
               reasoning := generateReasoning contentAnalysis (obj best) |}
    end.

End ContentMatcher.

(** * The extractor and its categorizer *)

(** ** Raw presentation data

    The extractor reads an untyped description, the parsed reply of the
    presentation service, or nothing at all ([undefined], [null]). *)

#[local] Set Warnings "-register-all".

Inductive value : Type :=
| VUndefined
| VNull
| VBool (b : bool)
| VNum (n : Z)
| VStr (s : string)
| VArr (items : list value)
| VObj (fields : list (string * value)).

Definition truthy (v : value) : bool :=
  match v with
  | VUndefined | VNull => false
  | VBool b => b
  | VNum n => negb (n =? 0)
  | VStr s => JsString.truthy s
  | VArr _ | VObj _ => true
  end.

Definition nullish (v : value) : bool :=
  match v with
  | VUndefined | VNull => true
  | _ => false
  end.

(** The property [k] of a value that is neither [undefined] nor [null],
    for the property names the extractor reads: only an object carries
    them. *)
Definition prop (v : value) (k : string) : value :=
  match v with
  | VObj fields =>
      match lookup k fields with
      | Some x => x
      | None => VUndefined
      end
  | _ => VUndefined
  end.

(** [v.k] *)
Definition get (v : value) (k : string) : result value :=
  if nullish v then Throw TypeError else Ok (prop v k).

(** [v?.k] *)
Definition getOpt (v : value) (k : string) : value :=
  if nullish v then VUndefined else prop v k.

(** [a || b] *)
Definition orElse (a b : value) : value := if truthy a then a else b.

Definition rbind {A B : Type} (m : result A) (f : A -> result B) : result B :=
  match m with
  | Ok a => f a
  | Throw e => Throw e
  end.

Notation "x <~ m ;; k" := (rbind m (fun x => k))
  (at level 61, m at next level, right associativity).

(** [arr.forEach(x => out.push(f x))], where the callback may decline to
    push ([Ok None]) or throw. *)
Fixpoint collect {A : Type} (f : value -> result (option A))
  (items : list value) : result (list A) :=
  match items with
  | [] => Ok []
  | x :: rest =>
      r <~ f x ;;
      others <~ collect f rest ;;
      Ok (match r with Some y => y :: others | None => others end)
  end.

(** [v.forEach(...)]: only an array has the method. *)
Definition forEach {A : Type} (v : value) (f : value -> result (option A))
  : result (list A) :=
  match v with
  | VArr items => collect f items
  | _ => Throw TypeError
  end.

Module LayoutAnalyzer.

Definition extractPlaceholder (element : value) : result (option value) :=
  shape <~ get element "shape" ;;
  if negb (truthy shape) then Ok None
  else
    placeholder <~ get shape "placeholder" ;;
    if negb (truthy placeholder) then Ok None
    else
      objectId <~ get element "objectId" ;;
      type <~ get placeholder "type" ;;
      index <~ get placeholder "index" ;;
      size <~ get element "size" ;;
      bounds <~
        (if negb (truthy size) then Ok VNull
         else
           transform <~ get element "transform" ;;
           if negb (truthy transform) then Ok VNull
           else
             translateX <~ get transform "translateX" ;;
             translateY <~ get transform "translateY" ;;
             width <~ get size "width" ;;
             height <~ get size "height" ;;
             Ok (VObj [ ("x", orElse translateX (VNum 0));
                        ("y", orElse translateY (VNum 0));
                        ("width",
                          orElse (getOpt width "magnitude") (VNum 0));
                        ("height",
                          orElse (getOpt height "magnitude") (VNum 0)) ])) ;;
      parentObjectId <~ get placeholder "parentObjectId" ;;
      Ok (Some (VObj [ ("objectId", objectId);
                       ("type", type);
                       ("index", index);
                       ("bounds", bounds);
                       ("parentObjectId", parentObjectId) ])).

Definition extractPlaceholders (layout : value) : result (list value) :=
  pageElements <~ get layout "pageElements" ;;
  if negb (truthy pageElements) then Ok []
  else forEach pageElements extractPlaceholder.

Definition extractLayout (layout : value) : result (option value) :=
  objectId <~ get layout "objectId" ;;
  layoutProperties <~ get layout "layoutProperties" ;;
  let displayName :=
    orElse (getOpt layoutProperties "displayName") (VStr "Unnamed Layout") in
  placeholders <~ extractPlaceholders layout ;;
  Ok (Some (VObj [ ("objectId", objectId);
                   ("layoutProperties", layoutProperties);
                   ("displayName", displayName);
                   ("placeholders", VArr placeholders);
                   ("score", VNum 0) ])).

Definition extractLayouts (presentation : value) : result (list value) :=
  layouts <~ get presentation "layouts" ;;
  if negb (truthy layouts) then Ok []
  else forEach layouts extractLayout.

(** [displayName] is [None] when the argument is left out, in which case
    the default [''] applies. *)
Definition determineLayoutCategory (placeholderTypes : list (option string))
  (displayName : option string) : string :=
  let nameUpper := JsString.toUpperCase (orEmpty displayName) in
  if JsString.includes nameUpper "TITLE_ONLY"
     || JsString.includes nameUpper "TITLE ONLY" then "titleOnly"
  else if JsString.includes nameUpper "SECTION_HEADER"
          || JsString.includes nameUpper "SECTION HEADER" then "sectionHeader"
  else if JsString.includes nameUpper "TWO_COLUMNS"
          || JsString.includes nameUpper "TWO COLUMNS"
  then "titleAndTwoColumns"
  else if JsString.includes nameUpper "BLANK" then "blank"
  else
    let hasTitle := arrIncludes placeholderTypes "TITLE"
                    || arrIncludes placeholderTypes "CENTERED_TITLE" in
    let hasBody := arrIncludes placeholderTypes "BODY"
                   || arrIncludes placeholderTypes "SUBTITLE" in
    let hasContent := arrIncludes placeholderTypes "CONTENT" in
    let bodyCount :=
      Z.of_nat (List.length
        (filter (fun type => isType type "BODY"
                             || isType type "CONTENT"
                             || isType type "SUBTITLE")
                placeholderTypes)) in
    if hasTitle && negb hasBody && negb hasContent then "titleOnly"
    else if hasTitle && (hasBody || hasContent) && (bodyCount =? 1)
    then "titleAndBody"
    else if hasTitle && (bodyCount >=? 2) then "titleAndTwoColumns"
    else if hasTitle && arrIncludes placeholderTypes "SUBTITLE"
    then "sectionHeader"
    else if Z.of_nat (List.length placeholderTypes) =? 0 then "blank"
    else "other".

(** The category [categorizeLayouts] files a template under. *)
Definition categoryOf (layout : Layout.t) : string :=
  determineLayoutCategory (Layout.placeholderTypes layout)
                          (Layout.displayName layout).


(** [categories[k].push(x)] on the object literal of the six categories. *)
Fixpoint pushTo (k : string) (x : Layout.t)
  (categories : list (string * list Layout.t))
  : list (string * list Layout.t) :=
  match categories with
  | [] => []
  | (k', bucket) :: rest =>
      if String.eqb k k' then (k', push bucket x) :: rest
      else (k', bucket) :: pushTo k x rest
  end.

Definition emptyCategories : list (string * list Layout.t) :=
  [ ("titleOnly", []); ("titleAndBody", []); ("titleAndTwoColumns", []);
    ("sectionHeader", []); ("blank", []); ("other", []) ].

(** The body of the loop of [categorizeLayouts]; an array is truthy, so the
    test [categories[category]] asks whether the key exists. *)
Definition categorizeOne (categories : list (string * list Layout.t))
  (layout : Layout.t) : list (string * list Layout.t) :=
  let placeholderTypes := Layout.placeholderTypes layout in
  let category :=
    determineLayoutCategory placeholderTypes (Layout.displayName layout) in
  match lookup category categories with
  | Some _ => pushTo category layout categories
  | None => pushTo "other" layout categories
  end.

Definition categorizeLayouts (layouts : list Layout.t)
  : list (string * list Layout.t) :=
  fold_left categorizeOne layouts emptyCategories.

(** [set.add(x)] on a [Set] kept in insertion order. *)
Definition setAdd (set : list (option string)) (x : option string)
  : list (option string) :=
  if existsb (fun y => match x, y with
                       | Some a, Some b => String.eqb a b
                       | None, None => true
                       | _, _ => false
                       end) set
  then set else push set x.

Record LayoutStats : Type := mkStats {
  total : Z;
  categories : list (string * Z);
  placeholderTypes : list (option string)
}.

Definition getLayoutStats (layouts : list Layout.t) : LayoutStats :=
  let categories := categorizeLayouts layouts in
  {| total := Z.of_nat (List.length layouts);
     categories :=
       map (fun entry : string * list Layout.t =>
              (fst entry, Z.of_nat (List.length (snd entry))))
           categories;
     placeholderTypes :=
       fold_left
         (fun set layout =>
            fold_left (fun set placeholder =>
                         setAdd set (Placeholder.type placeholder))
                      (Layout.placeholders layout) set)
         layouts [] |}.

End LayoutAnalyzer.

(** * Slide requests

    The requests sent to the presentation service, as the workflow and the
    service build them. *)

Inductive Request : Type :=
| CreateSlide (objectId layoutId : string) (insertionIndex : option Z)
| InsertText (objectId text : string) (insertionIndex : Z)
| ReplaceImage (imageObjectId url : string)
               (imageReplaceMethod : option string).

(** Content for slide creation: the fields the matcher reads, and the
    subtitle. *)
Record SlideContent : Type := mkSlideContent {
  fields : Content;
  subtitle : option string
}.

Definition newline : string := String "010" EmptyString.

(** The key under which an object files a placeholder type. *)
Definition typeKey (t : option string) : string :=
  match t with Some s => s | None => "undefined" end.

(** The property names every object inherits: [obj[k]] is then truthy
    before anything is stored under [k], and it is not an array. *)
Definition objectPrototypeKeys : list string :=
  [ "constructor"; "__defineGetter__"; "__defineSetter__"; "hasOwnProperty";
    "__lookupGetter__"; "__lookupSetter__"; "isPrototypeOf";
    "propertyIsEnumerable"; "toString"; "valueOf"; "__proto__";
    "toLocaleString" ].

(** [byType[k].push(x)] once the key exists. *)
Fixpoint pushUnder (k : string) (x : Placeholder.t)
  (byType : list (string * list Placeholder.t))
  : list (string * list Placeholder.t) :=
  match byType with
  | [] => []
  | (k', bucket) :: rest =>
      if String.eqb k k' then (k', push bucket x) :: rest
      else (k', bucket) :: pushUnder k x rest
  end.

(** The grouping loop of the request builders:
    [if (!byType[type]) byType[type] = []; byType[type].push(placeholder)].
    On an inherited name the test finds a value without [push], and the
    call throws. *)
Fixpoint groupByType (placeholders : list Placeholder.t)
  (byType : list (string * list Placeholder.t))
  : result (list (string * list Placeholder.t)) :=
  match placeholders with
  | [] => Ok byType
  | placeholder :: rest =>
      let k := typeKey (Placeholder.type placeholder) in
      if existsb (String.eqb k) objectPrototypeKeys then Throw TypeError
      else
        let byType :=
          match lookup k byType with
          | Some _ => byType
          | None => push byType (k, [])
          end in
        groupByType rest (pushUnder k placeholder byType)
  end.

(** [bucket[0]], whose [objectId] is read next. *)
Definition firstOf (bucket : list Placeholder.t) : result Placeholder.t :=
  match bucket with
  | first :: _ => Ok first
  | [] => Throw TypeError
  end.

(** * The inline matcher of the complete workflow *)

Module CompleteWorkflow.

Record Analysis : Type := mkAnalysis {
  hasTitle : bool;
  hasBody : bool;
  hasImage : bool;
  hasBullets : bool;
  contentLength : string;
  contentType : string
}.

Definition determineContentType (content : Content) : string :=
  let imageWithoutBody :=   (* content.imageUrl && !content.body *)
    truthyField (imageUrl content) && negb (truthyField (body content)) in
  let title := JsString.toLowerCase (orEmpty (title content)) in
  let body := JsString.toLowerCase (orEmpty (body content)) in
  if JsString.includes title "agenda" then "agenda"
  else if JsString.includes title "quote" || matchesClass [dquote] body
  then "quote"
  else if JsString.includes title "section" then "section"
  else if imageWithoutBody then "image-focused"
  else if match bullets content with
          | Some l => Z.of_nat (List.length l) >? 3
          | None => false
          end
  then "list-heavy"
  else if JsString.includes title "vs" || JsString.includes title "comparison"
  then "comparison"
  else "general".

Definition analyzeContent (content : Content) : Analysis :=
  let hasField (f : option string) :=
    match f with
    | Some s => JsString.truthy s && JsString.truthy (JsString.trim s)
    | None => false
    end in
  {| hasTitle := hasField (title content);
     hasBody := hasField (body content);
     hasImage := truthyField (imageUrl content)
                 || truthyNum (optLength (images content));
     hasBullets := truthyNum (optLength (bullets content));
     contentLength :=
       if Z.of_nat (String.length (orEmpty (body content))) >? 300
       then "long" else "short";
     contentType := determineContentType content |}.

(** [layout.displayName.toUpperCase()] throws when the name is missing. *)
Definition calculateLayoutScore (analysis : Analysis) (layout : Layout.t)
  : result Z :=
  let score := 30 in
  let placeholders := Layout.placeholderTypes layout in
  let score :=
    if hasTitle analysis && arrIncludes placeholders "TITLE" then score + 25
    else if hasTitle analysis && negb (arrIncludes placeholders "TITLE")
    then score - 10 else score in
  let score :=
    if hasBody analysis && arrIncludes placeholders "BODY" then score + 20
    else if hasBody analysis && negb (arrIncludes placeholders "BODY")
    then score - 10 else score in
  let score :=
    if hasImage analysis && arrIncludes placeholders "PICTURE"
    then score + 15 else score in
  match Layout.displayName layout with
  | None => Throw TypeError
  | Some name =>
      let displayName := JsString.toUpperCase name in
      let score :=
        if String.eqb (contentType analysis) "section"
           && JsString.includes displayName "SECTION"
        then score + 20 else score in
      let score :=
        if String.eqb (contentType analysis) "comparison"
           && JsString.includes displayName "TWO"
        then score + 15 else score in
      Ok (Z.max 0 score)
  end.


Definition generateReasoning (analysis : Analysis) (layout : Layout.t)
  : string :=
  let reasons : list string := [] in
  let reasons :=
    if hasTitle analysis then push reasons "Has title content" else reasons in
  let reasons :=
    if hasBody analysis then push reasons "Has body content" else reasons in
  let reasons :=
    if hasImage analysis then push reasons "Has image content" else reasons in
  let reasons := push reasons ("Content type: " ++ contentType analysis) in
  let reasons :=
    push reasons ("Layout: " ++ match Layout.displayName layout with
                                | Some name => name
                                | None => "undefined"
                                end) in
  let reasons :=
    push reasons ("Score: " ++ JsString.ofZ (Layout.score layout)) in
  JsString.join " | " reasons.

Record Selection : Type := mkSelection {
  bestLayout : Scored;
  contentAnalysis : Analysis;
  reasoning : string
}.

(** [layouts.map(layout => ({...layout, score: ...}))], the first call
    having rank [i]; a call that throws ends the loop. *)
Fixpoint scoreAll (analysis : Analysis) (i : nat) (layouts : list Layout.t)
  : result (list Scored) :=
  match layouts with
  | [] => Ok []
  | layout :: rest =>
      s <~ calculateLayoutScore analysis layout ;;
      others <~ scoreAll analysis (S i) rest ;;
      Ok ({| ref := i; obj := Layout.withScore layout s |} :: others)
  end.

Definition findBestLayout (content : Content) (layouts : list Layout.t)
  : result Selection :=
  if Nat.eqb (List.length layouts) 0 then Throw NoLayoutsAvailable
  else
    let contentAnalysis := analyzeContent content in
    scoredLayouts <~ scoreAll contentAnalysis 0 layouts ;;
    match sort (fun a b => scoreOf b - scoreOf a) scoredLayouts with
    | [] => Throw TypeError         (* scoredLayouts[0] is undefined *)
    | best :: _ =>
        Ok {| bestLayout := best;
              contentAnalysis := contentAnalysis;
              reasoning := generateReasoning contentAnalysis (obj best) |}
    end.

(** [prepareSlideRequests]: the bullet prefix is the text of the template
    literal as the file spells it, byte for byte. *)
Definition bulletPrefix : string :=
  String "195" (String "162" (String "226" (String "130" (String "172"
    (String "194" (String "162" " ")))))).

Definition prepareSlideRequests (layout : Layout.t) (content : SlideContent)
  (slideId : string) : result (list Request) :=
  let requests : list Request := [] in
  let requests :=
    push requests (CreateSlide slideId (Layout.objectId layout) None) in
  placeholdersByType <~ groupByType (Layout.placeholders layout) [] ;;
  requests <~
    (if truthyField (title (fields content)) then
       match lookup "TITLE" placeholdersByType with
       | Some bucket =>
           first <~ firstOf bucket ;;
           Ok (push requests
                 (InsertText (Placeholder.objectId first)
                             (orEmpty (title (fields content))) 0))
       | None => Ok requests
       end
     else Ok requests) ;;
  requests <~
    (if truthyField (body (fields content)) then
       match lookup "BODY" placeholdersByType with
       | Some bucket =>
           let bodyText := orEmpty (body (fields content)) in
           let bodyText :=
             match bullets (fields content) with
             | Some items =>
                 if Z.of_nat (List.length items) >? 0
                 then JsString.join newline
                        (map (fun bullet => bulletPrefix ++ bullet) items)
                 else bodyText
             | None => bodyText
             end in
           first <~ firstOf bucket ;;
           Ok (push requests
                 (InsertText (Placeholder.objectId first) bodyText 0))
       | None => Ok requests
       end
     else Ok requests) ;;
  requests <~
    (if truthyField (subtitle content) then
       match lookup "SUBTITLE" placeholdersByType with
       | Some bucket =>
           first <~ firstOf bucket ;;
           Ok (push requests
                 (InsertText (Placeholder.objectId first)
                             (orEmpty (subtitle content)) 0))
       | None => Ok requests
       end
     else Ok requests) ;;
  requests <~
    (if truthyField (imageUrl (fields content)) then
       match lookup "PICTURE" placeholdersByType with
       | Some bucket =>
           first <~ firstOf bucket ;;
           Ok (push requests
                 (ReplaceImage (Placeholder.objectId first)
                               (orEmpty (imageUrl (fields content))) None))
       | None => Ok requests
       end
     else Ok requests) ;;
  Ok requests.

(** The confidence label the workflow reports for a score. *)
Definition confidence (score : Z) : string :=
  if score >? 70 then "high" else if score >? 40 then "medium" else "low".

End CompleteWorkflow.

(** * The inline matcher of the match-layout node

    n8n-functions/match-layout.js carries its own copy of the matcher.  Its
    [analyzeContent], [determineContentType] and [getCategoryScores] are
    those of the canonical matcher, statement for statement, and are taken
    from there; its categorizer differs, and the scorer and the reasoning
    that call it are written out again. *)

Module MatchLayout.

(** What the node receives as [layouts]: the array of templates, or the
    object of the extractor that files them by category. *)
Inductive LayoutsInput : Type :=
| AsArray (layouts : list Layout.t)
| AsCategories (categories : list (string * list Layout.t)).

(** [Object.values(layouts).forEach(c => layoutArray = layoutArray.concat(c))] *)
Definition flatten (layouts : LayoutsInput) : list Layout.t :=
  match layouts with
  | AsArray layoutArray => layoutArray
  | AsCategories categories =>
      fold_left (fun layoutArray entry => (layoutArray ++ snd entry)%list)
                categories []
  end.

Definition getLayoutCategory (layout : Layout.t) : string :=
  let placeholderTypes := Layout.placeholderTypes layout in
  let displayName :=
    orEmpty (option_map JsString.toUpperCase (Layout.displayName layout)) in
  if JsString.includes displayName "TITLE_ONLY" then "titleOnly"
  else if JsString.includes displayName "SECTION_HEADER" then "sectionHeader"
  else if JsString.includes displayName "TWO_COLUMNS" then "titleAndTwoColumns"
  else if JsString.includes displayName "BLANK" then "blank"
  else
    let hasTitle := arrIncludes placeholderTypes "TITLE" in
    let hasBody := arrIncludes placeholderTypes "BODY" in
    let bodyCount :=
      Z.of_nat (List.length
        (filter (fun t => isType t "BODY" || isType t "CONTENT")
                placeholderTypes)) in
    if hasTitle && negb hasBody then "titleOnly"
    else if hasTitle && hasBody && (bodyCount =? 1) then "titleAndBody"
    else if hasTitle && (bodyCount >=? 2) then "titleAndTwoColumns"
    else if arrIncludes placeholderTypes "SUBTITLE" then "sectionHeader"
    else if Z.of_nat (List.length placeholderTypes) =? 0 then "blank"
    else "other".

Definition calculateLayoutScore (contentAnalysis : ContentAnalysis)
  (layout : Layout.t) : Z :=
  let placeholderTypes := Layout.placeholderTypes layout in
  let category := getLayoutCategory layout in
  let score := 0 in
  let score :=
    score + ContentMatcher.getCategoryScores contentAnalysis category in
  let score :=
    if hasTitle contentAnalysis && arrIncludes placeholderTypes "TITLE"
    then score + 20 else score in
  let score :=
    if hasBody contentAnalysis && arrIncludes placeholderTypes "BODY"
    then score + 15 else score in
  let score :=
    if hasImage contentAnalysis && arrIncludes placeholderTypes "PICTURE"
    then score + 10 else score in
  let score :=
    if negb (hasTitle contentAnalysis) && arrIncludes placeholderTypes "TITLE"
    then score - 5 else score in
  let score :=
    if negb (hasBody contentAnalysis) && arrIncludes placeholderTypes "BODY"
    then score - 5 else score in
  let score :=
    if String.eqb (contentLength contentAnalysis) "long"
       && String.eqb category "titleOnly"
    then score - 15 else score in
  let score :=
    if String.eqb (contentLength contentAnalysis) "short"
       && String.eqb category "titleAndTwoColumns"
    then score - 10 else score in
  Z.max 0 (Z.min 100 score).

Definition generateReasoning (contentAnalysis : ContentAnalysis)
  (selectedLayout : Layout.t) : string :=
  let category := getLayoutCategory selectedLayout in
  let types := Layout.placeholderTypes selectedLayout in
  let reasons : list string := [] in
  let reasons :=
    if negb (String.eqb (contentType contentAnalysis) "general")
    then push reasons ("Content type '" ++ contentType contentAnalysis
                       ++ "' best matches " ++ category ++ " layout")
    else reasons in
  let reasons :=
    if hasTitle contentAnalysis && arrIncludes types "TITLE"
    then push reasons "Layout has title placeholder for provided title"
    else reasons in
  let reasons :=
    if hasBody contentAnalysis && arrIncludes types "BODY"
    then push reasons "Layout has body placeholder for provided content"
    else reasons in
  let reasons :=
    if hasImage contentAnalysis
    then push reasons "Layout can accommodate image content"
    else reasons in
  let reasons :=
    push reasons ("Score: " ++ JsString.ofZ (Layout.score selectedLayout)
                  ++ "/100") in
  JsString.join "; " reasons.

(** [layoutArray.map(layout => ({...layout, score: ...}))], the first call
    having rank [i]. *)
Fixpoint scoreAll (contentAnalysis : ContentAnalysis) (i : nat)
  (layoutArray : list Layout.t) : list Scored :=
  match layoutArray with
  | [] => []
  | layout :: rest =>
      {| ref := i;
         obj := Layout.withScore layout
                  (calculateLayoutScore contentAnalysis layout) |}
      :: scoreAll contentAnalysis (S i) rest
  end.

Definition findBestLayout (content : Content) (layouts : LayoutsInput)
  : result MatchResult :=
  let layoutArray := flatten layouts in
  if Nat.eqb (List.length layoutArray) 0 then Throw NoLayoutsAvailable
  else
    let contentAnalysis := ContentMatcher.analyzeContent content in
    let scoredLayouts := scoreAll contentAnalysis 0 layoutArray in
    match sort (fun a b => scoreOf b - scoreOf a) scoredLayouts with
    | [] => Throw TypeError         (* scoredLayouts[0] is undefined *)
    | best :: others =>
        Ok {| bestLayout := best;
              alternatives := firstn 2 others;
              contentAnalysis := contentAnalysis;
              reasoning := generateReasoning contentAnalysis (obj best) |}
    end.

(** The confidence label the node reports for the best score. *)
Definition confidence (score : Z) : string :=
  if score >? 70 then "high" else if score >? 40 then "medium" else "low".

End MatchLayout.

(** * The helpers of the external service (external-service/server.js) *)

Module Server.

Definition calculateConfidence (score layoutCount : Z) : string :=
  let normalizedScore := Z.min 100 (Z.max 0 score) in
  let optionsPenalty := Z.max 0 ((layoutCount - 1) * 2) in
  let adjustedScore := Z.max 0 (normalizedScore - optionsPenalty) in
  if adjustedScore >=? 80 then "very-high"
  else if adjustedScore >=? 65 then "high"
  else if adjustedScore >=? 45 then "medium"
  else if adjustedScore >=? 25 then "low"
  else "very-low".

Record Alternative : Type := mkAlternative {
  displayName : option string;
  score : Z;
  reason : string
}.

Record Explanation : Type := mkExplanation {
  contentFactors : list string;
  layoutFactors : list string;
  matchingReason : string;
  alternatives : list Alternative
}.

(** A value that may be [undefined], inside a template literal. *)
Definition shown (s : option string) : string :=
  match s with Some x => x | None => "undefined" end.

Definition generateDetailedExplanation (contentAnalysis : ContentAnalysis)
  (selectedLayout : Layout.t) (allLayouts : list Layout.t) : Explanation :=
  let contentFactors : list string := [] in
  let contentFactors :=
    if hasTitle contentAnalysis
    then push contentFactors "Contains title text" else contentFactors in
  let contentFactors :=
    if hasBody contentAnalysis
    then push contentFactors "Contains body text" else contentFactors in
  let contentFactors :=
    if hasImage contentAnalysis
    then push contentFactors "Contains image content" else contentFactors in
  let contentFactors :=
    if hasBullets contentAnalysis
    then push contentFactors "Contains bullet points" else contentFactors in
  let contentFactors :=
    push contentFactors ("Content type: " ++ contentType contentAnalysis) in
  let contentFactors :=
    push contentFactors
         ("Content length: " ++ contentLength contentAnalysis) in
  let placeholderTypes := Layout.placeholderTypes selectedLayout in
  let layoutFactors : list string := [] in
  let layoutFactors :=
    push layoutFactors
         ("Layout: " ++ shown (Layout.displayName selectedLayout)) in
  let layoutFactors :=
    push layoutFactors
         ("Placeholders: "
          ++ JsString.join ", " (map orEmpty placeholderTypes)) in
  let layoutFactors :=
    push layoutFactors
         ("Compatibility score: "
          ++ JsString.ofZ (Layout.score selectedLayout) ++ "/100") in
  let reasons : list string := [] in
  let reasons :=
    if hasTitle contentAnalysis && arrIncludes placeholderTypes "TITLE"
    then push reasons "title content matches title placeholder"
    else reasons in
  let reasons :=
    if hasBody contentAnalysis && arrIncludes placeholderTypes "BODY"
    then push reasons "body content matches body placeholder"
    else reasons in
  let reasons :=
    if hasImage contentAnalysis && arrIncludes placeholderTypes "PICTURE"
    then push reasons "image content matches picture placeholder"
    else reasons in
  let matchingReason :=
    if Z.of_nat (List.length reasons) >? 0
    then "Selected because " ++ JsString.join " and " reasons
    else "Selected as best available option based on scoring algorithm" in
  let sortedLayouts :=
    firstn 2
      (sort (fun a b => Layout.score b - Layout.score a)
         (filter (fun l => negb (String.eqb (Layout.objectId l)
                                   (Layout.objectId selectedLayout)))
                 allLayouts)) in
  {| contentFactors := contentFactors;
     layoutFactors := layoutFactors;
     matchingReason := matchingReason;
     alternatives :=
       map (fun layout =>
              {| displayName := Layout.displayName layout;
                 score := Layout.score layout;
                 reason :=
                   "Would work "
                   ++ (if Layout.score layout >? 50
                       then "well" else "adequately")
                   ++ " for this content" |})
           sortedLayouts |}.

Record Options : Type := mkOptions {
  insertIndex : option Z;
  imageReplaceMethod : option string
}.

(** The bullet of the service, U+2022 and a blank, in UTF-8. *)
Definition bulletPrefix : string :=
  String "226" (String "128" (String "162" " ")).

(** The loop over the columns of [buildSlideRequests], [index] being the
    rank of the first column of [columns]. *)
Fixpoint columnRequests (bucket : list Placeholder.t) (index : nat)
  (columns : list string) (requests : list Request) : list Request :=
  match columns with
  | [] => requests
  | columnContent :: rest =>
      let requests :=
        match nth_error bucket index with
        | Some placeholder =>
            push requests
                 (InsertText (Placeholder.objectId placeholder)
                             columnContent 0)
        | None => requests
        end in
      columnRequests bucket (S index) rest requests
  end.

Definition buildSlideRequests (slideId : string) (layout : Layout.t)
  (content : SlideContent) (options : Options) : result (list Request) :=
  let requests : list Request := [] in
  let requests :=
    push requests
         (CreateSlide slideId (Layout.objectId layout)
                      (insertIndex options)) in
  placeholdersByType <~ groupByType (Layout.placeholders layout) [] ;;
  requests <~
    (if truthyField (title (fields content)) then
       match lookup "TITLE" placeholdersByType with
       | Some bucket =>
           first <~ firstOf bucket ;;
           Ok (push requests
                 (InsertText (Placeholder.objectId first)
                             (orEmpty (title (fields content))) 0))
       | None => Ok requests
       end
     else Ok requests) ;;
  requests <~
    (if truthyField (body (fields content)) then
       match lookup "BODY" placeholdersByType with
       | Some bucket =>
           let bodyText := orEmpty (body (fields content)) in
           let bodyText :=
             match bullets (fields content) with
             | Some items =>
                 if Z.of_nat (List.length items) >? 0
                 then JsString.join newline
                        (map (fun bullet => bulletPrefix ++ bullet) items)
                 else bodyText
             | None => bodyText
             end in
           first <~ firstOf bucket ;;
           Ok (push requests
                 (InsertText (Placeholder.objectId first) bodyText 0))
       | None => Ok requests
       end
     else Ok requests) ;;
  requests <~
    (if truthyField (subtitle content) then
       match lookup "SUBTITLE" placeholdersByType with
       | Some bucket =>
           first <~ firstOf bucket ;;
           Ok (push requests
                 (InsertText (Placeholder.objectId first)
                             (orEmpty (subtitle content)) 0))
       | None => Ok requests
       end
     else Ok requests) ;;
  requests <~
    (if truthyField (imageUrl (fields content)) then
       match lookup "PICTURE" placeholdersByType with
       | Some bucket =>
           first <~ firstOf bucket ;;
           Ok (push requests
                 (ReplaceImage
                    (Placeholder.objectId first)
                    (orEmpty (imageUrl (fields content)))
                    (Some (if truthyField (imageReplaceMethod options)
                           then orEmpty (imageReplaceMethod options)
                           else "CENTER_INSIDE"))))
       | None => Ok requests
       end
     else Ok requests) ;;
  let requests :=
    match columns (fields content), lookup "CONTENT" placeholdersByType with
    | Some columns, Some bucket => columnRequests bucket 0 columns requests
    | _, _ => requests
    end in
  Ok requests.

End Server.
(** * The matcher and the request builders on untyped input

    The modules above take content and templates at the types the data
    model gives them.  The callers hand over whatever the request holds
    (external-service/server.js tests only that content and layouts are
    present), so this module follows core/content-matcher.js and the two
    request builders once more on arbitrary values: a read that the typed
    models cannot get wrong may here throw a TypeError.

    Numbers are integers, as in [value]: those JavaScript holds exactly
    and prints in full. *)

Module Untyped.


(** [v.length] for a value that is neither [undefined] nor [null]. *)
Definition lengthOf (v : value) : value :=
  match v with
  | VStr s => VNum (Z.of_nat (String.length s))
  | VArr items => VNum (Z.of_nat (List.length items))
  | VObj _ => prop v "length"
  | _ => VUndefined
  end.

(** [v?.length] *)
Definition optLengthOf (v : value) : value :=
  if nullish v then VUndefined else lengthOf v.

(** The text of a value, as a template literal or a property name has
    it. *)
Fixpoint render (v : value) : string :=
  match v with
  | VUndefined => "undefined"
  | VNull => "null"
  | VBool b => if b then "true" else "false"
  | VNum n => JsString.ofZ n
  | VStr s => s
  | VArr items =>
      JsString.join ","
        (map (fun x => match x with
                       | VUndefined | VNull => EmptyString
                       | _ => render x
                       end) items)
  | VObj _ => "[object Object]"
  end.

(** *** Numbers read from other values

    The operand of a comparison is turned into a number.  What comes out
    of a string need not be an integer, so the outcome is kept exact: an
    integer, or a decimal fraction [m * 10^e] with a sign. *)

Inductive Num : Type :=
| NaN
| Infinite (negative : bool)
| Int (n : Z)
| Dec (negative : bool) (m e : Z).

Definition digitValue (c : ascii) : option Z :=
  let n := Z.of_N (N_of_ascii c) in
  if (48 <=? n) && (n <=? 57) then Some (n - 48)
  else if (97 <=? n) && (n <=? 102) then Some (n - 87)
  else if (65 <=? n) && (n <=? 70) then Some (n - 55)
  else None.

(** The integer a non-empty run of digits spells in a base. *)
Fixpoint digitsIn (base : Z) (s : string) (acc : Z) : option Z :=
  match s with
  | EmptyString => Some acc
  | String c t =>
      match digitValue c with
      | Some d => if d <? base then digitsIn base t (acc * base + d) else None
      | None => None
      end
  end.

Definition integerIn (base : Z) (s : string) : Num :=
  match s with
  | EmptyString => NaN
  | _ => match digitsIn base s 0 with Some n => Int n | None => NaN end
  end.

(** The decimal digits a string opens with: their value after [acc],
    their number, and the rest of the string. *)
Fixpoint scanDigits (s : string) (acc count : Z) : Z * Z * string :=
  match s with
  | EmptyString => (acc, count, s)
  | String c t =>
      let n := Z.of_N (N_of_ascii c) in
      if (48 <=? n) && (n <=? 57)
      then scanDigits t (acc * 10 + (n - 48)) (count + 1)
      else (acc, count, s)
  end.

Definition signed (s : string) : bool * string :=
  match s with
  | String "+" t => (false, t)
  | String "-" t => (true, t)
  | _ => (false, s)
  end.

Definition decimal (negative : bool) (m e : Z) : Num :=
  if e >=? 0 then Int ((if negative then -1 else 1) * m * 10 ^ e)
  else Dec negative m e.

(** A decimal literal: a sign, then [Infinity] or digits with an optional
    point and an optional exponent. *)
Definition decimalLiteral (s : string) : Num :=
  let (negative, s) := signed s in
  if String.eqb s "Infinity" then Infinite negative
  else
    let '(whole, wholeDigits, s) := scanDigits s 0 0 in
    let '(m, fractionDigits, s) :=
      match s with
      | String "." t => scanDigits t whole 0
      | _ => (whole, 0, s)
      end in
    if wholeDigits + fractionDigits =? 0 then NaN
    else
      match s with
      | EmptyString => decimal negative m (- fractionDigits)
      | String c t =>
          if Ascii.eqb c "e" || Ascii.eqb c "E" then
            let (negativeExponent, t) := signed t in
            let '(exponent, exponentDigits, t) := scanDigits t 0 0 in
            if (exponentDigits =? 0) || negb (String.eqb t EmptyString)
            then NaN
            else decimal negative m
                         ((if negativeExponent then - exponent else exponent)
                          - fractionDigits)
          else NaN
      end.

(** The number a string stands for. *)
Definition stringToNumber (s : string) : Num :=
  match JsString.trim s with
  | EmptyString => Int 0
  | String "0" (String c t) as text =>
      if Ascii.eqb c "x" || Ascii.eqb c "X" then integerIn 16 t
      else if Ascii.eqb c "o" || Ascii.eqb c "O" then integerIn 8 t
      else if Ascii.eqb c "b" || Ascii.eqb c "B" then integerIn 2 t
      else decimalLiteral text
  | text => decimalLiteral text
  end.

(** The number a value stands for in a comparison.  An array or an object
    is read through its text. *)
Definition toNumber (v : value) : Num :=
  match v with
  | VUndefined => NaN
  | VNull => Int 0
  | VBool b => Int (if b then 1 else 0)
  | VNum n => Int n
  | VStr s => stringToNumber s
  | VArr _ | VObj _ => stringToNumber (render v)
  end.

(** [x > k] for the bounds the code compares with (0, 1, 5, 150, 500: a
    small [k] that is not negative).  A decimal fraction is rounded to the
    nearest double first, so it exceeds [k] when it lies above the middle
    between [k] and the next double, [k + 2^-j]. *)
Definition exceeds (x : Num) (k : Z) : bool :=
  match x with
  | NaN => false
  | Infinite negative => negb negative
  | Int n => n >? k
  | Dec negative m e =>
      if negative then false
      else
        let j := if k =? 0 then 1075 else 53 - Z.log2 k in
        m * 2 ^ j >? (k * 2 ^ j + 1) * 10 ^ (- e)
  end.

(** [v > k] *)
Definition gt (v : value) (k : Z) : bool := exceeds (toNumber v) k.

Record Analysis : Type := mkAnalysis {
  hasTitle : bool;
  hasBody : bool;
  hasImage : bool;
  hasBullets : bool;
  hasMultipleColumns : bool;
  contentLength : string;
  contentType : string;
  imageCount : value;
  bulletCount : value
}.

(** [Boolean(field && field.trim())]: only a string has [trim]. *)
Definition textFlag (field : value) : result bool :=
  if negb (truthy field) then Ok false
  else match field with
       | VStr s => Ok (JsString.truthy (JsString.trim s))
       | _ => Throw TypeError
       end.

(** [(field || '').toLowerCase()]: only a string has [toLowerCase]. *)
Definition lowered (field : value) : result string :=
  match orElse field (VStr EmptyString) with
  | VStr s => Ok (JsString.toLowerCase s)
  | _ => Throw TypeError
  end.

Definition determineContentType (content : value) (analysis : Analysis)
  : result string :=
  rawTitle <~ get content "title" ;;
  title <~ lowered rawTitle ;;
  rawBody <~ get content "body" ;;
  body <~ lowered rawBody ;;
  Ok (if JsString.includes title "agenda" || JsString.includes body "agenda"
      then "agenda"
      else if JsString.includes title "quote"
              || matchesClass [dquote; squote; squote] body
      then "quote"
      else if JsString.includes title "section"
              || JsString.includes title "chapter"
      then "section"
      else if hasImage analysis && negb (hasBody analysis)
      then "image-focused"
      else if hasBullets analysis && gt (bulletCount analysis) 5
      then "list-heavy"
      else if truthy (prop content "comparison")
              || JsString.includes title "vs"
              || JsString.includes title "versus"
      then "comparison"
      else if JsString.includes title "thank"
              || JsString.includes title "conclusion"
      then "closing"
      else "general").

Definition analyzeContent (content : value) : result Analysis :=
  title <~ get content "title" ;;
  hasTitle <~ textFlag title ;;
  body <~ get content "body" ;;
  hasBody <~ textFlag body ;;
  imageUrl <~ get content "imageUrl" ;;
  images <~ get content "images" ;;
  bullets <~ get content "bullets" ;;
  bulletPoints <~ get content "bulletPoints" ;;
  columns <~ get content "columns" ;;
  let bodyText := orElse body (VStr EmptyString) in
  let contentLength :=
    if gt (lengthOf bodyText) 500 then "long"
    else if gt (lengthOf bodyText) 150 then "medium"
    else "short" in
  let imageCount := VNum 0 in
  let imageCount := if truthy imageUrl then VNum 1 else imageCount in
  let imageCount := if truthy images then lengthOf images else imageCount in
  let bulletCount := VNum 0 in
  let bulletCount := if truthy bullets then lengthOf bullets else bulletCount in
  let bulletCount :=
    if truthy bulletPoints then lengthOf bulletPoints else bulletCount in
  let analysis :=
    {| hasTitle := hasTitle;
       hasBody := hasBody;
       hasImage := truthy (orElse imageUrl (optLengthOf images));
       hasBullets :=
         truthy (orElse (optLengthOf bullets) (optLengthOf bulletPoints));
       hasMultipleColumns := gt (optLengthOf columns) 1;
       contentLength := contentLength;
       contentType := "general";
       imageCount := imageCount;
       bulletCount := bulletCount |} in
  contentType <~ determineContentType content analysis ;;
  Ok {| hasTitle := hasTitle;
        hasBody := hasBody;
        hasImage := hasImage analysis;
        hasBullets := hasBullets analysis;
        hasMultipleColumns := hasMultipleColumns analysis;
        contentLength := contentLength;
        contentType := contentType;
        imageCount := imageCount;
        bulletCount := bulletCount |}.

(** [x === lit] *)
Definition isLit (x : value) (lit : string) : bool :=
  match x with VStr s => String.eqb s lit | _ => false end.

(** [types.includes(lit)] *)
Definition includesLit (types : list value) (lit : string) : bool :=
  existsb (fun t => isLit t lit) types.

(** [arr.map(p => p.type)] on the entries of an array. *)
Fixpoint typesOf (placeholders : list value) : result (list value) :=
  match placeholders with
  | [] => Ok []
  | p :: rest =>
      type <~ get p "type" ;;
      others <~ typesOf rest ;;
      Ok (type :: others)
  end.

(** [layout.placeholders.map(p => p.type)]: only an array has [map]. *)
Definition placeholderTypes (layout : value) : result (list value) :=
  placeholders <~ get layout "placeholders" ;;
  match placeholders with
  | VArr items => typesOf items
  | _ => Throw TypeError
  end.

(** [layout.displayName?.toUpperCase() || '']: only a string has
    [toUpperCase]. *)
Definition upperName (layout : value) : result string :=
  displayName <~ get layout "displayName" ;;
  match displayName with
  | VUndefined | VNull => Ok EmptyString
  | VStr s => Ok (JsString.toUpperCase s)
  | _ => Throw TypeError
  end.

Definition getLayoutCategory (layout : value) : result string :=
  placeholderTypes <~ placeholderTypes layout ;;
  displayName <~ upperName layout ;;
  Ok (if JsString.includes displayName "TITLE_ONLY"
         || JsString.includes displayName "TITLE ONLY" then "titleOnly"
      else if JsString.includes displayName "SECTION_HEADER"
      then "sectionHeader"
      else if JsString.includes displayName "TWO_COLUMNS"
      then "titleAndTwoColumns"
      else if JsString.includes displayName "BLANK" then "blank"
      else
        let hasTitle := includesLit placeholderTypes "TITLE" in
        let hasBody := includesLit placeholderTypes "BODY" in
        let bodyCount :=
          Z.of_nat (List.length
            (filter (fun t => isLit t "BODY" || isLit t "CONTENT")
                    placeholderTypes)) in
        if hasTitle && negb hasBody then "titleOnly"
        else if hasTitle && hasBody && (bodyCount =? 1) then "titleAndBody"
        else if hasTitle && (bodyCount >=? 2) then "titleAndTwoColumns"
        else if includesLit placeholderTypes "SUBTITLE" then "sectionHeader"
        else if Z.of_nat (List.length placeholderTypes) =? 0 then "blank"
        else "other").

(** [getCategoryScores] reads the same table. *)
Definition getCategoryScores (contentAnalysis : Analysis) (category : string)
  : Z :=
  orZero (orNum (ContentMatcher.cell (contentType contentAnalysis) category)
                (ContentMatcher.cell "general" category)).

Definition calculateLayoutScore (contentAnalysis : Analysis) (layout : value)
  : result Z :=
  placeholderTypes <~ placeholderTypes layout ;;
  category <~ getLayoutCategory layout ;;
  let score := 0 in
  let score := score + getCategoryScores contentAnalysis category in
  let score :=
    if hasTitle contentAnalysis && includesLit placeholderTypes "TITLE"
    then score + 20 else score in
  let score :=
    if hasBody contentAnalysis && includesLit placeholderTypes "BODY"
    then score + 15 else score in
  let score :=
    if hasImage contentAnalysis && includesLit placeholderTypes "PICTURE"
    then score + 10 else score in
  let score :=
    if negb (hasTitle contentAnalysis) && includesLit placeholderTypes "TITLE"
    then score - 5 else score in
  let score :=
    if negb (hasBody contentAnalysis) && includesLit placeholderTypes "BODY"
    then score - 5 else score in
  let score :=
    if String.eqb (contentLength contentAnalysis) "long"
       && String.eqb category "titleOnly"
    then score - 15 else score in
  let score :=
    if String.eqb (contentLength contentAnalysis) "short"
       && String.eqb category "titleAndTwoColumns"
    then score - 10 else score in
  Ok (Z.max 0 (Z.min 100 score)).

(** The number in the [score] field of a scored template, for
    [b.score - a.score]; a run stores a number there. *)
Definition scoreField (scored : value) : Z :=
  match prop scored "score" with VNum n => n | _ => 0 end.

(** [arr.some(p => p.type === lit)] on the entries of an array: the
    entries behind the first match are not read. *)
Fixpoint someType (placeholders : list value) (lit : string) : result bool :=
  match placeholders with
  | [] => Ok false
  | p :: rest =>
      type <~ get p "type" ;;
      if isLit type lit then Ok true else someType rest lit
  end.

(** [layout.placeholders.some(p => p.type === lit)]: only an array has
    [some]. *)
Definition hasPlaceholder (layout : value) (lit : string) : result bool :=
  placeholders <~ get layout "placeholders" ;;
  match placeholders with
  | VArr items => someType items lit
  | _ => Throw TypeError
  end.

Definition generateReasoning (contentAnalysis : Analysis)
  (selectedLayout : value) : result string :=
  let reasons : list string := [] in
  category <~ getLayoutCategory selectedLayout ;;
  let reasons :=
    if negb (String.eqb (contentType contentAnalysis) "general")
    then push reasons ("Content type '" ++ contentType contentAnalysis
                       ++ "' best matches " ++ category ++ " layout")
    else reasons in
  titleFits <~ (if hasTitle contentAnalysis
                then hasPlaceholder selectedLayout "TITLE" else Ok false) ;;
  let reasons :=
    if titleFits
    then push reasons "Layout has title placeholder for provided title"
    else reasons in
  bodyFits <~ (if hasBody contentAnalysis
               then hasPlaceholder selectedLayout "BODY" else Ok false) ;;
  let reasons :=
    if bodyFits
    then push reasons "Layout has body placeholder for provided content"
    else reasons in
  let reasons :=
    if hasImage contentAnalysis
    then push reasons "Layout can accommodate image content"
    else reasons in
  let reasons :=
    push reasons ("Score: " ++ render (prop selectedLayout "score")
                  ++ "/100") in
  Ok (JsString.join "; " reasons).

(** [fields] with the property [k] set to [v]: in place when the key is
    there, at the end otherwise. *)
Fixpoint setField (k : string) (v : value) (fields : list (string * value))
  : list (string * value) :=
  match fields with
  | [] => [(k, v)]
  | (k', v') :: rest =>
      if String.eqb k k' then (k, v) :: rest
      else (k', v') :: setField k v rest
  end.

(** [{...layout, score: s}]; only an object reaches this point with
    properties to copy. *)
Definition withScore (layout : value) (s : Z) : value :=
  match layout with
  | VObj fields => VObj (setField "score" (VNum s) fields)
  | _ => VObj [("score", VNum s)]
  end.

(** A run leaves the templates handed to the scorer so far. *)
Definition Traced (A : Type) : Type := (list value * result A)%type.

(** [layouts.map(layout => ({...layout, score: ...}))]: a call that
    throws ends the loop. *)
Fixpoint scoreAll (contentAnalysis : Analysis) (layouts : list value)
  : Traced (list value) :=
  match layouts with
  | [] => ([], Ok [])
  | layout :: rest =>
      match calculateLayoutScore contentAnalysis layout with
      | Throw e => ([layout], Throw e)
      | Ok s =>
          let (seen, others) := scoreAll contentAnalysis rest in
          (layout :: seen,
           match others with
           | Ok scored => Ok (withScore layout s :: scored)
           | Throw e => Throw e
           end)
      end
  end.

Record MatchResult : Type := mkMatchResult {
  bestLayout : value;
  alternatives : list value;
  contentAnalysis : Analysis;
  reasoning : string
}.

(** [!layouts || layouts.length === 0] *)
Definition noLayouts (layouts : value) : bool :=
  negb (truthy layouts)
  || match lengthOf layouts with VNum 0 => true | _ => false end.

Definition findBestLayout (content layouts : value) : Traced MatchResult :=
  if noLayouts layouts then ([], Throw NoLayoutsAvailable)
  else
    match analyzeContent content with
    | Throw e => ([], Throw e)
    | Ok contentAnalysis =>
        match layouts with
        | VArr items =>
            let (seen, scored) := scoreAll contentAnalysis items in
            (seen,
             scoredLayouts <~ scored ;;
             match sort (fun a b => scoreField b - scoreField a)
                        scoredLayouts with
             | [] => Throw TypeError     (* scoredLayouts[0] is undefined *)
             | best :: others =>
                 reasoning <~ generateReasoning contentAnalysis best ;;
                 Ok {| bestLayout := best;
                       alternatives := firstn 2 others;
                       contentAnalysis := contentAnalysis;
                       reasoning := reasoning |}
             end)
        | _ => ([], Throw TypeError)   (* layouts.map is not a function *)
        end
    end.

(** ** The request builders on untyped input

    [prepareSlideRequests] of n8n-functions/complete-workflow.js and
    [buildSlideRequests] of external-service/server.js, on whatever
    template, content and options they are handed.  A property that is
    [undefined] in a request is a property the request does not have. *)

Inductive Request : Type :=
| CreateSlide (objectId : string) (layoutId insertionIndex : value)
| InsertText (objectId text : value) (insertionIndex : Z)
| ReplaceImage (imageObjectId url imageReplaceMethod : value).

(** [byType[k].push(x)] once the key exists. *)
Fixpoint pushUnder (k : string) (x : value)
  (byType : list (string * list value)) : list (string * list value) :=
  match byType with
  | [] => []
  | (k', bucket) :: rest =>
      if String.eqb k k' then (k', push bucket x) :: rest
      else (k', bucket) :: pushUnder k x rest
  end.

(** The grouping loop:
    [if (!byType[p.type]) byType[p.type] = []; byType[p.type].push(p)].
    The type is turned into a property name; on a name every object
    inherits the test finds a value without [push], and the call throws. *)
Fixpoint groupByType (placeholders : list value)
  (byType : list (string * list value))
  : result (list (string * list value)) :=
  match placeholders with
  | [] => Ok byType
  | placeholder :: rest =>
      type <~ get placeholder "type" ;;
      let k := render type in
      if existsb (String.eqb k) objectPrototypeKeys then Throw TypeError
      else
        let byType :=
          match lookup k byType with
          | Some _ => byType
          | None => push byType (k, [])
          end in
        groupByType rest (pushUnder k placeholder byType)
  end.

(** [layout.placeholders.forEach(...)]: only an array has [forEach]. *)
Definition groupPlaceholders (layout : value)
  : result (list (string * list value)) :=
  placeholders <~ get layout "placeholders" ;;
  match placeholders with
  | VArr items => groupByType items []
  | _ => Throw TypeError
  end.

(** [bucket[0].objectId] *)
Definition firstObjectId (bucket : list value) : result value :=
  match bucket with
  | first :: _ => get first "objectId"
  | [] => Throw TypeError
  end.

(** [bullets.map(bullet => `${prefix}${bullet}`).join('\n')]: only an
    array has [map]. *)
Definition bulletLines (prefix : string) (bullets : value) : result value :=
  match bullets with
  | VArr items =>
      Ok (VStr (JsString.join newline
                  (map (fun bullet => prefix ++ render bullet) items)))
  | _ => Throw TypeError
  end.

Definition prepareSlideRequests (layout content : value) (slideId : string)
  : result (list Request) :=
  let requests : list Request := [] in
  layoutId <~ get layout "objectId" ;;
  let requests := push requests (CreateSlide slideId layoutId VUndefined) in
  placeholdersByType <~ groupPlaceholders layout ;;
  title <~ get content "title" ;;
  requests <~
    (if truthy title then
       match lookup "TITLE" placeholdersByType with
       | Some bucket =>
           objectId <~ firstObjectId bucket ;;
           Ok (push requests (InsertText objectId title 0))
       | None => Ok requests
       end
     else Ok requests) ;;
  body <~ get content "body" ;;
  requests <~
    (if truthy body then
       match lookup "BODY" placeholdersByType with
       | Some bucket =>
           bullets <~ get content "bullets" ;;
           bodyText <~
             (if truthy bullets && gt (lengthOf bullets) 0
              then bulletLines CompleteWorkflow.bulletPrefix bullets
              else Ok body) ;;
           objectId <~ firstObjectId bucket ;;
           Ok (push requests (InsertText objectId bodyText 0))
       | None => Ok requests
       end
     else Ok requests) ;;
  subtitle <~ get content "subtitle" ;;
  requests <~
    (if truthy subtitle then
       match lookup "SUBTITLE" placeholdersByType with
       | Some bucket =>
           objectId <~ firstObjectId bucket ;;
           Ok (push requests (InsertText objectId subtitle 0))
       | None => Ok requests
       end
     else Ok requests) ;;
  imageUrl <~ get content "imageUrl" ;;
  requests <~
    (if truthy imageUrl then
       match lookup "PICTURE" placeholdersByType with
       | Some bucket =>
           objectId <~ firstObjectId bucket ;;
           Ok (push requests (ReplaceImage objectId imageUrl VUndefined))
       | None => Ok requests
       end
     else Ok requests) ;;
  Ok requests.

(** The loop over the columns of [buildSlideRequests], [index] being the
    rank of the first column of [columns]. *)
Fixpoint columnRequests (bucket : list value) (index : nat)
  (columns : list value) (requests : list Request)
  : result (list Request) :=
  match columns with
  | [] => Ok requests
  | columnContent :: rest =>
      requests <~
        match nth_error bucket index with
        | Some placeholder =>
            if truthy placeholder then
              objectId <~ get placeholder "objectId" ;;
              Ok (push requests (InsertText objectId columnContent 0))
            else Ok requests
        | None => Ok requests
        end ;;
      columnRequests bucket (S index) rest requests
  end.

Definition buildSlideRequests (slideId : string)
  (layout content options : value) : result (list Request) :=
  (* options = {} *)
  let options := match options with VUndefined => VObj [] | _ => options end in
  let requests : list Request := [] in
  layoutId <~ get layout "objectId" ;;
  insertIndex <~ get options "insertIndex" ;;
  let requests := push requests (CreateSlide slideId layoutId insertIndex) in
  placeholdersByType <~ groupPlaceholders layout ;;
  title <~ get content "title" ;;
  requests <~
    (if truthy title then
       match lookup "TITLE" placeholdersByType with
       | Some bucket =>
           objectId <~ firstObjectId bucket ;;
           Ok (push requests (InsertText objectId title 0))
       | None => Ok requests
       end
     else Ok requests) ;;
  body <~ get content "body" ;;
  requests <~
    (if truthy body then
       match lookup "BODY" placeholdersByType with
       | Some bucket =>
           bullets <~ get content "bullets" ;;
           bodyText <~
             (if truthy bullets && gt (lengthOf bullets) 0
              then bulletLines Server.bulletPrefix bullets
              else Ok body) ;;
           objectId <~ firstObjectId bucket ;;
           Ok (push requests (InsertText objectId bodyText 0))
       | None => Ok requests
       end
     else Ok requests) ;;
  subtitle <~ get content "subtitle" ;;
  requests <~
    (if truthy subtitle then
       match lookup "SUBTITLE" placeholdersByType with
       | Some bucket =>
           objectId <~ firstObjectId bucket ;;
           Ok (push requests (InsertText objectId subtitle 0))
       | None => Ok requests
       end
     else Ok requests) ;;
  imageUrl <~ get content "imageUrl" ;;
  requests <~
    (if truthy imageUrl then
       match lookup "PICTURE" placeholdersByType with
       | Some bucket =>
           objectId <~ firstObjectId bucket ;;
           imageReplaceMethod <~ get options "imageReplaceMethod" ;;
           Ok (push requests
                 (ReplaceImage objectId imageUrl
                               (orElse imageReplaceMethod
                                       (VStr "CENTER_INSIDE"))))
       | None => Ok requests
       end
     else Ok requests) ;;
  columns <~ get content "columns" ;;
  requests <~
    (if truthy columns then
       match lookup "CONTENT" placeholdersByType with
       | Some bucket =>
           match columns with
           | VArr items => columnRequests bucket 0 items requests
           | _ => Throw TypeError   (* columns.forEach is not a function *)
           end
       | None => Ok requests
       end
     else Ok requests) ;;
  Ok requests.

End Untyped.

(** * Sample inputs and proof automation *)

Ltac split_ifs :=
  repeat match goal with
         | |- context [if ?b then _ else _] => destruct b
         end.

Ltac split_eqb c :=
  repeat match goal with
         | |- context [String.eqb c ?lit] =>
             destruct (String.eqb c lit) eqn:?
         end.

(** A comparison with title, body and image on a
    two-column template offering the three placeholders. *)
Definition fullComparison : ContentAnalysis :=
  {| hasTitle := true; hasBody := true; hasImage := true;
     hasBullets := false; hasMultipleColumns := false;
     contentLength := "medium"; contentType := "comparison";
     imageCount := 1; bulletCount := 0 |}.

Definition slot (role : string) : Placeholder.t :=
  Placeholder.mk "p" (Some role) None.

Definition twoColumnsWithPicture : Layout.t :=
  Layout.mk "layout85" (Some "TWO_COLUMNS")
            [slot "TITLE"; slot "BODY"; slot "PICTURE"] 0.


(** Content given by its title alone, and by title and body. *)
Definition titled (t : string) : Content :=
  mkContent (Some t) None None None None None None false.

Definition titledWithBody (t b : string) : Content :=
  mkContent (Some t) (Some b) None None None None None false.

Definition comparisonContent : Content := titled "Plan A vs Plan B".

Definition weeklyAgenda : Content := titled "Weekly Agenda and Quote".

Definition apostropheOnly : Content :=
  titledWithBody "Team update" "We don't stop here".

(** Content of a section slide with text and a picture, and a template
    named after sections that offers the three placeholders. *)
Definition sectionContent : Content :=
  mkContent (Some "Section One") (Some "Overview") (Some "http://x/y.png")
            None None None None false.

Definition sectionLayout : Layout.t :=
  Layout.mk "layout110" (Some "Section with picture")
            [slot "TITLE"; slot "BODY"; slot "PICTURE"] 0.

(** ** Vocabulary of the statements *)

(** The field mentions the token, whatever the case of its letters. *)
Definition mentions (field : option string) (token : string) : bool :=
  JsString.includes (JsString.toLowerCase (orEmpty field)) token.

(** The text holds one of the given characters. *)
Definition holdsChar (cls : list ascii) (field : option string) : bool :=
  matchesClass cls (orEmpty field).

(** Rule 1 of the classifier. *)
Definition agendaRule (c : Content) : bool :=
  mentions (title c) "agenda" || mentions (body c) "agenda".

(** The base scores of a comparison, category by category: its own row,
    then the general row for the categories its row leaves out. *)
Definition comparisonScore (category : string) : Z :=
  if String.eqb category "titleAndTwoColumns" then 40
  else if String.eqb category "titleAndBody" then 25
  else if String.eqb category "blank" then 20
  else if String.eqb category "titleOnly" then 25
  else if String.eqb category "sectionHeader" then 20
  else 0.

(** The general row, with 0 for a category it does not list. *)
Definition generalScore (category : string) : Z :=
  if String.eqb category "titleAndBody" then 35
  else if String.eqb category "titleOnly" then 25
  else if String.eqb category "sectionHeader" then 20
  else if String.eqb category "titleAndTwoColumns" then 15
  else if String.eqb category "blank" then 10
  else 0.

(** Templates on which the two categorizers are compared. *)
Definition titleTwoSubtitles : Layout.t :=
  Layout.mk "layoutTSS" (Some "Custom")
            [slot "TITLE"; slot "SUBTITLE"; slot "SUBTITLE"] 0.

Definition spacedSectionHeader : Layout.t :=
  Layout.mk "layoutSH" (Some "Section Header") [] 0.

Definition titleSubtitle : Layout.t :=
  Layout.mk "layoutTS" (Some "Custom") [slot "TITLE"; slot "SUBTITLE"] 0.

Definition titleBody : Layout.t :=
  Layout.mk "layoutTB" (Some "Title and Body") [slot "TITLE"; slot "BODY"] 0.

(** The display name, in upper case, holds the token. *)
Definition named (layout : Layout.t) (token : string) : bool :=
  JsString.includes
    (JsString.toUpperCase (orEmpty (Layout.displayName layout))) token.

(** The template has a placeholder of the role. *)
Definition hasRole (layout : Layout.t) (role : string) : bool :=
  arrIncludes (Layout.placeholderTypes layout) role.

(** Raw presentations: no layouts field, and an empty layouts array. *)
Definition noLayoutsField : value := VObj [ ("title", VStr "Deck") ].

Definition zeroLayouts : value :=
  VObj [ ("title", VStr "Deck"); ("layouts", VArr []) ].

(** The objects [layouts.map] allocates, the first one with rank [i]. *)
Fixpoint allocated (a : ContentAnalysis) (i : nat) (layouts : list Layout.t)
  : list Scored :=
  match layouts with
  | [] => []
  | layout :: rest =>
      {| ref := i;
         obj := Layout.withScore layout
                  (ContentMatcher.calculateLayoutScore a layout) |}
      :: allocated a (S i) rest
  end.

(** [x] is ranked before [y]: a higher score, or the same score and an
    earlier place in the input. *)
Definition precedes (x y : Scored) : Prop :=
  scoreOf y < scoreOf x \/ (scoreOf x = scoreOf y /\ (ref x < ref y)%nat).

(** A blank template, and a run in which two templates tie. *)
Definition blankLayout : Layout.t := Layout.mk "layoutB" (Some "Blank") [] 0.

Definition strategy : Content := titledWithBody "Q1 Strategy" "Some body".

Definition tiedLayouts : list Layout.t :=
  [blankLayout; titleBody; titleTwoSubtitles; titleBody].

(** The identifier of a scored template. *)
Definition idOf (s : Scored) : string := Layout.objectId (obj s).

(** ** Further vocabulary and sample inputs *)

(** The profile [a] under another tag. *)
Definition retag (a : ContentAnalysis) (tag : string) : ContentAnalysis :=
  {| hasTitle := hasTitle a; hasBody := hasBody a; hasImage := hasImage a;
     hasBullets := hasBullets a; hasMultipleColumns := hasMultipleColumns a;
     contentLength := contentLength a; contentType := tag;
     imageCount := imageCount a; bulletCount := bulletCount a |}.

(** Nothing to show, against a template that fits no category and
    reserves a title and a body next to a picture. *)
Definition emptyContent : Content :=
  mkContent None None None None None None None false.

Definition pictureHeavy : Layout.t :=
  Layout.mk "layoutP" (Some "Gallery")
            [slot "PICTURE"; slot "TITLE"; slot "BODY"; slot "BODY";
             slot "PICTURE"] 0.

(** An image url next to an empty list of images; six bullets next to an
    empty list of bullet points. *)
Definition urlAndNoImages : Content :=
  mkContent (Some "Photo") None (Some "http://x/y.png") (Some [])
            None None None false.

Definition bulletsOverridden : Content :=
  mkContent (Some "Points") None None None
            (Some ["a"; "b"; "c"; "d"; "e"; "f"]) (Some []) None false.

(** Every template of the sequence has a display name. *)
Definition allNamed (layouts : list Layout.t) : bool :=
  forallb (fun l => match Layout.displayName l with
                    | Some _ => true
                    | None => false
                    end) layouts.

(** The placeholders filed under the key [k], in order. *)
Definition bucketOf (k : string) (placeholders : list Placeholder.t)
  : list Placeholder.t :=
  filter (fun p => String.eqb (typeKey (Placeholder.type p)) k) placeholders.

(** The type of the placeholder is a name every object inherits. *)
Definition inheritedKey (p : Placeholder.t) : bool :=
  existsb (String.eqb (typeKey (Placeholder.type p))) objectPrototypeKeys.

(** The first placeholder of the template with the given role. *)
Definition firstOfRole (layout : Layout.t) (role : string)
  : option Placeholder.t :=
  hd_error (bucketOf role (Layout.placeholders layout)).

(** The text sent to the body placeholder: the bullets, one per line
    behind the prefix, when there are any, the body otherwise. *)
Definition bodyTextOf (prefix : string) (c : Content) : string :=
  match bullets c with
  | Some ((_ :: _) as items) =>
      JsString.join newline (map (fun bullet => (prefix ++ bullet)%string) items)
  | _ => orEmpty (body c)
  end.

(** The request made for a field: none when the field is empty or the
    template has no placeholder of the role. *)
Definition editFor (layout : Layout.t) (role : string) (field : option string)
  (request : Placeholder.t -> Request) : list Request :=
  if truthyField field then
    match firstOfRole layout role with
    | Some p => [request p]
    | None => []
    end
  else [].

(** The edits of the workflow, in the order it makes them. *)
Definition plannedEdits (layout : Layout.t) (content : SlideContent)
  : list Request :=
  let c := fields content in
  (editFor layout "TITLE" (title c)
     (fun p => InsertText (Placeholder.objectId p) (orEmpty (title c)) 0)
   ++ editFor layout "BODY" (body c)
        (fun p => InsertText (Placeholder.objectId p)
                             (bodyTextOf CompleteWorkflow.bulletPrefix c) 0)
   ++ editFor layout "SUBTITLE" (subtitle content)
        (fun p => InsertText (Placeholder.objectId p)
                             (orEmpty (subtitle content)) 0)
   ++ editFor layout "PICTURE" (imageUrl c)
        (fun p => ReplaceImage (Placeholder.objectId p)
                               (orEmpty (imageUrl c)) None))%list.

(** The placeholder a request writes to, if any. *)
Definition targetOf (r : Request) : option string :=
  match r with
  | CreateSlide _ _ _ => None
  | InsertText objectId _ _ => Some objectId
  | ReplaceImage imageObjectId _ _ => Some imageObjectId
  end.

(** A template with two body placeholders, and content with bullets. *)
Definition twoBodies : Layout.t :=
  Layout.mk "layoutBB" (Some "Two bodies")
            [Placeholder.mk "t1" (Some "TITLE") None;
             Placeholder.mk "b1" (Some "BODY") None;
             Placeholder.mk "b2" (Some "BODY") None;
             Placeholder.mk "c1" (Some "CONTENT") None] 0.

Definition bulletedSlide : SlideContent :=
  mkSlideContent
    (mkContent (Some "Plan") (Some "ignored") None None
               (Some ["one"; "two"]) None (Some ["left"; "right"]) false)
    None.

Definition bulletsWithoutBody : SlideContent :=
  mkSlideContent
    (mkContent (Some "Plan") None None None
               (Some ["one"; "two"]) None None false)
    None.

Definition inheritedType : Layout.t :=
  Layout.mk "layoutI" (Some "Odd")
            [Placeholder.mk "t1" (Some "TITLE") None;
             Placeholder.mk "x1" (Some "constructor") None] 0.

(** The content with other bullets, and with another body. *)
Definition setBullets (content : SlideContent)
  (items : option (list string)) : SlideContent :=
  let c := fields content in
  mkSlideContent
    (mkContent (title c) (body c) (imageUrl c) (images c) items
               (bulletPoints c) (columns c) (comparison c))
    (subtitle content).

Definition setBody (content : SlideContent) (text : option string)
  : SlideContent :=
  let c := fields content in
  mkSlideContent
    (mkContent (title c) text (imageUrl c) (images c) (bullets c)
               (bulletPoints c) (columns c) (comparison c))
    (subtitle content).

(** The edits of the service: those of the workflow, with its own bullet
    and a method for the image, then one text per column, the i-th column
    into the i-th content placeholder, as far as both last. *)
Definition servicePlan (layout : Layout.t) (content : SlideContent)
  (options : Server.Options) : list Request :=
  let c := fields content in
  (editFor layout "TITLE" (title c)
     (fun p => InsertText (Placeholder.objectId p) (orEmpty (title c)) 0)
   ++ editFor layout "BODY" (body c)
        (fun p => InsertText (Placeholder.objectId p)
                             (bodyTextOf Server.bulletPrefix c) 0)
   ++ editFor layout "SUBTITLE" (subtitle content)
        (fun p => InsertText (Placeholder.objectId p)
                             (orEmpty (subtitle content)) 0)
   ++ editFor layout "PICTURE" (imageUrl c)
        (fun p => ReplaceImage
                    (Placeholder.objectId p) (orEmpty (imageUrl c))
                    (Some (if truthyField (Server.imageReplaceMethod options)
                           then orEmpty (Server.imageReplaceMethod options)
                           else "CENTER_INSIDE")))
   ++ map (fun pc : Placeholder.t * string =>
             InsertText (Placeholder.objectId (fst pc)) (snd pc) 0)
          (combine (bucketOf "CONTENT" (Layout.placeholders layout))
                   (match columns c with Some cols => cols | None => [] end))
  )%list.

(** ** Vocabulary for the extractor *)

(** The page element declares a placeholder role. *)
Definition declaresRole (element : value) : bool :=
  truthy (prop element "shape")
  && truthy (prop (prop element "shape") "placeholder").

(** The entries of an array, nothing for any other value. *)
Definition entries (v : value) : list value :=
  match v with VArr items => items | _ => [] end.

Definition isArray (v : value) : bool :=
  match v with VArr _ => true | _ => false end.

(** A raw template the extractor can read: not [null] or [undefined], its
    page elements missing (or falsy), or an array without [null] or
    [undefined] entries. *)
Definition wellFormedLayout (layout : value) : bool :=
  negb (nullish layout)
  && (negb (truthy (prop layout "pageElements"))
      || (isArray (prop layout "pageElements")
          && forallb (fun e => negb (nullish e))
                     (entries (prop layout "pageElements")))).

Definition wellFormedPresentation (presentation : value) : bool :=
  negb (nullish presentation)
  && (negb (truthy (prop presentation "layouts"))
      || (isArray (prop presentation "layouts")
          && forallb wellFormedLayout
                     (entries (prop presentation "layouts")))).

(** A coordinate is never missing: a truthy value or the number 0. *)
Definition definedCoordinate (v : value) : bool :=
  truthy v || match v with VNum 0 => true | _ => false end.

(** The geometry of an extracted placeholder: [null], or the four
    coordinates. *)
Definition boundsOk (bounds : value) : bool :=
  match bounds with
  | VNull => true
  | VObj [ (kx, x); (ky, y); (kw, w); (kh, h) ] =>
      String.eqb kx "x" && String.eqb ky "y" && String.eqb kw "width"
      && String.eqb kh "height"
      && definedCoordinate x && definedCoordinate y
      && definedCoordinate w && definedCoordinate h
  | _ => false
  end.

(** An extracted template: a display name that is not empty, the score 0,
    and an array of placeholders with sound geometry. *)
Definition extractedOk (layout : value) : bool :=
  truthy (prop layout "displayName")
  && match prop layout "score" with VNum 0 => true | _ => false end
  && isArray (prop layout "placeholders")
  && forallb (fun ph => boundsOk (prop ph "bounds"))
             (entries (prop layout "placeholders")).

Definition idsOf (vs : list value) : list value :=
  map (fun v => prop v "objectId") vs.

(** A presentation with two templates; one with a [null] template. *)
Definition rawTitleElement : value :=
  VObj [ ("objectId", VStr "e1");
         ("shape", VObj [ ("placeholder", VObj [ ("type", VStr "TITLE") ]) ]);
         ("size", VObj [ ("width", VObj [ ("magnitude", VNum 300) ]) ]);
         ("transform", VObj [ ("translateX", VNum 12) ]) ].

Definition rawPicture : value :=
  VObj [ ("objectId", VStr "e2"); ("image", VObj []) ].

Definition twoRawLayouts : value :=
  VObj [ ("layouts",
          VArr [ VObj [ ("objectId", VStr "L1");
                        ("layoutProperties",
                          VObj [ ("displayName", VStr "Title") ]);
                        ("pageElements",
                          VArr [ rawTitleElement; rawPicture ]) ];
                 VObj [ ("objectId", VStr "L2") ] ]) ].

Definition nullTemplate : value :=
  VObj [ ("layouts", VArr [ VObj [ ("objectId", VStr "L1") ]; VNull ]) ].

(** ** Vocabulary for categories and statistics *)

Definition categoryKeys : list string :=
  [ "titleOnly"; "titleAndBody"; "titleAndTwoColumns"; "sectionHeader";
    "blank"; "other" ].

(** The templates the extractor-side categorizer files under [k]. *)
Definition filedUnder (k : string) (layouts : list Layout.t)
  : list Layout.t :=
  filter (fun l => String.eqb (LayoutAnalyzer.categoryOf l) k) layouts.

(** The placeholder types of all templates, in order of appearance. *)
Definition allTypes (layouts : list Layout.t) : list (option string) :=
  flat_map Layout.placeholderTypes layouts.

Definition sumZ (l : list Z) : Z := fold_right Z.add 0 l.

(** A template named "Title Only" that has a body placeholder too. *)
Definition titleOnlySpaced : Layout.t :=
  Layout.mk "layoutTO" (Some "Title Only") [slot "TITLE"; slot "BODY"] 0.

(** What the explanation says of a template it lists as an alternative
    when its score is 0. *)
Definition unscoredAlternative (l : Layout.t) : Server.Alternative :=
  {| Server.displayName := Layout.displayName l;
     Server.score := 0;
     Server.reason := "Would work adequately for this content" |}.

(** The templates other than the selected one, by identifier. *)
Definition othersThan (selected : Layout.t) (layouts : list Layout.t)
  : list Layout.t :=
  filter (fun l => negb (String.eqb (Layout.objectId l)
                                    (Layout.objectId selected))) layouts.

(** A bucket found under a key, extended by later placeholders. *)
Definition merged (found : option (list Placeholder.t))
  (later : list Placeholder.t) : option (list Placeholder.t) :=
  match found with
  | Some bucket => Some (bucket ++ later)%list
  | None => match later with [] => None | _ => Some later end
  end.


(** A template without display name. *)
Definition unnamedLayout : Layout.t :=
  Layout.mk "layoutU" None [slot "TITLE"] 0.

(** What the explanation says of a template it lists as an alternative. *)
Definition describedAlternative (l : Layout.t) : Server.Alternative :=
  {| Server.displayName := Layout.displayName l;
     Server.score := Layout.score l;
     Server.reason :=
       if Layout.score l >? 50
       then "Would work well for this content"
       else "Would work adequately for this content" |}.

(** The templates of a list, each with its place in the list, the first
    place being [i]. *)
Fixpoint placed (i : nat) (layouts : list Layout.t) : list Scored :=
  match layouts with
  | [] => []
  | l :: rest => {| ref := i; obj := l |} :: placed (S i) rest
  end.

(** Templates that arrive with scores. *)
Definition scoredTemplates : list Layout.t :=
  [ Layout.mk "a" (Some "A") [] 10;
    Layout.mk "b" (Some "B") [] 60;
    Layout.mk "layoutTB" (Some "Title and Body") [] 99;
    Layout.mk "c" (Some "C") [] 45;
    Layout.mk "d" (Some "D") [] 60 ].

(** ** Vocabulary for untyped input *)










(** ** The typed data as values *)

Definition encodeText (s : option string) : value :=
  match s with Some x => VStr x | None => VUndefined end.

Definition encodeTexts (l : option (list string)) : value :=
  match l with Some xs => VArr (map VStr xs) | None => VUndefined end.

Definition encodeContent (c : Content) : value :=
  VObj [ ("title", encodeText (title c));
         ("body", encodeText (body c));
         ("imageUrl", encodeText (imageUrl c));
         ("images", encodeTexts (images c));
         ("bullets", encodeTexts (bullets c));
         ("bulletPoints", encodeTexts (bulletPoints c));
         ("columns", encodeTexts (columns c));
         ("comparison", VBool (comparison c)) ].

Definition encodePlaceholder (p : Placeholder.t) : value :=
  VObj [ ("objectId", VStr (Placeholder.objectId p));
         ("type", encodeText (Placeholder.type p));
         ("index", match Placeholder.index p with
                   | Some n => VNum n
                   | None => VUndefined
                   end) ].

Definition encodeLayout (l : Layout.t) : value :=
  VObj [ ("objectId", VStr (Layout.objectId l));
         ("displayName", encodeText (Layout.displayName l));
         ("placeholders", VArr (map encodePlaceholder (Layout.placeholders l)));
         ("score", VNum (Layout.score l)) ].

Definition encodeAnalysis (a : ContentAnalysis) : Untyped.Analysis :=
  {| Untyped.hasTitle := hasTitle a;
     Untyped.hasBody := hasBody a;
     Untyped.hasImage := hasImage a;
     Untyped.hasBullets := hasBullets a;
     Untyped.hasMultipleColumns := hasMultipleColumns a;
     Untyped.contentLength := contentLength a;
     Untyped.contentType := contentType a;
     Untyped.imageCount := VNum (imageCount a);
     Untyped.bulletCount := VNum (bulletCount a) |}.

Definition encodeResult (r : MatchResult) : Untyped.MatchResult :=
  {| Untyped.bestLayout := encodeLayout (obj (bestLayout r));
     Untyped.alternatives :=
       map (fun s => encodeLayout (obj s)) (alternatives r);
     Untyped.contentAnalysis := encodeAnalysis (contentAnalysis r);
     Untyped.reasoning := reasoning r |}.

Definition encodeOutcome (o : result MatchResult)
  : result Untyped.MatchResult :=
  match o with
  | Ok r => Ok (encodeResult r)
  | Throw e => Throw e
  end.

(** ** Vocabulary for the request builders on untyped input *)

(** The property name under which a placeholder is filed. *)
Definition roleOf (p : value) : string := Untyped.render (prop p "type").

(** A placeholder the grouping can file: not [null] or [undefined], and
    not under a name every object inherits. *)
Definition fileable (p : value) : bool :=
  negb (nullish p)
  && negb (existsb (String.eqb (roleOf p)) objectPrototypeKeys).

(** A template the grouping can read. *)
Definition groupable (layout : value) : bool :=
  negb (nullish layout)
  && isArray (prop layout "placeholders")
  && forallb fileable (entries (prop layout "placeholders")).

(** The placeholders of the template filed under [role], in order. *)
Definition holders (role : string) (layout : value) : list value :=
  filter (fun p => String.eqb (roleOf p) role)
         (entries (prop layout "placeholders")).

(** The bullets are used: truthy, with a length above 0. *)
Definition bulleted (content : value) : bool :=
  truthy (prop content "bullets")
  && Untyped.gt (Untyped.lengthOf (prop content "bullets")) 0.

(** The body text can be made: the body is not sent, or the bullets are
    not used, or they are an array. *)
Definition bodyReadable (layout content : value) : bool :=
  negb (truthy (prop content "body"))
  || match holders "BODY" layout with [] => true | _ :: _ => false end
  || negb (bulleted content)
  || isArray (prop content "bullets").

(** The columns can be sent: there are none, or no placeholder for them,
    or they are an array. *)
Definition columnsReadable (layout content : value) : bool :=
  negb (truthy (prop content "columns"))
  || match holders "CONTENT" layout with [] => true | _ :: _ => false end
  || isArray (prop content "columns").

(** Input on which the workflow, and the service, can build requests. *)
Definition preparable (layout content : value) : bool :=
  groupable layout && negb (nullish content) && bodyReadable layout content.

Definition buildable (layout content options : value) : bool :=
  match options with VNull => false | _ => true end
  && preparable layout content
  && columnsReadable layout content.

(** The text sent to the body placeholder. *)
Definition bodyValue (prefix : string) (content : value) : value :=
  if bulleted content
  then VStr (JsString.join newline
               (map (fun bullet => (prefix ++ Untyped.render bullet)%string)
                    (entries (prop content "bullets"))))
  else prop content "body".

(** The request made for a field: none when the field is falsy or the
    template has no placeholder of the role; else one aimed at the first
    such placeholder. *)
Definition requestFor (layout : value) (role : string) (field : value)
  (request : value -> Untyped.Request) : list Untyped.Request :=
  if truthy field then
    match holders role layout with
    | p :: _ => [request (prop p "objectId")]
    | [] => []
    end
  else [].

(** The edits of the workflow on untyped input, in the order it makes
    them. *)
Definition preparedEdits (layout content : value) : list Untyped.Request :=
  (requestFor layout "TITLE" (prop content "title")
     (fun id => Untyped.InsertText id (prop content "title") 0)
   ++ requestFor layout "BODY" (prop content "body")
        (fun id => Untyped.InsertText id
                     (bodyValue CompleteWorkflow.bulletPrefix content) 0)
   ++ requestFor layout "SUBTITLE" (prop content "subtitle")
        (fun id => Untyped.InsertText id (prop content "subtitle") 0)
   ++ requestFor layout "PICTURE" (prop content "imageUrl")
        (fun id => Untyped.ReplaceImage id (prop content "imageUrl")
                                        VUndefined))%list.

(** The options the service works with: none given means no option set. *)
Definition given (options : value) : value :=
  match options with VUndefined => VObj [] | _ => options end.

(** The edits of the service on untyped input. *)
Definition builtEdits (layout content options : value)
  : list Untyped.Request :=
  (requestFor layout "TITLE" (prop content "title")
     (fun id => Untyped.InsertText id (prop content "title") 0)
   ++ requestFor layout "BODY" (prop content "body")
        (fun id => Untyped.InsertText id
                     (bodyValue Server.bulletPrefix content) 0)
   ++ requestFor layout "SUBTITLE" (prop content "subtitle")
        (fun id => Untyped.InsertText id (prop content "subtitle") 0)
   ++ requestFor layout "PICTURE" (prop content "imageUrl")
        (fun id => Untyped.ReplaceImage id (prop content "imageUrl")
                     (orElse (prop (given options) "imageReplaceMethod")
                             (VStr "CENTER_INSIDE")))
   ++ (if truthy (prop content "columns")
       then map (fun pc : value * value =>
                   Untyped.InsertText (prop (fst pc) "objectId") (snd pc) 0)
                (combine (holders "CONTENT" layout)
                         (entries (prop content "columns")))
       else []))%list.

(** A bucket found under a key, extended by later entries. *)
Definition extended {A : Type} (found : option (list A)) (later : list A)
  : option (list A) :=
  match found with
  | Some bucket => Some (bucket ++ later)%list
  | None => match later with [] => None | _ => Some later end
  end.

(** Content for slide creation and requests, as values. *)
Definition encodeSlideContent (c : SlideContent) : value :=
  VObj [ ("title", encodeText (title (fields c)));
         ("body", encodeText (body (fields c)));
         ("imageUrl", encodeText (imageUrl (fields c)));
         ("images", encodeTexts (images (fields c)));
         ("bullets", encodeTexts (bullets (fields c)));
         ("bulletPoints", encodeTexts (bulletPoints (fields c)));
         ("columns", encodeTexts (columns (fields c)));
         ("comparison", VBool (comparison (fields c)));
         ("subtitle", encodeText (subtitle c)) ].

Definition encodeOptions (o : Server.Options) : value :=
  VObj [ ("insertIndex", match Server.insertIndex o with
                         | Some n => VNum n
                         | None => VUndefined
                         end);
         ("imageReplaceMethod", encodeText (Server.imageReplaceMethod o)) ].

Definition encodeRequest (r : Request) : Untyped.Request :=
  match r with
  | CreateSlide objectId layoutId insertionIndex =>
      Untyped.CreateSlide objectId (VStr layoutId)
        match insertionIndex with Some n => VNum n | None => VUndefined end
  | InsertText objectId text insertionIndex =>
      Untyped.InsertText (VStr objectId) (VStr text) insertionIndex
  | ReplaceImage imageObjectId url imageReplaceMethod =>
      Untyped.ReplaceImage (VStr imageObjectId) (VStr url)
                           (encodeText imageReplaceMethod)
  end.

Definition encodeRequests (o : result (list Request))
  : result (list Untyped.Request) :=
  match o with
  | Ok requests => Ok (map encodeRequest requests)
  | Throw e => Throw e
  end.

(** Untyped input for the builders: bullets that are text, a template
    with a null placeholder, columns that are text. *)
Definition rawTwoBodies : value :=
  VObj [ ("objectId", VStr "layoutBB");
         ("displayName", VStr "Two bodies");
         ("placeholders",
           VArr [ VObj [ ("objectId", VStr "t1"); ("type", VStr "TITLE") ];
                  VObj [ ("objectId", VStr "b1"); ("type", VStr "BODY") ];
                  VObj [ ("objectId", VStr "b2"); ("type", VStr "BODY") ];
                  VObj [ ("objectId", VStr "c1"); ("type", VStr "CONTENT") ] ]) ].

Definition textBullets : value :=
  VObj [ ("title", VStr "Plan"); ("body", VStr "Body");
         ("bullets", VStr "a,b") ].

Definition textColumns : value :=
  VObj [ ("title", VStr "Plan"); ("columns", VStr "ab") ].

Definition numericFields : value :=
  VObj [ ("title", VNum 42); ("body", VStr "Body");
         ("bullets", VArr [VNum 1; VNull; VStr "x"]);
         ("columns", VArr [VNum 7; VStr "right"]) ].

(** * Properties *)

(** ** Tables and strings *)

Lemma lookup_In {V : Type} (k : string) (tbl : list (string * V)) (v : V) :
  lookup k tbl = Some v -> In (k, v) tbl.
Proof.
  induction tbl as [|[k' v'] rest IH]; simpl; [discriminate|].
  destruct (String.eqb k k') eqn:E.
  - intros [= ->]. apply String.eqb_eq in E. subst. now left.
  - intros H. right. now apply IH.
Qed.

Lemma scoreMatrix_entries :
  Forall (fun row => Forall (fun e => 0 < snd e <= 40) (snd row))
         ContentMatcher.scoreMatrix.
Proof.
  unfold ContentMatcher.scoreMatrix.
  repeat (constructor; simpl; try lia).
Qed.

Lemma cell_bounds (tag category : string) (v : Z) :
  ContentMatcher.cell tag category = Some v -> 0 < v <= 40.
Proof.
  unfold ContentMatcher.cell.
  destruct (lookup tag ContentMatcher.scoreMatrix) as [row|] eqn:Hrow;
    [|discriminate].
  intros Hv.
  apply lookup_In in Hrow. apply lookup_In in Hv.
  pose proof scoreMatrix_entries as HF.
  rewrite Forall_forall in HF. specialize (HF _ Hrow). simpl in HF.
  rewrite Forall_forall in HF. exact (HF _ Hv).
Qed.

Lemma getCategoryScores_bounds (a : ContentAnalysis) (category : string) :
  0 <= ContentMatcher.getCategoryScores a category <= 40.
Proof.
  unfold ContentMatcher.getCategoryScores, orNum.
  destruct (ContentMatcher.cell (contentType a) category) as [v|] eqn:E1;
    simpl.
  - apply cell_bounds in E1.
    destruct (v =? 0) eqn:Ez; simpl; [apply Z.eqb_eq in Ez; lia|lia].
  - destruct (ContentMatcher.cell "general" category) as [w|] eqn:E2; simpl.
    + apply cell_bounds in E2. lia.
    + lia.
Qed.

Lemma rawScore_upper (a : ContentAnalysis) (layout : Layout.t) :
  ContentMatcher.rawScore a layout <= 85.
Proof.
  pose proof (getCategoryScores_bounds a
                (ContentMatcher.getLayoutCategory layout)) as Hb.
  cbv beta zeta delta [ContentMatcher.rawScore].
  split_ifs; lia.
Qed.

(** C10: the canonical score never exceeds 85 (a base of at most 40 plus
    bonuses of at most 20 + 15 + 10), so the upper clamp at 100 of
    [calculateLayoutScore] leaves the raw score unchanged and no score lies
    in 86..100. *)
Theorem calculateLayoutScore_at_most_85 :
  forall (a : ContentAnalysis) (layout : Layout.t),
    0 <= ContentMatcher.calculateLayoutScore a layout <= 85
    /\ Z.min 100 (ContentMatcher.rawScore a layout)
       = ContentMatcher.rawScore a layout.
Proof.
  intros a layout.
  pose proof (rawScore_upper a layout) as Hu.
  unfold ContentMatcher.calculateLayoutScore.
  split; lia.
Qed.

(** The bound 85 is attained. *)
Example score_85_reached :
  ContentMatcher.calculateLayoutScore fullComparison twoColumnsWithPicture
  = 85.
Proof. reflexivity. Qed.

(** The canonical scorer stays within 0..100. *)
Lemma calculateLayoutScore_range (a : ContentAnalysis) (layout : Layout.t) :
  0 <= ContentMatcher.calculateLayoutScore a layout <= 100.
Proof.
  unfold ContentMatcher.calculateLayoutScore. lia.
Qed.

(** ** The base table *)

(** C4, as stated, fails: a comparison scores 25 against a title-only
    template and 20 against a section header, through the general row. *)
Lemma comparison_titleOnly_not_zero :
  let a := ContentMatcher.analyzeContent comparisonContent in
  contentType a = "comparison"
  /\ ContentMatcher.getCategoryScores a "titleOnly" = 25
  /\ ContentMatcher.getCategoryScores a "sectionHeader" = 20
  /\ ContentMatcher.getCategoryScores a "titleOnly" <> 0.
Proof. repeat split; try reflexivity. discriminate. Qed.

(** C4, amended: a comparison scores 40 against two columns, 25 against
    title and body and 20 against blank; a category its row leaves out is
    read from the general row (25 for title-only, 20 for section header, 0
    for any other); and a tag that has no row scores by the general row,
    where an unlisted category scores 0. *)
Theorem getCategoryScores_comparison_row :
  forall (a : ContentAnalysis) (category : string),
    (contentType a = "comparison" ->
     ContentMatcher.getCategoryScores a category = comparisonScore category)
    /\ (lookup (contentType a) ContentMatcher.scoreMatrix = None ->
        ContentMatcher.getCategoryScores a category = generalScore category).
Proof.
  intros a category.
  assert (Hgen : ContentMatcher.cell "general" category
                 = lookup category
                     [ ("titleAndBody", 35); ("titleOnly", 25);
                       ("sectionHeader", 20); ("titleAndTwoColumns", 15);
                       ("blank", 10) ]) by reflexivity.
  split; intros H;
    unfold ContentMatcher.getCategoryScores, comparisonScore, generalScore.
  - rewrite Hgen. unfold ContentMatcher.cell. rewrite H.
    change (lookup "comparison" ContentMatcher.scoreMatrix)
      with (Some [ ("titleAndTwoColumns", 40); ("titleAndBody", 25);
                   ("blank", 20) ]).
    cbn [lookup]. split_eqb category; reflexivity.
  - rewrite Hgen. unfold ContentMatcher.cell at 1. rewrite H.
    cbn [lookup]. split_eqb category; reflexivity.
Qed.

Lemma getCategoryScores_comparison_row_witness :
  contentType (ContentMatcher.analyzeContent comparisonContent) = "comparison"
  /\ ContentMatcher.getCategoryScores
       (ContentMatcher.analyzeContent comparisonContent) "titleOnly" = 25.
Proof.
  split; [reflexivity|].
  apply (proj1 (getCategoryScores_comparison_row
                  (ContentMatcher.analyzeContent comparisonContent)
                  "titleOnly")).
  reflexivity.
Defined.

(** ** The inline scorer *)

(** C2 at the failing input: the scorer of the complete workflow gives 110
    to a section slide with title, body and picture on a template named
    after sections that offers the three placeholders; it has no upper
    clamp. *)
Theorem inline_score_exceeds_100 :
  CompleteWorkflow.contentType (CompleteWorkflow.analyzeContent sectionContent)
  = "section"
  /\ CompleteWorkflow.calculateLayoutScore
       (CompleteWorkflow.analyzeContent sectionContent) sectionLayout
     = Ok 110.
Proof. split; reflexivity. Qed.

(** ** The classifier *)

(** C5: content whose title or body mentions "agenda" is classified as
    agenda, whatever the later rules would say. *)
Theorem agenda_takes_precedence :
  forall c : Content,
    mentions (title c) "agenda" = true \/ mentions (body c) "agenda" = true ->
    contentType (ContentMatcher.analyzeContent c) = "agenda".
Proof.
  intros c H.
  cbv beta zeta delta [ContentMatcher.analyzeContent contentType].
  unfold ContentMatcher.determineContentType.
  unfold mentions in H.
  destruct H as [H|H]; rewrite H; [reflexivity|].
  now rewrite orb_true_r.
Qed.

Lemma agenda_takes_precedence_witness :
  (mentions (title weeklyAgenda) "agenda" = true
   \/ mentions (body weeklyAgenda) "agenda" = true)
  /\ mentions (title weeklyAgenda) "quote" = true
  /\ contentType (ContentMatcher.analyzeContent weeklyAgenda) = "agenda".
Proof.
  split; [left; reflexivity|].
  split; [reflexivity|].
  apply (agenda_takes_precedence weeklyAgenda).
  left; reflexivity.
Defined.

Lemma lowerChar_dquote (c : ascii) :
  Ascii.eqb (JsString.lowerChar c) dquote = Ascii.eqb c dquote.
Proof. destruct c as [[] [] [] [] [] [] [] []]; reflexivity. Qed.

Lemma lowerChar_squote (c : ascii) :
  Ascii.eqb (JsString.lowerChar c) squote = Ascii.eqb c squote.
Proof. destruct c as [[] [] [] [] [] [] [] []]; reflexivity. Qed.

(** Lower-casing the body does not change what the character class of the
    quote rule finds in it. *)
Lemma quote_class_lower (s : string) :
  matchesClass [dquote; squote; squote] (JsString.toLowerCase s)
  = matchesClass [dquote; squote] s.
Proof.
  induction s as [|c t IH]; [reflexivity|].
  unfold JsString.toLowerCase in *. cbn [JsString.mapChars matchesClass existsb].
  rewrite IH, lowerChar_dquote, lowerChar_squote.
  destruct (Ascii.eqb c dquote), (Ascii.eqb c squote); reflexivity.
Qed.

(** C9, as stated, fails: a body whose only punctuation is an apostrophe,
    under a title without "quote", is classified as quote. *)
Lemma apostrophe_classified_as_quote :
  agendaRule apostropheOnly = false
  /\ mentions (title apostropheOnly) "quote" = false
  /\ holdsChar [dquote] (body apostropheOnly) = false
  /\ contentType (ContentMatcher.analyzeContent apostropheOnly) = "quote".
Proof. repeat split; reflexivity. Qed.

(** C9, amended: for content the agenda rule does not match, the tag is
    "quote" exactly when the title mentions "quote" or the body holds a
    double quotation mark or an apostrophe (single quotation mark). *)
Theorem quote_rule :
  forall c : Content,
    agendaRule c = false ->
    (contentType (ContentMatcher.analyzeContent c) = "quote"
     <-> mentions (title c) "quote" = true
         \/ holdsChar [dquote; squote] (body c) = true).
Proof.
  intros c Hag.
  cbv beta zeta delta [ContentMatcher.analyzeContent contentType].
  unfold ContentMatcher.determineContentType.
  unfold agendaRule, mentions in Hag. rewrite Hag.
  rewrite quote_class_lower.
  unfold mentions, holdsChar.
  destruct (JsString.includes (JsString.toLowerCase (orEmpty (title c)))
                              "quote") eqn:Hq; cbn [orb].
  - split; [now left|reflexivity].
  - destruct (matchesClass [dquote; squote] (orEmpty (body c))) eqn:Hm.
    + split; [now right|reflexivity].
    + split.
      * split_ifs; discriminate.
      * intros [H|H]; discriminate.
Qed.

Lemma quote_rule_witness :
  agendaRule apostropheOnly = false
  /\ contentType (ContentMatcher.analyzeContent apostropheOnly) = "quote".
Proof.
  split; [reflexivity|].
  apply (proj2 (quote_rule apostropheOnly eq_refl)).
  right; reflexivity.
Defined.

(** ** The categorizers *)

Lemma filter_counts_member (f : option string -> bool)
  (types : list (option string)) (role : string) :
  (forall t, isType t role = true -> f t = true) ->
  arrIncludes types role = true ->
  (1 <= List.length (filter f types))%nat.
Proof.
  intros Hf. induction types as [|t rest IH]; simpl; [discriminate|].
  intros H. apply orb_true_iff in H. destruct H as [H|H].
  - rewrite (Hf t H). simpl. lia.
  - specialize (IH H). destruct (f t); simpl; lia.
Qed.

Lemma upper_orEmpty (name : option string) :
  orEmpty (option_map JsString.toUpperCase name)
  = JsString.toUpperCase (orEmpty name).
Proof. destruct name; reflexivity. Qed.

(** The extractor-side categorizer answers "sectionHeader" only on the
    strength of the display name: its structural rule for section headers
    is never reached, since a subtitle already counts as a body. *)
Lemma analyzer_sectionHeader_by_name_only (layout : Layout.t) :
  LayoutAnalyzer.categoryOf layout = "sectionHeader" ->
  named layout "SECTION_HEADER" = true
  \/ named layout "SECTION HEADER" = true.
Proof.
  unfold LayoutAnalyzer.categoryOf, named.
  cbv beta zeta delta [LayoutAnalyzer.determineLayoutCategory].
  set (nameUpper := JsString.toUpperCase (orEmpty (Layout.displayName layout))).
  set (types := Layout.placeholderTypes layout).
  destruct (JsString.includes nameUpper "TITLE_ONLY"
            || JsString.includes nameUpper "TITLE ONLY"); [discriminate|].
  destruct (JsString.includes nameUpper "SECTION_HEADER") eqn:E1;
    [now left|].
  destruct (JsString.includes nameUpper "SECTION HEADER") eqn:E2;
    [now right|].
  cbn [orb].
  destruct (JsString.includes nameUpper "TWO_COLUMNS"
            || JsString.includes nameUpper "TWO COLUMNS"); [discriminate|].
  destruct (JsString.includes nameUpper "BLANK"); [discriminate|].
  set (f := fun type : option string => _).
  destruct (arrIncludes types "SUBTITLE") eqn:ES.
  - assert (Hn : (1 <= List.length (filter f types))%nat).
    { apply (filter_counts_member f types "SUBTITLE"); [|exact ES].
      intros t Ht. subst f. cbv beta. rewrite Ht.
      now rewrite !orb_true_r. }
    destruct (arrIncludes types "TITLE" || arrIncludes types "CENTERED_TITLE");
      cbn [andb negb orb]; rewrite ?orb_true_r; cbn [andb negb orb].
    + destruct (Z.of_nat (List.length (filter f types)) =? 1) eqn:E3;
        [discriminate|].
      destruct (Z.of_nat (List.length (filter f types)) >=? 2) eqn:E4;
        [discriminate|].
      apply Z.eqb_neq in E3. rewrite Z.geb_leb in E4.
      apply Z.leb_gt in E4. lia.
    + split_ifs; discriminate.
  - rewrite ?andb_false_r. split_ifs; discriminate.
Qed.

(** On a template that has a title placeholder, the scorer-side
    categorizer too answers "sectionHeader" only on the strength of the
    display name. *)
Lemma matcher_sectionHeader_with_title (layout : Layout.t) :
  hasRole layout "TITLE" = true ->
  ContentMatcher.getLayoutCategory layout = "sectionHeader" ->
  named layout "SECTION_HEADER" = true.
Proof.
  unfold hasRole, named.
  cbv beta zeta delta [ContentMatcher.getLayoutCategory].
  rewrite upper_orEmpty.
  set (nameUpper := JsString.toUpperCase (orEmpty (Layout.displayName layout))).
  set (types := Layout.placeholderTypes layout).
  intros HT. rewrite HT.
  destruct (JsString.includes nameUpper "TITLE_ONLY"
            || JsString.includes nameUpper "TITLE ONLY"); [discriminate|].
  destruct (JsString.includes nameUpper "SECTION_HEADER"); [reflexivity|].
  destruct (JsString.includes nameUpper "TWO_COLUMNS"); [discriminate|].
  destruct (JsString.includes nameUpper "BLANK"); [discriminate|].
  set (f := fun t : option string => _).
  destruct (arrIncludes types "BODY") eqn:EB; cbn [andb negb];
    [|discriminate].
  assert (Hn : (1 <= List.length (filter f types))%nat).
  { apply (filter_counts_member f types "BODY"); [|exact EB].
    intros t Ht. subst f. cbv beta. now rewrite Ht. }
  destruct (Z.of_nat (List.length (filter f types)) =? 1) eqn:E3;
    [discriminate|].
  destruct (Z.of_nat (List.length (filter f types)) >=? 2) eqn:E4;
    [discriminate|].
  apply Z.eqb_neq in E3. rewrite Z.geb_leb in E4.
  apply Z.leb_gt in E4. lia.
Qed.

(** C6 at the failing input: a template named "Custom" with a title and
    two subtitle placeholders is filed under two columns by the extractor
    and under title-only by the scorer, never under section header. *)
Theorem title_two_subtitles_not_sectionHeader :
  named titleTwoSubtitles "TITLE_ONLY" = false
  /\ named titleTwoSubtitles "TITLE ONLY" = false
  /\ named titleTwoSubtitles "SECTION_HEADER" = false
  /\ named titleTwoSubtitles "SECTION HEADER" = false
  /\ named titleTwoSubtitles "TWO_COLUMNS" = false
  /\ named titleTwoSubtitles "TWO COLUMNS" = false
  /\ named titleTwoSubtitles "BLANK" = false
  /\ LayoutAnalyzer.categoryOf titleTwoSubtitles = "titleAndTwoColumns"
  /\ ContentMatcher.getLayoutCategory titleTwoSubtitles = "titleOnly".
Proof. repeat split; reflexivity. Qed.

(** C7 at the failing inputs: the two categorizers disagree on a template
    named "Section Header" without placeholders, and on a template with a
    title and a subtitle. *)
Theorem categorizers_disagree :
  LayoutAnalyzer.categoryOf spacedSectionHeader = "sectionHeader"
  /\ ContentMatcher.getLayoutCategory spacedSectionHeader = "blank"
  /\ LayoutAnalyzer.categoryOf titleSubtitle = "titleAndBody"
  /\ ContentMatcher.getLayoutCategory titleSubtitle = "titleOnly".
Proof. repeat split; reflexivity. Qed.

Lemma filter_same_length (f g : option string -> bool)
  (types : list (option string)) :
  (forall t, In t types -> f t = g t) ->
  List.length (filter f types) = List.length (filter g types).
Proof.
  intros H. now rewrite (filter_ext_in f g types H).
Qed.

Lemma arrIncludes_single (types : list (option string)) (role : string)
  (t : option string) :
  arrIncludes types role = false -> In t types ->
  isType t role = false.
Proof.
  intros H Hin. unfold arrIncludes in H.
  destruct (isType t role) eqn:E; [|reflexivity].
  assert (existsb (fun t => isType t role) types = true) as Hex
      by (apply existsb_exists; eauto).
  congruence.
Qed.

(** Where the two categorizers do agree: display names that do not spell
    "SECTION HEADER" or "TWO COLUMNS" with a blank, and placeholders among
    which there is no subtitle, no content and no centered title. *)
Lemma categorizers_agree_on_plain_templates (layout : Layout.t) :
  named layout "SECTION HEADER" = false ->
  named layout "TWO COLUMNS" = false ->
  hasRole layout "SUBTITLE" = false ->
  hasRole layout "CONTENT" = false ->
  hasRole layout "CENTERED_TITLE" = false ->
  LayoutAnalyzer.categoryOf layout = ContentMatcher.getLayoutCategory layout.
Proof.
  unfold named, hasRole, LayoutAnalyzer.categoryOf.
  cbv beta zeta delta [ContentMatcher.getLayoutCategory
                       LayoutAnalyzer.determineLayoutCategory].
  rewrite upper_orEmpty.
  set (nameUpper := JsString.toUpperCase (orEmpty (Layout.displayName layout))).
  set (types := Layout.placeholderTypes layout).
  intros H1 H2 HS HC HT. rewrite H1, H2, HS, HC, HT.
  rewrite !orb_false_r.
  set (f := fun type : option string => _).
  set (g := fun t : option string => _).
  assert (Hfg : List.length (filter f types) = List.length (filter g types)).
  { apply filter_same_length. intros t Hin. subst f g. cbv beta.
    rewrite (arrIncludes_single types "SUBTITLE" t HS Hin).
    now rewrite orb_false_r. }
  rewrite Hfg. rewrite !andb_false_r, !andb_true_r.
  reflexivity.
Qed.

(** ** The extractor *)

Lemma extractLayout_pushes (layout : value) (r : option value) :
  LayoutAnalyzer.extractLayout layout = Ok r -> exists v, r = Some v.
Proof.
  unfold LayoutAnalyzer.extractLayout, rbind.
  destruct (get layout "objectId"); [|discriminate].
  destruct (get layout "layoutProperties"); [|discriminate].
  destruct (LayoutAnalyzer.extractPlaceholders layout); [|discriminate].
  intros [= <-]. eauto.
Qed.

Lemma collect_extractLayout_empty (items : list value) :
  collect LayoutAnalyzer.extractLayout items = Ok [] -> items = [].
Proof.
  destruct items as [|x rest]; [reflexivity|].
  simpl. unfold rbind.
  destruct (LayoutAnalyzer.extractLayout x) as [r|] eqn:E; [|discriminate].
  apply extractLayout_pushes in E. destruct E as [v ->].
  destruct (collect LayoutAnalyzer.extractLayout rest); discriminate.
Qed.

(** When the extractor returns the empty sequence, and when it throws on
    the presentation itself. *)
Lemma extractLayouts_empty_iff (presentation : value) :
  LayoutAnalyzer.extractLayouts presentation = Ok []
  <-> nullish presentation = false
      /\ (truthy (prop presentation "layouts") = false
          \/ prop presentation "layouts" = VArr []).
Proof.
  unfold LayoutAnalyzer.extractLayouts, get, rbind.
  destruct (nullish presentation); [split; [discriminate|intros [[=] _]]|].
  destruct (truthy (prop presentation "layouts")) eqn:Et; cbn [negb].
  - split.
    + intros H. split; [reflexivity|]. right.
      destruct (prop presentation "layouts"); try discriminate.
      simpl in H. apply collect_extractLayout_empty in H. now subst.
    + intros [_ [H|H]]; [discriminate|]. now rewrite H.
  - split; [intros _; split; [reflexivity|now left]|reflexivity].
Qed.

Lemma extractLayouts_nullish (presentation : value) :
  nullish presentation = true ->
  LayoutAnalyzer.extractLayouts presentation = Throw TypeError.
Proof.
  unfold LayoutAnalyzer.extractLayouts, get, rbind. now intros ->.
Qed.

(** A layouts field that is truthy but not an array makes the extractor
    throw. *)
Lemma extractLayouts_not_an_array (presentation : value) :
  nullish presentation = false ->
  truthy (prop presentation "layouts") = true ->
  (forall items, prop presentation "layouts" <> VArr items) ->
  LayoutAnalyzer.extractLayouts presentation = Throw TypeError.
Proof.
  unfold LayoutAnalyzer.extractLayouts, get, rbind.
  intros -> -> H. cbn [negb].
  destruct (prop presentation "layouts"); try reflexivity.
  now destruct (H items).
Qed.

(** C8, as stated, fails: on an absent presentation ([null] or
    [undefined]) the extractor throws instead of returning the empty
    sequence. *)
Lemma extractLayouts_absent_input_throws :
  LayoutAnalyzer.extractLayouts VNull = Throw TypeError
  /\ LayoutAnalyzer.extractLayouts VUndefined = Throw TypeError
  /\ LayoutAnalyzer.extractLayouts VNull <> Ok [].
Proof. repeat split; try reflexivity. discriminate. Qed.

(** C8, amended: for every raw presentation other than [null] and
    [undefined] that has an empty layouts array or no layouts field (or a
    falsy one), the extractor returns the empty sequence and does not
    throw. *)
Theorem extractLayouts_without_layouts :
  forall presentation : value,
    nullish presentation = false ->
    truthy (prop presentation "layouts") = false
    \/ prop presentation "layouts" = VArr [] ->
    LayoutAnalyzer.extractLayouts presentation = Ok [].
Proof.
  intros presentation Hp Hl.
  unfold LayoutAnalyzer.extractLayouts, get, rbind.
  rewrite Hp. destruct Hl as [Hl|Hl]; rewrite Hl; reflexivity.
Qed.

Lemma extractLayouts_without_layouts_witness :
  LayoutAnalyzer.extractLayouts noLayoutsField = Ok []
  /\ LayoutAnalyzer.extractLayouts zeroLayouts = Ok [].
Proof.
  split.
  - apply (extractLayouts_without_layouts noLayoutsField);
      [reflexivity|left; reflexivity].
  - apply (extractLayouts_without_layouts zeroLayouts);
      [reflexivity|right; reflexivity].
Defined.

(** ** Sorting *)

Section SortFacts.
Context {A : Type} (cmp : A -> A -> Z).

Lemma insertSorted_perm (x : A) (l : list A) :
  Permutation (insertSorted cmp x l) (x :: l).
Proof.
  induction l as [|y t IH]; simpl; [reflexivity|].
  destruct (cmp x y <=? 0); [reflexivity|].
  rewrite IH. apply perm_swap.
Qed.

Lemma sort_perm (l : list A) : Permutation (sort cmp l) l.
Proof.
  induction l as [|x t IH]; simpl; [reflexivity|].
  rewrite insertSorted_perm. now constructor.
Qed.
End SortFacts.

Lemma precedes_insert (x : Scored) (l : list Scored) :
  StronglySorted precedes l ->
  Forall (fun y => (ref x < ref y)%nat) l ->
  StronglySorted precedes (insertSorted ContentMatcher.byScore x l).
Proof.
  induction l as [|y t IH]; intros Hs Hr; simpl.
  - constructor; constructor.
  - apply StronglySorted_inv in Hs. destruct Hs as [Hst Hy].
    inversion Hr as [|? ? Hxy Hxt]; subst.
    unfold ContentMatcher.byScore at 1.
    destruct (scoreOf y - scoreOf x <=? 0) eqn:E.
    + apply Z.leb_le in E.
      constructor; [constructor; assumption|].
      constructor.
      * unfold precedes. lia.
      * rewrite Forall_forall in *. intros z Hz.
        specialize (Hy z Hz). specialize (Hxt z Hz).
        unfold precedes in *. lia.
    + apply Z.leb_gt in E.
      constructor; [now apply IH|].
      rewrite (insertSorted_perm ContentMatcher.byScore x t).
      constructor; [unfold precedes; lia|assumption].
Qed.

(** Sorting commutes with a map that preserves the comparison. *)
Lemma insertSorted_by_key_map {A B : Type} (f : A -> B) (cmp : A -> A -> Z)
  (cmp' : B -> B -> Z) (x : A) (l : list A) :
  (forall a b, cmp' (f a) (f b) = cmp a b) ->
  map f (insertSorted cmp x l) = insertSorted cmp' (f x) (map f l).
Proof.
  intros H. induction l as [|y t IH]; [reflexivity|].
  simpl. rewrite H. destruct (cmp x y <=? 0); simpl; [reflexivity|].
  now rewrite IH.
Qed.

Lemma sort_by_key_map {A B : Type} (f : A -> B) (cmp : A -> A -> Z)
  (cmp' : B -> B -> Z) (l : list A) :
  (forall a b, cmp' (f a) (f b) = cmp a b) ->
  sort cmp' (map f l) = map f (sort cmp l).
Proof.
  intros H. induction l as [|x t IH]; [reflexivity|].
  simpl. now rewrite (insertSorted_by_key_map f cmp cmp' _ _ H), IH.
Qed.

(** Sorting objects allocated in input order ranks them by descending
    score, equal scores in input order. *)
Lemma sort_precedes (l : list Scored) :
  StronglySorted (fun x y => (ref x < ref y)%nat) l ->
  StronglySorted precedes (sort ContentMatcher.byScore l).
Proof.
  induction l as [|x t IH]; intros Hs; simpl; [constructor|].
  apply StronglySorted_inv in Hs. destruct Hs as [Ht Hx].
  apply precedes_insert; [now apply IH|].
  now rewrite (sort_perm ContentMatcher.byScore t).
Qed.

(** ** Allocation by [layouts.map] *)

Lemma scoreAll_run (a : ContentAnalysis) (layouts : list Layout.t) (i : nat) :
  ContentMatcher.scoreAll a i layouts
  = (map Scoring layouts, Ok (allocated a i layouts)).
Proof.
  revert i. induction layouts as [|l t IH]; intros i; [reflexivity|].
  cbn [ContentMatcher.scoreAll allocated map].
  rewrite IH. unfold ContentMatcher.scoreOne, bind, emit, ret. simpl.
  now rewrite app_nil_r.
Qed.

Lemma allocated_refs (a : ContentAnalysis) (layouts : list Layout.t) (i : nat) :
  map ref (allocated a i layouts) = seq i (List.length layouts).
Proof.
  revert i. induction layouts as [|l t IH]; intros i; simpl; [reflexivity|].
  now rewrite IH.
Qed.

Lemma allocated_length (a : ContentAnalysis) (layouts : list Layout.t)
  (i : nat) :
  List.length (allocated a i layouts) = List.length layouts.
Proof.
  rewrite <- (length_map ref), allocated_refs. apply length_seq.
Qed.

Lemma allocated_in_order (a : ContentAnalysis) (layouts : list Layout.t)
  (i : nat) :
  StronglySorted (fun x y => (ref x < ref y)%nat) (allocated a i layouts).
Proof.
  revert i. induction layouts as [|l t IH]; intros i; simpl; constructor.
  - apply IH.
  - rewrite Forall_forall. intros s Hs. simpl.
    apply (in_map ref) in Hs. rewrite allocated_refs in Hs.
    apply in_seq in Hs. lia.
Qed.

Lemma allocated_nth (a : ContentAnalysis) (layouts : list Layout.t)
  (i j : nat) (l : Layout.t) :
  nth_error layouts j = Some l ->
  In {| ref := i + j;
        obj := Layout.withScore l (ContentMatcher.calculateLayoutScore a l) |}
     (allocated a i layouts).
Proof.
  revert i j. induction layouts as [|l0 t IH]; intros i j.
  - destruct j; discriminate.
  - destruct j as [|j]; simpl.
    + intros [= ->]. left. now rewrite Nat.add_0_r.
    + intros H. right. replace (i + S j)%nat with (S i + j)%nat by lia.
      now apply IH.
Qed.

Lemma allocated_inv (a : ContentAnalysis) (layouts : list Layout.t)
  (i : nat) (s : Scored) :
  In s (allocated a i layouts) ->
  exists j l,
    nth_error layouts j = Some l
    /\ ref s = (i + j)%nat
    /\ obj s = Layout.withScore l (ContentMatcher.calculateLayoutScore a l).
Proof.
  revert i. induction layouts as [|l0 t IH]; intros i; simpl; [tauto|].
  intros [<-|H].
  - exists 0%nat, l0. simpl. repeat split. lia.
  - destruct (IH _ H) as (j & l & Hn & Hr & Ho).
    exists (S j), l. simpl. repeat split; [assumption|lia|assumption].
Qed.

(** ** The selector *)

(** What a run on a non-empty sequence does. *)
Lemma findBestLayout_run (c : Content) (first : Layout.t)
  (rest : list Layout.t) :
  let layouts := first :: rest in
  let a := ContentMatcher.analyzeContent c in
  exists best others,
    sort ContentMatcher.byScore (allocated a 0 layouts) = best :: others
    /\ ContentMatcher.findBestLayout c layouts
       = (map Scoring layouts,
          Ok {| bestLayout := best;
                alternatives := firstn 2 others;
                contentAnalysis := a;
                reasoning := ContentMatcher.generateReasoning a (obj best) |}).
Proof.
  intros layouts a.
  destruct (sort ContentMatcher.byScore (allocated a 0 layouts))
    as [|best others] eqn:Es.
  - pose proof (sort_perm ContentMatcher.byScore (allocated a 0 layouts)) as Hp.
    rewrite Es in Hp. apply Permutation_nil in Hp. discriminate.
  - exists best, others. split; [reflexivity|].
    unfold ContentMatcher.findBestLayout.
    change (Nat.eqb (List.length layouts) 0) with false. cbv iota.
    fold a. rewrite scoreAll_run. unfold bind. rewrite Es.
    unfold ret. now rewrite app_nil_r.
Qed.

(** C3: on a non-empty sequence of [n] templates the result has
    [min 2 (n - 1)] alternatives, none of which is the best template; best
    and alternatives open the ranking of all scored templates by
    descending score, templates of equal score in input order; so the best
    template is the earliest one of maximal score. *)
Theorem findBestLayout_ranking :
  forall (c : Content) (first : Layout.t) (rest : list Layout.t),
    let layouts := first :: rest in
    let a := ContentMatcher.analyzeContent c in
    exists r tail,
      outcome (ContentMatcher.findBestLayout c layouts) = Ok r
      /\ List.length (alternatives r)
         = Nat.min 2 (List.length layouts - 1)
      /\ ~ In (ref (bestLayout r)) (map ref (alternatives r))
      /\ Permutation (bestLayout r :: alternatives r ++ tail)%list
                     (allocated a 0 layouts)
      /\ StronglySorted precedes
                        (bestLayout r :: alternatives r ++ tail)%list
      /\ (exists l,
            nth_error layouts (ref (bestLayout r)) = Some l
            /\ obj (bestLayout r)
               = Layout.withScore l (ContentMatcher.calculateLayoutScore a l))
      /\ (forall i l,
            nth_error layouts i = Some l ->
            ContentMatcher.calculateLayoutScore a l <= scoreOf (bestLayout r)
            /\ (ContentMatcher.calculateLayoutScore a l
                = scoreOf (bestLayout r) ->
                (ref (bestLayout r) <= i)%nat)).
Proof.
  intros c first rest layouts a.
  destruct (findBestLayout_run c first rest)
    as (best & others & Hsort & Hrun).
  fold layouts a in Hsort, Hrun.
  pose proof (sort_perm ContentMatcher.byScore (allocated a 0 layouts)) as Hperm.
  pose proof (sort_precedes _ (allocated_in_order a layouts 0)) as Hsorted.
  rewrite Hsort in Hperm, Hsorted.
  exists {| bestLayout := best;
            alternatives := firstn 2 others;
            contentAnalysis := a;
            reasoning := ContentMatcher.generateReasoning a (obj best) |},
         (skipn 2 others).
  rewrite Hrun. cbn [outcome snd bestLayout alternatives].
  rewrite firstn_skipn.
  split; [reflexivity|].
  split.
  { rewrite length_firstn.
    apply Permutation_length in Hperm.
    rewrite allocated_length in Hperm. cbn [List.length] in Hperm |- *.
    lia. }
  split.
  { assert (Hnd : NoDup (map ref (best :: others))).
    { rewrite (Permutation_map ref Hperm), allocated_refs. apply seq_NoDup. }
    simpl in Hnd. apply NoDup_cons_iff in Hnd. destruct Hnd as [Hnin _].
    intros Hin. apply Hnin.
    apply in_map_iff in Hin. destruct Hin as (s & Hs & Hin).
    apply in_map_iff. exists s. split; [assumption|].
    rewrite <- (firstn_skipn 2 others). apply in_or_app. now left. }
  split; [assumption|].
  split; [assumption|].
  split.
  { assert (Hin : In best (allocated a 0 layouts)).
    { rewrite <- Hperm. now left. }
    apply allocated_inv in Hin. destruct Hin as (j & l & Hn & Hr & Ho).
    simpl in Hr. subst j. eauto. }
  intros i l Hnth.
  pose proof (allocated_nth a layouts 0 i l Hnth) as Hin.
  rewrite <- Hperm in Hin. simpl in Hin.
  apply StronglySorted_inv in Hsorted. destruct Hsorted as [_ Hall].
  destruct Hin as [Heq|Hin].
  - rewrite Heq. unfold scoreOf. simpl. split; [lia|intros _; lia].
  - rewrite Forall_forall in Hall. specialize (Hall _ Hin).
    unfold precedes, scoreOf in Hall. simpl in Hall.
    unfold scoreOf. lia.
Qed.

(** A run with a tie: the two title-and-body templates score 70 and keep
    their input order, the earlier one is the best template. *)
Example findBestLayout_tie :
  exists r,
    outcome (ContentMatcher.findBestLayout strategy tiedLayouts) = Ok r
    /\ ref (bestLayout r) = 1%nat
    /\ scoreOf (bestLayout r) = 70
    /\ map ref (alternatives r) = [3%nat; 2%nat]
    /\ map scoreOf (alternatives r) = [70; 45].
Proof. eexists. repeat split. Qed.

Lemma allocated_ids (a : ContentAnalysis) (layouts : list Layout.t) (i : nat) :
  map idOf (allocated a i layouts) = map Layout.objectId layouts.
Proof.
  revert i. induction layouts as [|l t IH]; intros i; simpl; [reflexivity|].
  now rewrite IH.
Qed.

(** When the templates have distinct identifiers, the best template is
    not among the alternatives by identifier either. *)
Lemma best_id_not_among_alternatives (c : Content) (first : Layout.t)
  (rest : list Layout.t) (r : MatchResult) :
  NoDup (map Layout.objectId (first :: rest)) ->
  outcome (ContentMatcher.findBestLayout c (first :: rest)) = Ok r ->
  ~ In (idOf (bestLayout r)) (map idOf (alternatives r)).
Proof.
  intros Hnd Hr.
  destruct (findBestLayout_run c first rest)
    as (best & others & Hsort & Hrun).
  rewrite Hrun in Hr. cbn [outcome snd] in Hr. injection Hr as <-.
  cbn [bestLayout alternatives].
  pose proof (sort_perm ContentMatcher.byScore
                (allocated (ContentMatcher.analyzeContent c) 0
                           (first :: rest))) as Hperm.
  rewrite Hsort in Hperm.
  apply (Permutation_map idOf) in Hperm. rewrite allocated_ids in Hperm.
  apply Permutation_sym in Hperm.
  pose proof (Permutation_NoDup Hperm Hnd) as Hnd'.
  cbn [map] in Hnd'. apply NoDup_cons_iff in Hnd'.
  destruct Hnd' as [Hnin _].
  intros Hin. apply Hnin.
  apply in_map_iff in Hin. destruct Hin as (s & Hs & Hin).
  apply in_map_iff. exists s. split; [assumption|].
  rewrite <- (firstn_skipn 2 others). apply in_or_app. now left.
Qed.

(** * Further properties *)

(** ** The scorer and the order of placeholders *)

Lemma arrIncludes_perm (l l' : list (option string)) (lit : string) :
  Permutation l l' -> arrIncludes l lit = arrIncludes l' lit.
Proof.
  unfold arrIncludes.
  induction 1 as [|x l l' _ IH|x y l|l l' l'' _ IH1 _ IH2]; simpl.
  - reflexivity.
  - now rewrite IH.
  - destruct (isType x lit), (isType y lit); reflexivity.
  - now rewrite IH1.
Qed.

Lemma filter_length_perm {A : Type} (f : A -> bool) (l l' : list A) :
  Permutation l l' ->
  List.length (filter f l) = List.length (filter f l').
Proof.
  induction 1 as [|x l l' _ IH|x y l|l l' l'' _ IH1 _ IH2]; simpl.
  - reflexivity.
  - destruct (f x); simpl; now rewrite IH.
  - destruct (f x), (f y); reflexivity.
  - now rewrite IH1.
Qed.

(** X1: a template's category, for either categorizer, and its score
    depend on the placeholders as a multiset: reordering them changes
    nothing. *)
Theorem score_invariant_under_placeholder_order :
  forall (a : ContentAnalysis) (l1 l2 : Layout.t),
    Layout.displayName l1 = Layout.displayName l2 ->
    Permutation (Layout.placeholders l1) (Layout.placeholders l2) ->
    ContentMatcher.getLayoutCategory l1 = ContentMatcher.getLayoutCategory l2
    /\ LayoutAnalyzer.categoryOf l1 = LayoutAnalyzer.categoryOf l2
    /\ ContentMatcher.calculateLayoutScore a l1
       = ContentMatcher.calculateLayoutScore a l2.
Proof.
  intros a l1 l2 Hname Hperm.
  assert (Ht : Permutation (Layout.placeholderTypes l1)
                           (Layout.placeholderTypes l2))
    by (apply Permutation_map; exact Hperm).
  assert (Hcat : ContentMatcher.getLayoutCategory l1
                 = ContentMatcher.getLayoutCategory l2).
  { cbv beta zeta delta [ContentMatcher.getLayoutCategory].
    rewrite Hname. rewrite ?(fun lit => arrIncludes_perm _ _ lit Ht),
      ?(fun f => filter_length_perm f _ _ Ht), ?(Permutation_length Ht). reflexivity. }
  split; [exact Hcat|]. split.
  - unfold LayoutAnalyzer.categoryOf.
    cbv beta zeta delta [LayoutAnalyzer.determineLayoutCategory].
    rewrite Hname. rewrite ?(fun lit => arrIncludes_perm _ _ lit Ht),
      ?(fun f => filter_length_perm f _ _ Ht), ?(Permutation_length Ht). reflexivity.
  - unfold ContentMatcher.calculateLayoutScore.
    cbv beta zeta delta [ContentMatcher.rawScore].
    rewrite Hcat. rewrite ?(fun lit => arrIncludes_perm _ _ lit Ht),
      ?(fun f => filter_length_perm f _ _ Ht), ?(Permutation_length Ht). reflexivity.
Qed.

Lemma score_invariant_under_placeholder_order_witness :
  ContentMatcher.calculateLayoutScore fullComparison twoColumnsWithPicture
  = ContentMatcher.calculateLayoutScore fullComparison
      (Layout.mk "layout85" (Some "TWO_COLUMNS")
                 [slot "BODY"; slot "TITLE"; slot "PICTURE"] 0).
Proof.
  apply (score_invariant_under_placeholder_order fullComparison
           twoColumnsWithPicture
           (Layout.mk "layout85" (Some "TWO_COLUMNS")
                      [slot "BODY"; slot "TITLE"; slot "PICTURE"] 0)).
  - reflexivity.
  - apply perm_swap.
Defined.

(** ** Tags without a row *)

(** X2: content the classifier tags "agenda" or "closing" has no row in
    the table, and scores on every template exactly as "general" content
    with the same flags and length. *)
Theorem agenda_and_closing_score_as_general :
  forall (c : Content) (layout : Layout.t),
    contentType (ContentMatcher.analyzeContent c) = "agenda"
    \/ contentType (ContentMatcher.analyzeContent c) = "closing" ->
    ContentMatcher.calculateLayoutScore (ContentMatcher.analyzeContent c)
                                        layout
    = ContentMatcher.calculateLayoutScore
        (retag (ContentMatcher.analyzeContent c) "general") layout.
Proof.
  intros c layout H.
  set (a := ContentMatcher.analyzeContent c) in *.
  assert (Hbase : forall category,
             ContentMatcher.getCategoryScores a category
             = ContentMatcher.getCategoryScores (retag a "general") category).
  { intros category. unfold ContentMatcher.getCategoryScores.
    cbn [retag contentType].
    assert (Hcell : ContentMatcher.cell (contentType a) category = None).
    { unfold ContentMatcher.cell. destruct H as [-> | ->]; reflexivity. }
    rewrite Hcell. unfold orNum. cbn [truthyNum].
    destruct (ContentMatcher.cell "general" category) as [v|]; [|reflexivity].
    cbn [truthyNum]. destruct (negb (v =? 0)); reflexivity. }
  unfold ContentMatcher.calculateLayoutScore.
  cbv beta zeta delta [ContentMatcher.rawScore].
  rewrite Hbase. reflexivity.
Qed.

Lemma agenda_and_closing_score_as_general_witness :
  ContentMatcher.calculateLayoutScore
    (ContentMatcher.analyzeContent weeklyAgenda) titleBody
  = ContentMatcher.calculateLayoutScore
      (retag (ContentMatcher.analyzeContent weeklyAgenda) "general")
      titleBody.
Proof.
  apply (agenda_and_closing_score_as_general weeklyAgenda titleBody).
  left; reflexivity.
Defined.

(** ** The lower clamp *)

Lemma base_at_least (a : ContentAnalysis) (category : string) (k g : Z) :
  0 < k -> k <= g ->
  ContentMatcher.cell "general" category = Some g ->
  forallb (fun row : string * list (string * Z) =>
             match lookup category (snd row) with
             | Some v => k <=? v
             | None => true
             end) ContentMatcher.scoreMatrix = true ->
  k <= ContentMatcher.getCategoryScores a category.
Proof.
  intros Hk Hkg Hgen Hrows.
  unfold ContentMatcher.getCategoryScores, orNum. rewrite Hgen.
  unfold ContentMatcher.cell.
  destruct (lookup (contentType a) ContentMatcher.scoreMatrix) as [row|] eqn:E.
  - apply lookup_In in E. rewrite forallb_forall in Hrows.
    specialize (Hrows _ E). simpl in Hrows.
    destruct (lookup category row) as [v|]; simpl.
    + apply Z.leb_le in Hrows.
      destruct (v =? 0) eqn:Ez; simpl; [apply Z.eqb_eq in Ez; lia|lia].
    + destruct (g =? 0) eqn:Ez; simpl; [apply Z.eqb_eq in Ez; lia|lia].
  - simpl. destruct (g =? 0) eqn:Ez; simpl; [apply Z.eqb_eq in Ez; lia|lia].
Qed.

(** A template with a title and a body placeholder is never filed under
    "other" by the scorer. *)
Lemma matcher_category_with_title_and_body (layout : Layout.t) :
  hasRole layout "TITLE" = true ->
  hasRole layout "BODY" = true ->
  In (ContentMatcher.getLayoutCategory layout)
     ["titleOnly"; "sectionHeader"; "titleAndTwoColumns"; "blank";
      "titleAndBody"].
Proof.
  unfold hasRole.
  cbv beta zeta delta [ContentMatcher.getLayoutCategory].
  set (types := Layout.placeholderTypes layout).
  intros HT HB. rewrite HT, HB. cbn [andb negb].
  repeat match goal with
         | |- context [if JsString.includes ?n ?t || ?c then _ else _] =>
             destruct (JsString.includes n t || c); [simpl; tauto|]
         | |- context [if JsString.includes ?n ?t then _ else _] =>
             destruct (JsString.includes n t); [simpl; tauto|]
         end.
  set (f := fun t : option string => _).
  assert (Hn : (1 <= List.length (filter f types))%nat).
  { apply (filter_counts_member f types "BODY"); [|exact HB].
    intros t Ht. subst f. cbv beta. now rewrite Ht. }
  destruct (Z.of_nat (List.length (filter f types)) =? 1) eqn:E3;
    [simpl; tauto|].
  destruct (Z.of_nat (List.length (filter f types)) >=? 2) eqn:E4;
    [simpl; tauto|].
  apply Z.eqb_neq in E3. rewrite Z.geb_leb in E4.
  apply Z.leb_gt in E4. lia.
Qed.

(** X3: the raw score of the canonical scorer is never below -5, and -5
    is reached, so the lower clamp at 0 does act (whereas the upper one
    never does). *)
Theorem rawScore_at_least_minus_5 :
  (forall (a : ContentAnalysis) (layout : Layout.t),
      -5 <= ContentMatcher.rawScore a layout)
  /\ ContentMatcher.rawScore (ContentMatcher.analyzeContent emptyContent)
                             pictureHeavy = -5
  /\ ContentMatcher.calculateLayoutScore
       (ContentMatcher.analyzeContent emptyContent) pictureHeavy = 0.
Proof.
  split; [|split; reflexivity].
  intros a layout.
  pose proof (getCategoryScores_bounds a
                (ContentMatcher.getLayoutCategory layout)) as H0.
  assert (Hto : ContentMatcher.getLayoutCategory layout = "titleOnly" ->
                25 <= ContentMatcher.getCategoryScores a
                        (ContentMatcher.getLayoutCategory layout)).
  { intros ->. now apply (base_at_least a "titleOnly" 25 25). }
  assert (Htc : ContentMatcher.getLayoutCategory layout
                = "titleAndTwoColumns" ->
                15 <= ContentMatcher.getCategoryScores a
                        (ContentMatcher.getLayoutCategory layout)).
  { intros ->. now apply (base_at_least a "titleAndTwoColumns" 15 15). }
  assert (Htb : hasRole layout "TITLE" = true ->
                hasRole layout "BODY" = true ->
                10 <= ContentMatcher.getCategoryScores a
                        (ContentMatcher.getLayoutCategory layout)).
  { intros HT HB.
    pose proof (matcher_category_with_title_and_body layout HT HB) as Hin.
    simpl in Hin.
    destruct Hin as [<-|[<-|[<-|[<-|[<-|[]]]]]].
    - now apply (base_at_least a "titleOnly" 10 25).
    - now apply (base_at_least a "sectionHeader" 10 20).
    - now apply (base_at_least a "titleAndTwoColumns" 10 15).
    - now apply (base_at_least a "blank" 10 10).
    - now apply (base_at_least a "titleAndBody" 10 35). }
  unfold hasRole in Htb.
  cbv beta zeta delta [ContentMatcher.rawScore].
  set (cat := ContentMatcher.getLayoutCategory layout) in *.
  set (base := ContentMatcher.getCategoryScores a cat) in *.
  destruct (String.eqb cat "titleOnly") eqn:E1;
    [apply String.eqb_eq in E1; specialize (Hto E1)|clear Hto];
    (destruct (String.eqb cat "titleAndTwoColumns") eqn:E2;
     [apply String.eqb_eq in E2; specialize (Htc E2)|clear Htc]);
    try (exfalso; rewrite E1 in E2; discriminate);
    (destruct (arrIncludes (Layout.placeholderTypes layout) "TITLE") eqn:ET;
     destruct (arrIncludes (Layout.placeholderTypes layout) "BODY") eqn:EB;
     try specialize (Htb eq_refl eq_refl));
    rewrite ?andb_false_r, ?andb_true_r;
    split_ifs; lia.
Qed.

(** ** Stale scores *)

Lemma calculateLayoutScore_withScore (a : ContentAnalysis) (l : Layout.t)
  (s : Z) :
  ContentMatcher.calculateLayoutScore a (Layout.withScore l s)
  = ContentMatcher.calculateLayoutScore a l.
Proof. reflexivity. Qed.

Lemma allocated_rescored (a : ContentAnalysis) (f : Layout.t -> Z)
  (layouts : list Layout.t) (i : nat) :
  allocated a i (map (fun l => Layout.withScore l (f l)) layouts)
  = allocated a i layouts.
Proof.
  revert i. induction layouts as [|l t IH]; intros i; [reflexivity|].
  cbn [map allocated]. now rewrite IH.
Qed.

(** X4: the selector overwrites the score a template arrives with: its
    result is the same whatever the [score] fields of its input hold. *)
Theorem findBestLayout_ignores_input_scores :
  forall (c : Content) (layouts : list Layout.t) (f : Layout.t -> Z),
    outcome (ContentMatcher.findBestLayout c
               (map (fun l => Layout.withScore l (f l)) layouts))
    = outcome (ContentMatcher.findBestLayout c layouts).
Proof.
  intros c layouts f.
  unfold ContentMatcher.findBestLayout.
  rewrite length_map.
  destruct (Nat.eqb (List.length layouts) 0); [reflexivity|].
  rewrite !scoreAll_run, allocated_rescored.
  unfold bind.
  destruct (sort ContentMatcher.byScore
              (allocated (ContentMatcher.analyzeContent c) 0 layouts));
    reflexivity.
Qed.

(** ** The reasoning *)

Lemma string_app_assoc (s1 s2 s3 : string) :
  ((s1 ++ s2) ++ s3 = s1 ++ (s2 ++ s3))%string.
Proof. induction s1 as [|ch s1 IH]; simpl; [reflexivity|now rewrite IH]. Qed.

Lemma join_push (sep : string) (l : list string) (x : string) :
  exists prefix, JsString.join sep (push l x) = (prefix ++ x)%string.
Proof.
  unfold push. induction l as [|y t IH].
  - exists EmptyString. reflexivity.
  - destruct IH as [p Hp]. destruct t as [|z t'].
    + exists (y ++ sep)%string. simpl. now rewrite string_app_assoc.
    + exists (y ++ sep ++ p)%string.
      change (JsString.join sep ((y :: z :: t') ++ [x])%list)
        with (y ++ sep ++ JsString.join sep ((z :: t') ++ [x])%list)%string.
      rewrite Hp. now rewrite !string_app_assoc.
Qed.

Lemma generateReasoning_ends_with_score (a : ContentAnalysis)
  (layout : Layout.t) :
  exists prefix,
    ContentMatcher.generateReasoning a layout
    = (prefix ++ "Score: " ++ JsString.ofZ (Layout.score layout)
       ++ "/100")%string.
Proof.
  cbv beta zeta delta [ContentMatcher.generateReasoning].
  apply join_push.
Qed.

(** X5: the reasoning of a result ends with the score the run computed
    for the best template, as "Score: n/100". *)
Theorem reasoning_reports_best_score :
  forall (c : Content) (first : Layout.t) (rest : list Layout.t),
  exists r prefix,
    outcome (ContentMatcher.findBestLayout c (first :: rest)) = Ok r
    /\ reasoning r
       = (prefix ++ "Score: " ++ JsString.ofZ (scoreOf (bestLayout r))
          ++ "/100")%string
    /\ (exists l, In l (first :: rest)
                  /\ scoreOf (bestLayout r)
                     = ContentMatcher.calculateLayoutScore
                         (ContentMatcher.analyzeContent c) l).
Proof.
  intros c first rest.
  destruct (findBestLayout_run c first rest)
    as (best & others & Hsort & Hrun).
  destruct (generateReasoning_ends_with_score
              (ContentMatcher.analyzeContent c) (obj best)) as [prefix Hp].
  eexists. exists prefix. rewrite Hrun. cbn [outcome snd].
  split; [reflexivity|]. cbn [reasoning bestLayout].
  split; [exact Hp|].
  assert (Hin : In best (allocated (ContentMatcher.analyzeContent c) 0
                                   (first :: rest))).
  { rewrite <- (sort_perm ContentMatcher.byScore). rewrite Hsort. now left. }
  apply allocated_inv in Hin. destruct Hin as (j & l & Hn & _ & Ho).
  exists l. split; [eapply nth_error_In; eassumption|].
  unfold scoreOf. now rewrite Ho.
Qed.

(** ** The profile *)

(** X6: in a profile, a positive image count implies the image flag and a
    positive bullet count implies the bullet flag; the converses fail: an
    image url beside an empty [images] array, or bullets beside an empty
    [bulletPoints] array, set the flag and leave the count at 0. *)
Theorem counts_imply_flags :
  (forall c : Content,
      let a := ContentMatcher.analyzeContent c in
      (0 < imageCount a -> hasImage a = true)
      /\ (0 < bulletCount a -> hasBullets a = true))
  /\ (hasImage (ContentMatcher.analyzeContent urlAndNoImages) = true
      /\ imageCount (ContentMatcher.analyzeContent urlAndNoImages) = 0)
  /\ (hasBullets (ContentMatcher.analyzeContent bulletsOverridden) = true
      /\ bulletCount (ContentMatcher.analyzeContent bulletsOverridden) = 0).
Proof.
  split; [|repeat split; reflexivity].
  intros c a. subst a.
  cbv beta zeta delta [ContentMatcher.analyzeContent imageCount bulletCount
                       hasImage hasBullets].
  destruct c as [t b url imgs bl bp cols cmp].
  cbn [images imageUrl bullets bulletPoints].
  unfold optLength, truthyNum.
  split.
  - destruct imgs as [l|].
    + intros H. destruct (Z.of_nat (List.length l) =? 0) eqn:E;
        [apply Z.eqb_eq in E; lia|]. cbn [negb]. apply orb_true_r.
    + destruct (truthyField url); [reflexivity|lia].
  - destruct bp as [l|].
    + intros H. destruct (Z.of_nat (List.length l) =? 0) eqn:E;
        [apply Z.eqb_eq in E; lia|]. cbn [negb]. apply orb_true_r.
    + destruct bl as [l|]; [|lia].
      intros H. destruct (Z.of_nat (List.length l) =? 0) eqn:E;
        [apply Z.eqb_eq in E; lia|]. reflexivity.
Qed.

(** ** The inline scorer and selector of the complete workflow *)

(** X7: the inline scorer throws exactly on a template without display
    name; otherwise its score lies between 0 and 110. *)
Theorem inline_score_bounds :
  forall (a : CompleteWorkflow.Analysis) (layout : Layout.t),
    match CompleteWorkflow.calculateLayoutScore a layout with
    | Ok s => Layout.displayName layout <> None /\ 0 <= s <= 110
    | Throw e => e = TypeError /\ Layout.displayName layout = None
    end.
Proof.
  intros a layout.
  cbv beta zeta delta [CompleteWorkflow.calculateLayoutScore].
  destruct (Layout.displayName layout) as [name|]; [|now split].
  split; [discriminate|].
  destruct (String.eqb (CompleteWorkflow.contentType a) "section") eqn:E.
  - apply String.eqb_eq in E. rewrite E.
    change (String.eqb "section" "comparison") with false.
    cbn [andb]. split_ifs; lia.
  - cbn [andb]. split_ifs; lia.
Qed.

Section KeySort.
Context {A : Type} (key : A -> Z).

Lemma sort_descending (l : list A) :
  StronglySorted (fun x y => key y <= key x) (sort (fun a b : A => key b - key a) l).
Proof.
  induction l as [|x t IH]; simpl; [constructor|].
  revert IH. generalize (sort (fun a b : A => key b - key a) t). clear t.
  intros s Hs. induction s as [|y s IHs]; simpl.
  - constructor; constructor.
  - apply StronglySorted_inv in Hs. destruct Hs as [Hs Hy].
    cbv beta.
    destruct (key y - key x <=? 0) eqn:E.
    + apply Z.leb_le in E. constructor; [constructor; assumption|].
      constructor; [lia|].
      rewrite Forall_forall in *. intros z Hz. specialize (Hy z Hz). lia.
    + apply Z.leb_gt in E. constructor; [now apply IHs|].
      rewrite (insertSorted_perm (fun a b : A => key b - key a) x s). constructor; [lia|assumption].
Qed.

Lemma sort_head_max (l : list A) (best : A) (others : list A) :
  sort (fun a b : A => key b - key a) l = best :: others ->
  forall x, In x l -> key x <= key best.
Proof.
  intros Hs x Hx.
  pose proof (sort_descending l) as Hd. rewrite Hs in Hd.
  apply StronglySorted_inv in Hd. destruct Hd as [_ Hall].
  rewrite <- (sort_perm (fun a b : A => key b - key a) l), Hs in Hx.
  destruct Hx as [<-|Hx]; [lia|].
  rewrite Forall_forall in Hall. now apply Hall.
Qed.

Lemma sort_constant_key (l : list A) (k : Z) :
  Forall (fun x => key x = k) l -> sort (fun a b : A => key b - key a) l = l.
Proof.
  induction 1 as [|x t Hx Ht IH]; simpl; [reflexivity|].
  rewrite IH. destruct t as [|y t']; [reflexivity|].
  simpl. inversion Ht; subst.
  replace (key y - key x) with 0 by lia. reflexivity.
Qed.
End KeySort.

Lemma forall2_in_right {A B : Type} (R : A -> B -> Prop) (l : list A)
  (l' : list B) (H : Forall2 R l l') (y : B) :
  In y l' -> exists x, In x l /\ R x y.
Proof.
  induction H as [|x0 y0 l l' Hxy _ IH]; simpl; [tauto|].
  intros [<-|Hin]; [eauto|].
  destruct (IH Hin) as (x & Hx & Hr). eauto.
Qed.

Lemma forall2_in_left {A B : Type} (R : A -> B -> Prop) (l : list A)
  (l' : list B) (H : Forall2 R l l') (x : A) :
  In x l -> exists y, In y l' /\ R x y.
Proof.
  induction H as [|x0 y0 l l' Hxy _ IH]; simpl; [tauto|].
  intros [<-|Hin]; [eauto|].
  destruct (IH Hin) as (y & Hy & Hr). eauto.
Qed.

Lemma inline_scoreAll_throws (a : CompleteWorkflow.Analysis)
  (layouts : list Layout.t) (i : nat) :
  allNamed layouts = false ->
  CompleteWorkflow.scoreAll a i layouts = Throw TypeError.
Proof.
  revert i. induction layouts as [|l t IH]; intros i; simpl; [discriminate|].
  pose proof (inline_score_bounds a l) as Hb.
  destruct (CompleteWorkflow.calculateLayoutScore a l) as [s|e].
  - destruct Hb as [Hn _].
    destruct (Layout.displayName l); [|now destruct Hn].
    simpl. intros H. now rewrite (IH _ H).
  - destruct Hb as [-> _]. reflexivity.
Qed.

Lemma inline_scoreAll_ok (a : CompleteWorkflow.Analysis)
  (layouts : list Layout.t) (i : nat) :
  allNamed layouts = true ->
  exists scored,
    CompleteWorkflow.scoreAll a i layouts = Ok scored
    /\ Forall2 (fun l s => CompleteWorkflow.calculateLayoutScore a l
                           = Ok (scoreOf s)) layouts scored.
Proof.
  revert i. induction layouts as [|l t IH]; intros i; simpl.
  - intros _. exists []. split; [reflexivity|constructor].
  - pose proof (inline_score_bounds a l) as Hb.
    destruct (CompleteWorkflow.calculateLayoutScore a l) as [s|e] eqn:Es.
    + intros H. apply andb_true_iff in H. destruct H as [_ H].
      destruct (IH (S i) H) as (scored & Hs & Hall).
      simpl. rewrite Hs. simpl. eexists. split; [reflexivity|].
      constructor; [exact Es|assumption].
    + destruct Hb as [_ ->]. discriminate.
Qed.

(** The run of the inline selector on content and templates of the data
    model's types. *)
Lemma inline_select :
  forall (c : Content) (layouts : list Layout.t),
    let a := CompleteWorkflow.analyzeContent c in
    match layouts with
    | [] => CompleteWorkflow.findBestLayout c layouts
            = Throw NoLayoutsAvailable
    | _ :: _ =>
        if allNamed layouts then
          exists r,
            CompleteWorkflow.findBestLayout c layouts = Ok r
            /\ (exists l,
                   In l layouts
                   /\ CompleteWorkflow.calculateLayoutScore a l
                      = Ok (scoreOf (CompleteWorkflow.bestLayout r)))
            /\ (forall l s,
                   In l layouts ->
                   CompleteWorkflow.calculateLayoutScore a l = Ok s ->
                   s <= scoreOf (CompleteWorkflow.bestLayout r))
        else CompleteWorkflow.findBestLayout c layouts = Throw TypeError
    end.
Proof.
  intros c layouts a. destruct layouts as [|first rest]; [reflexivity|].
  set (layouts := first :: rest).
  unfold CompleteWorkflow.findBestLayout.
  change (Nat.eqb (List.length layouts) 0) with false. cbv iota.
  fold a.
  destruct (allNamed layouts) eqn:Hn.
  - destruct (inline_scoreAll_ok a layouts 0 Hn) as (scored & Hs & Hall).
    rewrite Hs. cbn [rbind].
    destruct (sort (fun a0 b => scoreOf b - scoreOf a0) scored)
      as [|best others] eqn:Esort.
    + pose proof (sort_perm (fun a0 b => scoreOf b - scoreOf a0) scored) as Hp.
      rewrite Esort in Hp. apply Permutation_nil in Hp. subst scored.
      inversion Hall.
    + eexists. split; [reflexivity|]. cbn [CompleteWorkflow.bestLayout].
      assert (Hbest : In best scored).
      { rewrite <- (sort_perm (fun a0 b => scoreOf b - scoreOf a0) scored).
        rewrite Esort. now left. }
      split.
      * destruct (forall2_in_right _ _ _ Hall best Hbest) as (l & Hl & He).
        exists l. now split.
      * intros l s Hin Hl.
        destruct (forall2_in_left _ _ _ Hall l Hin) as (x & Hx & He).
        assert (s = scoreOf x) as -> by congruence.
        exact (sort_head_max scoreOf scored best others Esort x Hx).
  - now rewrite (inline_scoreAll_throws a layouts 0 Hn).
Qed.

(** X8: for content whose fields have the types of the data model, the
    inline selector throws "No layouts available" on the empty sequence,
    and a TypeError on a non-empty sequence in which a template lacks a
    display name; whenever it returns, the sequence is not empty, every
    template has a display name, the score of the best template is the
    inline score of one of the templates, and no template has a higher
    inline score. *)
Theorem inline_findBestLayout_cases :
  forall (c : Content) (layouts : list Layout.t),
    let a := CompleteWorkflow.analyzeContent c in
    (layouts = [] ->
     CompleteWorkflow.findBestLayout c layouts = Throw NoLayoutsAvailable)
    /\ (layouts <> [] -> allNamed layouts = false ->
        CompleteWorkflow.findBestLayout c layouts = Throw TypeError)
    /\ (forall r,
          CompleteWorkflow.findBestLayout c layouts = Ok r ->
          layouts <> []
          /\ allNamed layouts = true
          /\ (exists l,
                 In l layouts
                 /\ CompleteWorkflow.calculateLayoutScore a l
                    = Ok (scoreOf (CompleteWorkflow.bestLayout r)))
          /\ (forall l s,
                 In l layouts ->
                 CompleteWorkflow.calculateLayoutScore a l = Ok s ->
                 s <= scoreOf (CompleteWorkflow.bestLayout r))).
Proof.
  intros c layouts a.
  pose proof (inline_select c layouts) as H. cbv zeta in H. fold a in H.
  destruct layouts as [|first rest].
  - split; [intros _; exact H|].
    split; [intros Hne; now destruct Hne|].
    intros r Hr. rewrite H in Hr. discriminate.
  - split; [discriminate|].
    destruct (allNamed (first :: rest)).
    + split; [discriminate|].
      intros r Hr. destruct H as (r' & Hr' & Hfrom & Hmax).
      assert (r' = r) as -> by congruence.
      split; [discriminate|]. split; [reflexivity|]. now split.
    + split; [intros _ _; exact H|].
      intros r Hr. rewrite H in Hr. discriminate.
Qed.

Lemma inline_findBestLayout_cases_witness :
  CompleteWorkflow.findBestLayout strategy [] = Throw NoLayoutsAvailable
  /\ CompleteWorkflow.findBestLayout strategy [titleBody; unnamedLayout]
     = Throw TypeError
  /\ (exists r,
        CompleteWorkflow.findBestLayout strategy tiedLayouts = Ok r
        /\ allNamed tiedLayouts = true).
Proof.
  split; [|split].
  - exact (proj1 (inline_findBestLayout_cases strategy []) eq_refl).
  - refine (proj1 (proj2 (inline_findBestLayout_cases strategy
                            [titleBody; unnamedLayout])) _ eq_refl).
    discriminate.
  - eexists. split; [reflexivity|].
    exact (proj1 (proj2 (proj2 (proj2 (inline_findBestLayout_cases
                                          strategy tiedLayouts))
                           _ eq_refl))).
Defined.

(** ** Grouping placeholders by type *)

Lemma lookup_push_new {V : Type} (k k' : string) (v : V)
  (tbl : list (string * V)) :
  lookup k' tbl = None ->
  lookup k (push tbl (k', v))
  = if String.eqb k k' then Some v else lookup k tbl.
Proof.
  unfold push. induction tbl as [|[k0 v0] rest IH]; simpl; [reflexivity|].
  destruct (String.eqb_spec k' k0) as [->|Hne]; [discriminate|].
  intros H. rewrite (IH H).
  destruct (String.eqb_spec k k0) as [->|Hne2]; [|reflexivity].
  destruct (String.eqb_spec k0 k') as [<-|_]; [now destruct Hne|reflexivity].
Qed.

Lemma lookup_pushUnder (k k' : string) (x : Placeholder.t)
  (tbl : list (string * list Placeholder.t)) :
  lookup k (pushUnder k' x tbl)
  = if String.eqb k k'
    then option_map (fun b => push b x) (lookup k' tbl)
    else lookup k tbl.
Proof.
  induction tbl as [|[k0 v0] rest IH]; simpl.
  - now destruct (String.eqb k k').
  - destruct (String.eqb_spec k' k0) as [->|Hne]; simpl.
    + destruct (String.eqb_spec k k0) as [->|Hne2]; reflexivity.
    + rewrite IH.
      destruct (String.eqb_spec k k0) as [->|Hne2]; [|reflexivity].
      destruct (String.eqb_spec k0 k') as [<-|_];
        [now destruct Hne|reflexivity].
Qed.

Lemma groupByType_ok (placeholders : list Placeholder.t) :
  existsb inheritedKey placeholders = false ->
  forall byType,
  exists grouped,
    groupByType placeholders byType = Ok grouped
    /\ forall k, lookup k grouped
                 = merged (lookup k byType) (bucketOf k placeholders).
Proof.
  induction placeholders as [|p rest IH]; intros Hk byType.
  - exists byType. split; [reflexivity|]. intros k. simpl.
    destruct (lookup k byType); simpl; [now rewrite app_nil_r|reflexivity].
  - simpl in Hk. apply orb_false_iff in Hk. destruct Hk as [Hp Hrest].
    cbn [groupByType]. unfold inheritedKey in Hp. rewrite Hp.
    set (kp := typeKey (Placeholder.type p)).
    set (byType' := match lookup kp byType with
                    | Some _ => byType
                    | None => push byType (kp, [])
                    end).
    destruct (IH Hrest (pushUnder kp p byType')) as (grouped & Hg & Hl).
    exists grouped. split; [exact Hg|].
    intros k. rewrite Hl, lookup_pushUnder.
    unfold bucketOf at 2. cbn [filter]. fold (bucketOf k rest). fold kp.
    rewrite (String.eqb_sym kp k).
    assert (Hkp : lookup kp byType'
                  = Some (match lookup kp byType with
                          | Some b => b
                          | None => []
                          end)).
    { subst byType'. destruct (lookup kp byType) eqn:E; [exact E|].
      rewrite (lookup_push_new kp kp [] byType E).
      now rewrite String.eqb_refl. }
    destruct (String.eqb_spec k kp) as [->|Hne].
    + rewrite Hkp. cbn [option_map merged]. unfold push.
      destruct (lookup kp byType); cbn [merged];
        now rewrite <- app_assoc.
    + assert (Hk : lookup k byType' = lookup k byType).
      { subst byType'. destruct (lookup kp byType) eqn:E; [reflexivity|].
        rewrite (lookup_push_new k kp [] byType E).
        destruct (String.eqb_spec k kp); [contradiction|reflexivity]. }
      now rewrite Hk.
Qed.

Lemma groupByType_throws (placeholders : list Placeholder.t) :
  existsb inheritedKey placeholders = true ->
  forall byType, groupByType placeholders byType = Throw TypeError.
Proof.
  induction placeholders as [|p rest IH]; intros Hk byType;
    [discriminate|].
  cbn [groupByType]. simpl in Hk. unfold inheritedKey in Hk at 1.
  destruct (existsb (String.eqb (typeKey (Placeholder.type p)))
                    objectPrototypeKeys); [reflexivity|].
  now apply IH.
Qed.

Lemma first_of_bucket (role : string) (layout : Layout.t)
  (grouped : list (string * list Placeholder.t)) (requests : list Request)
  (request : Placeholder.t -> Request) :
  (forall k, lookup k grouped
             = merged None (bucketOf k (Layout.placeholders layout))) ->
  match lookup role grouped with
  | Some bucket =>
      first <~ firstOf bucket ;; Ok (push requests (request first))
  | None => Ok requests
  end
  = Ok (requests
        ++ match firstOfRole layout role with
           | Some p => [request p]
           | None => []
           end)%list.
Proof.
  intros H. rewrite H. unfold firstOfRole.
  destruct (bucketOf role (Layout.placeholders layout)); simpl;
    [now rewrite app_nil_r|reflexivity].
Qed.

(** ** The requests of the complete workflow *)

Lemma prepare_plan :
  forall (layout : Layout.t) (content : SlideContent) (slideId : string),
    CompleteWorkflow.prepareSlideRequests layout content slideId
    = if existsb inheritedKey (Layout.placeholders layout)
      then Throw TypeError
      else Ok (CreateSlide slideId (Layout.objectId layout) None
               :: plannedEdits layout content).
Proof.
  intros layout content slideId.
  cbv beta zeta delta [CompleteWorkflow.prepareSlideRequests].
  destruct (existsb inheritedKey (Layout.placeholders layout)) eqn:Hk.
  - now rewrite (groupByType_throws _ Hk).
  - destruct (groupByType_ok _ Hk []) as (grouped & Hg & Hl).
    rewrite Hg. cbn [rbind].
    assert (Hl' : forall k, lookup k grouped
                  = merged None (bucketOf k (Layout.placeholders layout)))
      by (intros k; now rewrite Hl).
    unfold plannedEdits, editFor.
    assert (Hbody : match bullets (fields content) with
                    | Some items =>
                        if Z.of_nat (List.length items) >? 0
                        then JsString.join newline
                               (map (fun bullet =>
                                       (CompleteWorkflow.bulletPrefix
                                        ++ bullet)%string) items)
                        else orEmpty (body (fields content))
                    | None => orEmpty (body (fields content))
                    end
                    = bodyTextOf CompleteWorkflow.bulletPrefix
                                 (fields content)).
    { unfold bodyTextOf. destruct (bullets (fields content)) as [[|x t]|];
        reflexivity. }
    rewrite Hbody.
    destruct (truthyField (title (fields content)));
      destruct (truthyField (body (fields content)));
      destruct (truthyField (subtitle content));
      destruct (truthyField (imageUrl (fields content)));
      rewrite ?(first_of_bucket _ layout grouped _ _ Hl'); cbn [rbind];
      rewrite ?(first_of_bucket _ layout grouped _ _ Hl'); cbn [rbind];
      rewrite ?(first_of_bucket _ layout grouped _ _ Hl'); cbn [rbind];
      rewrite ?(first_of_bucket _ layout grouped _ _ Hl'); cbn [rbind];
      unfold push; cbn [app]; rewrite ?app_nil_r, <- ?app_assoc;
      reflexivity.
Qed.

(** X9: for a template and content whose fields have the types of the
    data model, building the requests throws a TypeError when some
    placeholder type is a name every object inherits; whenever the
    requests are returned, no placeholder type is such a name, and they
    are the request creating the slide from the template, followed by one
    edit per non-empty field among title, body, subtitle and image, in
    this order, each aimed at the first placeholder of its role and left
    out when the template has none. *)
Theorem prepareSlideRequests_outcomes :
  forall (layout : Layout.t) (content : SlideContent) (slideId : string),
    (existsb inheritedKey (Layout.placeholders layout) = true ->
     CompleteWorkflow.prepareSlideRequests layout content slideId
     = Throw TypeError)
    /\ (forall requests,
          CompleteWorkflow.prepareSlideRequests layout content slideId
          = Ok requests ->
          existsb inheritedKey (Layout.placeholders layout) = false
          /\ requests
             = CreateSlide slideId (Layout.objectId layout) None
               :: plannedEdits layout content).
Proof.
  intros layout content slideId. rewrite prepare_plan.
  destruct (existsb inheritedKey (Layout.placeholders layout)).
  - split; [reflexivity|discriminate].
  - split; [discriminate|]. intros requests [= <-]. now split.
Qed.

Lemma prepareSlideRequests_outcomes_witness :
  CompleteWorkflow.prepareSlideRequests inheritedType bulletedSlide "s1"
  = Throw TypeError
  /\ [ CreateSlide "s1" "layoutBB" None;
       InsertText "t1" "Plan" 0;
       InsertText "b1"
         (CompleteWorkflow.bulletPrefix ++ "one" ++ newline
          ++ CompleteWorkflow.bulletPrefix ++ "two") 0 ]
     = CreateSlide "s1" (Layout.objectId twoBodies) None
       :: plannedEdits twoBodies bulletedSlide.
Proof.
  split.
  - apply (prepareSlideRequests_outcomes inheritedType bulletedSlide "s1").
    reflexivity.
  - apply (prepareSlideRequests_outcomes twoBodies bulletedSlide "s1").
    reflexivity.
Defined.

Lemma firstOfRole_member (layout : Layout.t) (role : string)
  (p : Placeholder.t) :
  firstOfRole layout role = Some p ->
  In p (Layout.placeholders layout)
  /\ typeKey (Placeholder.type p) = role.
Proof.
  unfold firstOfRole, bucketOf. intros H.
  assert (Hin : In p (filter (fun q => String.eqb (typeKey (Placeholder.type q))
                                                  role)
                             (Layout.placeholders layout))).
  { destruct (filter _ (Layout.placeholders layout)); [discriminate|].
    injection H as ->. now left. }
  apply filter_In in Hin. destruct Hin as [Hin He].
  split; [exact Hin|now apply String.eqb_eq].
Qed.

Lemma editFor_cases (layout : Layout.t) (role : string)
  (field : option string) (request : Placeholder.t -> Request) :
  editFor layout role field request = []
  \/ exists p, firstOfRole layout role = Some p
               /\ truthyField field = true
               /\ editFor layout role field request = [request p].
Proof.
  unfold editFor. destruct (truthyField field); [|now left].
  destruct (firstOfRole layout role) as [p|]; [right; eauto|now left].
Qed.

(** X10: when the requests are built, there are at most five of them, the
    first creates the slide, and every other one writes to a placeholder
    of the chosen template. *)
Theorem prepareSlideRequests_targets :
  forall (layout : Layout.t) (content : SlideContent) (slideId : string)
         (requests : list Request),
    CompleteWorkflow.prepareSlideRequests layout content slideId
    = Ok requests ->
    (List.length requests <= 5)%nat
    /\ hd_error requests
       = Some (CreateSlide slideId (Layout.objectId layout) None)
    /\ forall r id,
         In r requests -> targetOf r = Some id ->
         exists p, In p (Layout.placeholders layout)
                   /\ Placeholder.objectId p = id.
Proof.
  intros layout content slideId requests H.
  rewrite prepare_plan in H.
  destruct (existsb inheritedKey (Layout.placeholders layout));
    [discriminate|].
  injection H as <-. unfold plannedEdits.
  set (c := fields content).
  destruct (editFor_cases layout "TITLE" (title c)
              (fun p => InsertText (Placeholder.objectId p)
                                   (orEmpty (title c)) 0))
    as [E1|(p1 & F1 & _ & E1)];
    destruct (editFor_cases layout "BODY" (body c)
                (fun p => InsertText (Placeholder.objectId p)
                            (bodyTextOf CompleteWorkflow.bulletPrefix c) 0))
      as [E2|(p2 & F2 & _ & E2)];
    destruct (editFor_cases layout "SUBTITLE" (subtitle content)
                (fun p => InsertText (Placeholder.objectId p)
                                     (orEmpty (subtitle content)) 0))
      as [E3|(p3 & F3 & _ & E3)];
    destruct (editFor_cases layout "PICTURE" (imageUrl c)
                (fun p => ReplaceImage (Placeholder.objectId p)
                                       (orEmpty (imageUrl c)) None))
      as [E4|(p4 & F4 & _ & E4)];
    rewrite E1, E2, E3, E4; cbn [app List.length hd_error];
    (split; [lia|]); (split; [reflexivity|]);
    intros r id Hin Ht; cbn [In] in Hin;
    repeat match goal with
           | H : _ \/ _ |- _ => destruct H as [H|H]
           | H : False |- _ => destruct H
           end;
    subst r; cbn [targetOf] in Ht; try discriminate;
    injection Ht as <-;
    repeat match goal with
           | F : firstOfRole _ _ = Some ?p |- _ =>
               apply firstOfRole_member in F; destruct F as [? _]
           end;
    eauto.
Qed.

Lemma prepareSlideRequests_targets_witness :
  exists requests,
    CompleteWorkflow.prepareSlideRequests twoBodies bulletedSlide "s1"
    = Ok requests
    /\ (List.length requests <= 5)%nat.
Proof.
  eexists. split; [reflexivity|].
  apply (prepareSlideRequests_targets twoBodies bulletedSlide "s1").
  reflexivity.
Defined.

(** X11: bullets reach the slide only through a non-empty body: with an
    empty body they are dropped and no body text is sent, and with a
    non-empty body and at least one bullet the body text itself is never
    sent, whatever it says. *)
Theorem bullets_replace_a_nonempty_body :
  forall (layout : Layout.t) (content : SlideContent) (slideId : string),
    (truthyField (body (fields content)) = false ->
     CompleteWorkflow.prepareSlideRequests layout content slideId
     = CompleteWorkflow.prepareSlideRequests layout
         (setBullets content None) slideId)
    /\ (forall x t other,
           bullets (fields content) = Some (x :: t) ->
           truthyField (body (fields content)) = true ->
           JsString.truthy other = true ->
           CompleteWorkflow.prepareSlideRequests layout content slideId
           = CompleteWorkflow.prepareSlideRequests layout
               (setBody content (Some other)) slideId).
Proof.
  intros layout content slideId.
  split.
  - intros Hb. rewrite !prepare_plan.
    destruct (existsb inheritedKey (Layout.placeholders layout));
      [reflexivity|].
    unfold plannedEdits, editFor. cbn [setBullets fields subtitle title body
      imageUrl]. now rewrite Hb.
  - intros x t other Hbul Hb Ho. rewrite !prepare_plan.
    destruct (existsb inheritedKey (Layout.placeholders layout));
      [reflexivity|].
    unfold plannedEdits, editFor, bodyTextOf.
    cbn [setBody fields subtitle title body imageUrl bullets truthyField].
    now rewrite Hbul, Hb, Ho.
Qed.

Lemma bullets_replace_a_nonempty_body_witness :
  CompleteWorkflow.prepareSlideRequests twoBodies bulletsWithoutBody "s1"
  = Ok [CreateSlide "s1" "layoutBB" None; InsertText "t1" "Plan" 0]
  /\ CompleteWorkflow.prepareSlideRequests twoBodies bulletedSlide "s1"
     = CompleteWorkflow.prepareSlideRequests twoBodies
         (setBody bulletedSlide (Some "other")) "s1".
Proof.
  split.
  - rewrite (proj1 (bullets_replace_a_nonempty_body twoBodies
                      bulletsWithoutBody "s1") eq_refl).
    reflexivity.
  - apply (proj2 (bullets_replace_a_nonempty_body twoBodies bulletedSlide
                    "s1") "one" ["two"] "other"); reflexivity.
Defined.

(** ** The requests of the service *)

Lemma skipn_nth_error {A : Type} (l : list A) (i : nat) :
  skipn i l = match nth_error l i with
              | Some x => x :: skipn (S i) l
              | None => []
              end.
Proof.
  revert i. induction l as [|y t IH]; intros [|i]; try reflexivity.
  simpl. now rewrite IH.
Qed.

Lemma columnRequests_zip (bucket : list Placeholder.t) (columns : list string)
  (index : nat) (requests : list Request) :
  Server.columnRequests bucket index columns requests
  = (requests
     ++ map (fun pc : Placeholder.t * string =>
               InsertText (Placeholder.objectId (fst pc)) (snd pc) 0)
            (combine (skipn index bucket) columns))%list.
Proof.
  revert index requests. induction columns as [|col rest IH];
    intros index requests; cbn [Server.columnRequests].
  - rewrite combine_nil. cbn [map]. now rewrite app_nil_r.
  - rewrite IH, (skipn_nth_error bucket index).
    destruct (nth_error bucket index) as [p|] eqn:E.
    + unfold push. cbn [combine map fst snd]. now rewrite <- app_assoc.
    + cbn [combine map]. rewrite app_nil_r.
      assert (Hs : skipn (S index) bucket = []).
      { apply skipn_all2. apply nth_error_None in E. lia. }
      rewrite Hs. cbn [combine map]. now rewrite app_nil_r.
Qed.

Lemma build_plan :
  forall (slideId : string) (layout : Layout.t) (content : SlideContent)
         (options : Server.Options),
    Server.buildSlideRequests slideId layout content options
    = if existsb inheritedKey (Layout.placeholders layout)
      then Throw TypeError
      else Ok (CreateSlide slideId (Layout.objectId layout)
                           (Server.insertIndex options)
               :: servicePlan layout content options).
Proof.
  intros slideId layout content options.
  cbv beta zeta delta [Server.buildSlideRequests].
  destruct (existsb inheritedKey (Layout.placeholders layout)) eqn:Hk.
  - now rewrite (groupByType_throws _ Hk).
  - destruct (groupByType_ok _ Hk []) as (grouped & Hg & Hl).
    rewrite Hg. cbn [rbind].
    assert (Hl' : forall k, lookup k grouped
                  = merged None (bucketOf k (Layout.placeholders layout)))
      by (intros k; now rewrite Hl).
    unfold servicePlan, editFor.
    assert (Hbody : match bullets (fields content) with
                    | Some items =>
                        if Z.of_nat (List.length items) >? 0
                        then JsString.join newline
                               (map (fun bullet =>
                                       (Server.bulletPrefix
                                        ++ bullet)%string) items)
                        else orEmpty (body (fields content))
                    | None => orEmpty (body (fields content))
                    end
                    = bodyTextOf Server.bulletPrefix (fields content)).
    { unfold bodyTextOf. destruct (bullets (fields content)) as [[|x t]|];
        reflexivity. }
    rewrite Hbody.
    assert (Hcols : forall requests,
               match columns (fields content), lookup "CONTENT" grouped with
               | Some cols, Some bucket =>
                   Server.columnRequests bucket 0 cols requests
               | _, _ => requests
               end
               = (requests
                  ++ map (fun pc : Placeholder.t * string =>
                            InsertText (Placeholder.objectId (fst pc))
                                       (snd pc) 0)
                         (combine
                            (bucketOf "CONTENT" (Layout.placeholders layout))
                            (match columns (fields content) with
                             | Some cols => cols
                             | None => []
                             end)))%list).
    { intros requests. rewrite Hl'.
      destruct (columns (fields content)) as [cols|].
      - destruct (bucketOf "CONTENT" (Layout.placeholders layout)) eqn:Eb;
          cbn [merged].
        + cbn [combine map]. now rewrite app_nil_r.
        + now rewrite columnRequests_zip.
      - rewrite combine_nil. cbn [map]. now rewrite app_nil_r. }
    destruct (truthyField (title (fields content)));
      destruct (truthyField (body (fields content)));
      destruct (truthyField (subtitle content));
      destruct (truthyField (imageUrl (fields content)));
      rewrite ?(first_of_bucket _ layout grouped _ _ Hl'); cbn [rbind];
      rewrite ?(first_of_bucket _ layout grouped _ _ Hl'); cbn [rbind];
      rewrite ?(first_of_bucket _ layout grouped _ _ Hl'); cbn [rbind];
      rewrite ?(first_of_bucket _ layout grouped _ _ Hl'); cbn [rbind];
      rewrite Hcols;
      unfold push; cbn [app]; rewrite ?app_nil_r, <- ?app_assoc;
      reflexivity.
Qed.

(** X12: for a template and content whose fields have the types of the
    data model, the service throws a TypeError when some placeholder type
    is a name every object inherits; whenever the requests are returned,
    no placeholder type is such a name, and they are those of the
    workflow, with the insertion index of the options on the slide, the
    service's own bullet and an image method ("CENTER_INSIDE" unless the
    options name one), followed by one text per column: column i goes to
    the i-th content placeholder, and columns beyond the content
    placeholders are dropped. *)
Theorem buildSlideRequests_outcomes :
  forall (slideId : string) (layout : Layout.t) (content : SlideContent)
         (options : Server.Options),
    (existsb inheritedKey (Layout.placeholders layout) = true ->
     Server.buildSlideRequests slideId layout content options
     = Throw TypeError)
    /\ (forall requests,
          Server.buildSlideRequests slideId layout content options
          = Ok requests ->
          existsb inheritedKey (Layout.placeholders layout) = false
          /\ requests
             = CreateSlide slideId (Layout.objectId layout)
                           (Server.insertIndex options)
               :: servicePlan layout content options).
Proof.
  intros slideId layout content options. rewrite build_plan.
  destruct (existsb inheritedKey (Layout.placeholders layout)).
  - split; [reflexivity|discriminate].
  - split; [discriminate|]. intros requests [= <-]. now split.
Qed.

Lemma buildSlideRequests_outcomes_witness :
  Server.buildSlideRequests "s1" inheritedType bulletedSlide
    (Server.mkOptions (Some 3) None)
  = Throw TypeError
  /\ [ CreateSlide "s1" "layoutBB" (Some 3);
       InsertText "t1" "Plan" 0;
       InsertText "b1"
         (Server.bulletPrefix ++ "one" ++ newline
          ++ Server.bulletPrefix ++ "two") 0;
       InsertText "c1" "left" 0 ]
     = CreateSlide "s1" (Layout.objectId twoBodies) (Some 3)
       :: servicePlan twoBodies bulletedSlide
            (Server.mkOptions (Some 3) None).
Proof.
  split.
  - apply (buildSlideRequests_outcomes "s1" inheritedType bulletedSlide
             (Server.mkOptions (Some 3) None)).
    reflexivity.
  - apply (buildSlideRequests_outcomes "s1" twoBodies bulletedSlide
             (Server.mkOptions (Some 3) None)).
    reflexivity.
Defined.

(** ** The extractor on well-formed and malformed input *)

Lemma truthy_not_nullish (v : value) : truthy v = true -> nullish v = false.
Proof. destruct v; simpl; congruence. Qed.

Lemma get_truthy (v : value) (k : string) :
  truthy v = true -> get v k = Ok (prop v k).
Proof. intros H. unfold get. now rewrite (truthy_not_nullish v H). Qed.

(** What one page element yields. *)
Lemma extractPlaceholder_spec (element : value) :
  if nullish element
  then LayoutAnalyzer.extractPlaceholder element = Throw TypeError
  else exists r,
      LayoutAnalyzer.extractPlaceholder element = Ok r
      /\ match r with
         | None => declaresRole element = false
         | Some ph =>
             declaresRole element = true
             /\ prop ph "objectId" = prop element "objectId"
             /\ prop ph "type"
                = prop (prop (prop element "shape") "placeholder") "type"
             /\ boundsOk (prop ph "bounds") = true
         end.
Proof.
  unfold LayoutAnalyzer.extractPlaceholder, declaresRole.
  destruct (nullish element) eqn:En; unfold get at 1; rewrite En;
    [reflexivity|].
  cbn [rbind].
  destruct (truthy (prop element "shape")) eqn:Es; cbn [negb andb];
    [|eexists; split; reflexivity].
  rewrite (get_truthy _ "placeholder" Es). cbn [rbind].
  destruct (truthy (prop (prop element "shape") "placeholder")) eqn:Ep;
    cbn [negb]; [|eexists; split; reflexivity].
  unfold get at 1. rewrite En. cbn [rbind].
  rewrite !(get_truthy _ _ Ep). cbn [rbind].
  unfold get at 1. rewrite En. cbn [rbind].
  destruct (truthy (prop element "size")) eqn:Esz; cbn [negb rbind].
  - unfold get at 1. rewrite En. cbn [rbind].
    destruct (truthy (prop element "transform")) eqn:Etr; cbn [negb rbind].
    + rewrite !(get_truthy _ _ Etr), !(get_truthy _ _ Esz). cbn [rbind].
      eexists. split; [reflexivity|].
      repeat split.
      cbn [prop lookup String.eqb Ascii.eqb Bool.eqb boundsOk andb].
      unfold definedCoordinate, orElse.
      repeat match goal with
             | |- context [if truthy ?v then _ else _] =>
                 destruct (truthy v) eqn:?
             end; cbn [truthy Z.eqb negb orb andb];
        repeat match goal with
               | H : truthy _ = true |- _ => rewrite H
               end; reflexivity.
    + eexists. split; [reflexivity|]. repeat split.
  - eexists. split; [reflexivity|]. repeat split.
Qed.

Lemma collect_spec {A : Type} (f : value -> result (option A))
  (good : value -> bool) :
  (forall x, match f x with
             | Ok _ => good x = true
             | Throw e => e = TypeError /\ good x = false
             end) ->
  forall items,
    match collect f items with
    | Ok _ => forallb good items = true
    | Throw e => e = TypeError /\ forallb good items = false
    end.
Proof.
  intros Hf. induction items as [|x rest IH]; simpl; [reflexivity|].
  specialize (Hf x). unfold rbind.
  destruct (f x) as [r|e].
  - rewrite Hf. simpl. destruct (collect f rest); exact IH.
  - destruct Hf as [-> ->]. now split.
Qed.

Lemma extractPlaceholders_spec (layout : value) :
  nullish layout = false ->
  match LayoutAnalyzer.extractPlaceholders layout with
  | Ok _ => wellFormedLayout layout = true
  | Throw e => e = TypeError /\ wellFormedLayout layout = false
  end.
Proof.
  intros Hn. unfold LayoutAnalyzer.extractPlaceholders, wellFormedLayout, get.
  rewrite Hn. cbn [rbind negb andb].
  destruct (truthy (prop layout "pageElements")) eqn:Et; cbn [negb orb];
    [|reflexivity].
  destruct (prop layout "pageElements") as [| | | | |elements|];
    cbn [forEach isArray entries andb]; try (now split).
  apply (collect_spec LayoutAnalyzer.extractPlaceholder
           (fun e => negb (nullish e))).
  intros x. pose proof (extractPlaceholder_spec x) as Hx.
  destruct (nullish x).
  - rewrite Hx. now split.
  - destruct Hx as (r & -> & _). reflexivity.
Qed.

Lemma extractLayout_spec (layout : value) :
  match LayoutAnalyzer.extractLayout layout with
  | Ok _ => wellFormedLayout layout = true
  | Throw e => e = TypeError /\ wellFormedLayout layout = false
  end.
Proof.
  destruct (nullish layout) eqn:Hn.
  - unfold LayoutAnalyzer.extractLayout, wellFormedLayout, get.
    rewrite Hn. now split.
  - pose proof (extractPlaceholders_spec layout Hn) as Hp.
    unfold LayoutAnalyzer.extractLayout, get. rewrite Hn. cbn [rbind].
    destruct (LayoutAnalyzer.extractPlaceholders layout); exact Hp.
Qed.

(** X13: the extractor succeeds exactly on a presentation that is not
    [null] or [undefined] and whose layouts are missing (or falsy) or form
    an array of readable templates; in every other case it throws a
    TypeError, so one [null] template or page element, or a layouts field
    that is not an array, loses the whole extraction. *)
Theorem extractLayouts_succeeds_iff_well_formed :
  forall presentation : value,
    match LayoutAnalyzer.extractLayouts presentation with
    | Ok _ => wellFormedPresentation presentation = true
    | Throw e => e = TypeError /\ wellFormedPresentation presentation = false
    end.
Proof.
  intros presentation.
  unfold LayoutAnalyzer.extractLayouts, wellFormedPresentation, get.
  destruct (nullish presentation); [now split|].
  cbn [rbind negb andb].
  destruct (truthy (prop presentation "layouts")) eqn:Et; cbn [negb orb];
    [|reflexivity].
  destruct (prop presentation "layouts") as [| | | | |items|];
    cbn [forEach isArray entries andb]; try (now split).
  apply (collect_spec LayoutAnalyzer.extractLayout wellFormedLayout).
  exact extractLayout_spec.
Qed.

Lemma collect_extractPlaceholder_ids (elements phs : list value) :
  collect LayoutAnalyzer.extractPlaceholder elements = Ok phs ->
  idsOf phs = idsOf (filter declaresRole elements)
  /\ forallb (fun ph => boundsOk (prop ph "bounds")) phs = true.
Proof.
  revert phs. induction elements as [|x rest IH]; intros phs; simpl.
  - intros [= <-]. now split.
  - pose proof (extractPlaceholder_spec x) as Hx.
    destruct (nullish x); [rewrite Hx; discriminate|].
    destruct Hx as (r & -> & Hr). cbn [rbind].
    destruct (collect LayoutAnalyzer.extractPlaceholder rest) as [others|];
      [|discriminate].
    cbn [rbind]. specialize (IH others eq_refl). destruct IH as [IH1 IH2].
    destruct r as [ph|]; intros [= <-].
    + destruct Hr as (-> & Hid & _ & Hb). unfold idsOf in *. simpl.
      rewrite Hid, Hb, IH1. now split.
    + rewrite Hr. now split.
Qed.

(** X14: the placeholders of a template are those of its page elements
    that declare a role (a truthy [shape.placeholder]), in the same order;
    elements without one are skipped. *)
Theorem extractPlaceholders_keeps_declared_roles :
  forall (layout : value) (phs : list value),
    LayoutAnalyzer.extractPlaceholders layout = Ok phs ->
    idsOf phs
    = idsOf (filter declaresRole (entries (prop layout "pageElements"))).
Proof.
  intros layout phs.
  unfold LayoutAnalyzer.extractPlaceholders, get.
  destruct (nullish layout); [discriminate|]. cbn [rbind].
  destruct (truthy (prop layout "pageElements")) eqn:Et; cbn [negb].
  - destruct (prop layout "pageElements") as [| | | | |elements|];
      cbn [forEach entries]; try discriminate.
    intros H. now apply collect_extractPlaceholder_ids in H.
  - intros [= <-].
    destruct (prop layout "pageElements"); try reflexivity.
    discriminate.
Qed.

Lemma extractPlaceholders_keeps_declared_roles_witness :
  exists phs,
    LayoutAnalyzer.extractPlaceholders
      (VObj [ ("pageElements", VArr [ rawTitleElement; rawPicture ]) ])
    = Ok phs
    /\ idsOf phs = [ VStr "e1" ].
Proof.
  eexists. split; [reflexivity|].
  apply (extractPlaceholders_keeps_declared_roles
           (VObj [ ("pageElements", VArr [ rawTitleElement; rawPicture ]) ])).
  reflexivity.
Defined.

Lemma extractPlaceholders_bounds (layout : value) (phs : list value) :
  LayoutAnalyzer.extractPlaceholders layout = Ok phs ->
  forallb (fun ph => boundsOk (prop ph "bounds")) phs = true.
Proof.
  unfold LayoutAnalyzer.extractPlaceholders, get.
  destruct (nullish layout); [discriminate|]. cbn [rbind].
  destruct (truthy (prop layout "pageElements")); cbn [negb].
  - destruct (prop layout "pageElements") as [| | | | |elements|];
      cbn [forEach]; try discriminate.
    intros H. now apply collect_extractPlaceholder_ids in H.
  - now intros [= <-].
Qed.

Lemma collect_extractLayout_props (items ls : list value) :
  collect LayoutAnalyzer.extractLayout items = Ok ls ->
  idsOf ls = idsOf items /\ forallb extractedOk ls = true.
Proof.
  revert ls. induction items as [|x rest IH]; intros ls; simpl.
  - intros [= <-]. now split.
  - unfold rbind at 1.
    destruct (LayoutAnalyzer.extractLayout x) as [r|] eqn:Ex; [|discriminate].
    destruct (collect LayoutAnalyzer.extractLayout rest) as [others|];
      [|discriminate].
    cbn [rbind]. specialize (IH others eq_refl). destruct IH as [IH1 IH2].
    unfold LayoutAnalyzer.extractLayout, get in Ex.
    destruct (nullish x); [discriminate|]. cbn [rbind] in Ex.
    destruct (LayoutAnalyzer.extractPlaceholders x) as [phs|] eqn:Ep;
      [|discriminate].
    cbn [rbind] in Ex. injection Ex as <-. intros [= <-].
    apply extractPlaceholders_bounds in Ep.
    unfold idsOf in *. cbn [map forallb]. rewrite IH1, IH2.
    split; [reflexivity|].
    unfold extractedOk.
    cbn [prop lookup String.eqb Ascii.eqb Bool.eqb isArray entries andb].
    rewrite Ep. unfold orElse.
    destruct (truthy (getOpt (prop x "layoutProperties") "displayName"))
      eqn:Ed; [rewrite Ed|]; reflexivity.
Qed.

(** X15: extraction keeps the templates of the presentation, one for one
    and in order, and every extracted template has a non-empty display
    name ("Unnamed Layout" by default), the score 0 and placeholders whose
    geometry is [null] or gives all four coordinates. *)
Theorem extractLayouts_keeps_order_and_shape :
  forall (presentation : value) (ls : list value),
    LayoutAnalyzer.extractLayouts presentation = Ok ls ->
    idsOf ls = idsOf (entries (prop presentation "layouts"))
    /\ forallb extractedOk ls = true.
Proof.
  intros presentation ls.
  unfold LayoutAnalyzer.extractLayouts, get.
  destruct (nullish presentation); [discriminate|]. cbn [rbind].
  destruct (truthy (prop presentation "layouts")) eqn:Et; cbn [negb].
  - destruct (prop presentation "layouts") as [| | | | |items|];
      cbn [forEach entries]; try discriminate.
    apply collect_extractLayout_props.
  - intros [= <-].
    destruct (prop presentation "layouts"); now split.
Qed.

Lemma extractLayouts_keeps_order_and_shape_witness :
  exists ls,
    LayoutAnalyzer.extractLayouts twoRawLayouts = Ok ls
    /\ idsOf ls = [ VStr "L1"; VStr "L2" ]
    /\ forallb extractedOk ls = true.
Proof.
  eexists. split; [reflexivity|].
  apply (extractLayouts_keeps_order_and_shape twoRawLayouts).
  reflexivity.
Defined.

(** ** Filing templates by category *)

Lemma categoryOf_range (layout : Layout.t) :
  In (LayoutAnalyzer.categoryOf layout) categoryKeys.
Proof.
  unfold LayoutAnalyzer.categoryOf, categoryKeys.
  cbv beta zeta delta [LayoutAnalyzer.determineLayoutCategory].
  split_ifs; simpl; tauto.
Qed.

Lemma filter_disjoint_union {A : Type} (p q : A -> bool) (l : list A) :
  (forall x, p x = true -> q x = false) ->
  Permutation (filter p l ++ filter q l) (filter (fun x => p x || q x) l).
Proof.
  intros Hd. induction l as [|x t IH]; simpl; [constructor|].
  destruct (p x) eqn:Ep; simpl.
  - rewrite (Hd x Ep). now constructor.
  - destruct (q x); [|exact IH].
    apply Permutation_sym, Permutation_cons_app, Permutation_sym, IH.
Qed.

(** Filing by the keys of a duplicate-free list is a rearrangement of the
    templates whose category is among the keys. *)
Lemma filed_permutation (keys : list string) (layouts : list Layout.t) :
  NoDup keys ->
  Permutation
    (flat_map (fun k => filedUnder k layouts) keys)
    (filter (fun l => existsb (String.eqb (LayoutAnalyzer.categoryOf l)) keys)
            layouts).
Proof.
  induction 1 as [|k ks Hk Hnd IH]; cbn [flat_map existsb].
  - induction layouts; simpl; [constructor|assumption].
  - rewrite IH. unfold filedUnder.
    apply (filter_disjoint_union
             (fun l => String.eqb (LayoutAnalyzer.categoryOf l) k)
             (fun l => existsb (String.eqb (LayoutAnalyzer.categoryOf l)) ks)).
    intros x Hx. apply String.eqb_eq in Hx.
    destruct (existsb (String.eqb (LayoutAnalyzer.categoryOf x)) ks) eqn:E;
      [|reflexivity].
    apply existsb_exists in E. destruct E as (k' & Hin & He).
    apply String.eqb_eq in He. congruence.
Qed.

Lemma filter_all {A : Type} (p : A -> bool) (l : list A) :
  (forall x, In x l -> p x = true) -> filter p l = l.
Proof.
  induction l as [|x t IH]; simpl; intros H; [reflexivity|].
  rewrite (H x (or_introl eq_refl)), IH; [reflexivity|].
  intros y Hy. apply H. now right.
Qed.

Lemma filed_all (layouts : list Layout.t) :
  Permutation (flat_map (fun k => filedUnder k layouts) categoryKeys) layouts.
Proof.
  rewrite filed_permutation.
  - rewrite filter_all; [reflexivity|].
    intros x _. apply existsb_exists.
    exists (LayoutAnalyzer.categoryOf x).
    split; [apply categoryOf_range|apply String.eqb_refl].
  - unfold categoryKeys.
    repeat (constructor; [simpl; intuition discriminate|]). constructor.
Qed.

Lemma filedUnder_cons (k : string) (l : Layout.t) (rest : list Layout.t) :
  filedUnder k (l :: rest) = (filedUnder k [l] ++ filedUnder k rest)%list.
Proof.
  unfold filedUnder. simpl.
  now destruct (String.eqb (LayoutAnalyzer.categoryOf l) k).
Qed.

Lemma categorizeOne_step (l : Layout.t) (b1 b2 b3 b4 b5 b6 : list Layout.t) :
  LayoutAnalyzer.categorizeOne
    [ ("titleOnly", b1); ("titleAndBody", b2); ("titleAndTwoColumns", b3);
      ("sectionHeader", b4); ("blank", b5); ("other", b6) ] l
  = [ ("titleOnly", b1 ++ filedUnder "titleOnly" [l]);
      ("titleAndBody", b2 ++ filedUnder "titleAndBody" [l]);
      ("titleAndTwoColumns", b3 ++ filedUnder "titleAndTwoColumns" [l]);
      ("sectionHeader", b4 ++ filedUnder "sectionHeader" [l]);
      ("blank", b5 ++ filedUnder "blank" [l]);
      ("other", b6 ++ filedUnder "other" [l]) ]%list.
Proof.
  unfold LayoutAnalyzer.categorizeOne, filedUnder. cbn [filter].
  fold (LayoutAnalyzer.categoryOf l).
  pose proof (categoryOf_range l) as Hin. unfold categoryKeys in Hin.
  cbn [In] in Hin.
  destruct Hin as [<-|[<-|[<-|[<-|[<-|[<-|[]]]]]]];
    cbn [lookup LayoutAnalyzer.pushTo String.eqb Ascii.eqb Bool.eqb];
    unfold push; rewrite ?app_nil_r; reflexivity.
Qed.

Lemma categorize_fold (layouts : list Layout.t) :
  forall b1 b2 b3 b4 b5 b6 : list Layout.t,
    fold_left LayoutAnalyzer.categorizeOne layouts
      [ ("titleOnly", b1); ("titleAndBody", b2); ("titleAndTwoColumns", b3);
        ("sectionHeader", b4); ("blank", b5); ("other", b6) ]
    = [ ("titleOnly", b1 ++ filedUnder "titleOnly" layouts);
        ("titleAndBody", b2 ++ filedUnder "titleAndBody" layouts);
        ("titleAndTwoColumns", b3 ++ filedUnder "titleAndTwoColumns" layouts);
        ("sectionHeader", b4 ++ filedUnder "sectionHeader" layouts);
        ("blank", b5 ++ filedUnder "blank" layouts);
        ("other", b6 ++ filedUnder "other" layouts) ]%list.
Proof.
  induction layouts as [|l rest IH]; intros b1 b2 b3 b4 b5 b6.
  - cbn [fold_left filedUnder filter]. now rewrite !app_nil_r.
  - cbn [fold_left]. rewrite categorizeOne_step, IH.
    rewrite !(filedUnder_cons _ l rest), !app_assoc. reflexivity.
Qed.

(** X16: filing the templates by category puts each under the key of its
    category and nowhere else, in input order: the six buckets are the
    templates of each category, and together they rearrange the input. *)
Theorem categorizeLayouts_buckets :
  forall layouts : list Layout.t,
    LayoutAnalyzer.categorizeLayouts layouts
    = map (fun k => (k, filedUnder k layouts)) categoryKeys
    /\ Permutation
         (flat_map snd (LayoutAnalyzer.categorizeLayouts layouts)) layouts.
Proof.
  intros layouts.
  assert (H : LayoutAnalyzer.categorizeLayouts layouts
              = map (fun k => (k, filedUnder k layouts)) categoryKeys).
  { unfold LayoutAnalyzer.categorizeLayouts, LayoutAnalyzer.emptyCategories.
    rewrite categorize_fold. reflexivity. }
  split; [exact H|].
  rewrite H.
  transitivity (flat_map (fun k => filedUnder k layouts) categoryKeys);
    [|apply filed_all].
  unfold categoryKeys. cbn [map flat_map snd]. reflexivity.
Qed.

(** ** Statistics *)

Lemma sum_of_filed (layouts : list Layout.t) :
  sumZ (map (fun k => Z.of_nat (List.length (filedUnder k layouts)))
            categoryKeys)
  = Z.of_nat (List.length layouts).
Proof.
  rewrite <- (Permutation_length (filed_all layouts)).
  unfold categoryKeys, sumZ. cbn [map flat_map fold_right].
  rewrite !length_app. cbn [List.length]. lia.
Qed.

Lemma setAdd_spec (set : list (option string)) (x : option string) :
  NoDup set ->
  NoDup (LayoutAnalyzer.setAdd set x)
  /\ forall t, In t (LayoutAnalyzer.setAdd set x) <-> In t set \/ t = x.
Proof.
  intros Hnd. unfold LayoutAnalyzer.setAdd.
  destruct (existsb _ set) eqn:E.
  - split; [assumption|]. intros t. split; [now left|].
    intros [H| ->]; [assumption|].
    apply existsb_exists in E. destruct E as (y & Hy & He).
    destruct x as [a|], y as [b|]; try discriminate.
    + apply String.eqb_eq in He. now subst.
    + assumption.
  - assert (Hnin : ~ In x set).
    { intros Hin.
      assert (existsb (fun y => match x, y with
                                | Some a, Some b => String.eqb a b
                                | None, None => true
                                | _, _ => false
                                end) set = true) as Hex.
      { apply existsb_exists. exists x. split; [assumption|].
        destruct x; [apply String.eqb_refl|reflexivity]. }
      congruence. }
    unfold push. split.
    + apply NoDup_app; [assumption|repeat constructor; simpl; tauto|].
      intros a Ha [<-|[]]. contradiction.
    + intros t. rewrite in_app_iff. simpl. intuition congruence.
Qed.

Lemma setAdd_fold (types set : list (option string)) :
  NoDup set ->
  NoDup (fold_left LayoutAnalyzer.setAdd types set)
  /\ forall t, In t (fold_left LayoutAnalyzer.setAdd types set)
               <-> In t set \/ In t types.
Proof.
  revert set. induction types as [|x rest IH]; intros set Hnd; simpl.
  - split; [assumption|]. intros t. tauto.
  - destruct (setAdd_spec set x Hnd) as [Hnd' Hin].
    destruct (IH _ Hnd') as [H1 H2]. split; [assumption|].
    intros t. rewrite H2, Hin. intuition congruence.
Qed.

Lemma stats_types_fold (layouts : list Layout.t) (set : list (option string)) :
  fold_left
    (fun set layout =>
       fold_left (fun set placeholder =>
                    LayoutAnalyzer.setAdd set (Placeholder.type placeholder))
                 (Layout.placeholders layout) set)
    layouts set
  = fold_left LayoutAnalyzer.setAdd (allTypes layouts) set.
Proof.
  revert set. induction layouts as [|l rest IH]; intros set; [reflexivity|].
  cbn [fold_left allTypes flat_map]. rewrite fold_left_app, IH.
  f_equal. unfold Layout.placeholderTypes.
  generalize (Layout.placeholders l) set.
  induction l0 as [|p ps IHp]; intros s; [reflexivity|].
  cbn [map fold_left]. apply IHp.
Qed.

(** X17: in the statistics the six category counts add up to the total
    number of templates, each count being the number of templates of that
    category, and the placeholder types are listed once each: a type is
    listed exactly when some placeholder of some template has it. *)
Theorem getLayoutStats_consistent :
  forall layouts : list Layout.t,
    let stats := LayoutAnalyzer.getLayoutStats layouts in
    LayoutAnalyzer.total stats = Z.of_nat (List.length layouts)
    /\ LayoutAnalyzer.categories stats
       = map (fun k => (k, Z.of_nat (List.length (filedUnder k layouts))))
             categoryKeys
    /\ sumZ (map snd (LayoutAnalyzer.categories stats))
       = LayoutAnalyzer.total stats
    /\ NoDup (LayoutAnalyzer.placeholderTypes stats)
    /\ forall t, In t (LayoutAnalyzer.placeholderTypes stats)
                 <-> In t (allTypes layouts).
Proof.
  intros layouts stats. subst stats.
  unfold LayoutAnalyzer.getLayoutStats.
  cbn [LayoutAnalyzer.total LayoutAnalyzer.categories
       LayoutAnalyzer.placeholderTypes].
  assert (Hc : LayoutAnalyzer.categorizeLayouts layouts
               = map (fun k => (k, filedUnder k layouts)) categoryKeys).
  { unfold LayoutAnalyzer.categorizeLayouts, LayoutAnalyzer.emptyCategories.
    rewrite categorize_fold. reflexivity. }
  rewrite Hc, stats_types_fold.
  destruct (setAdd_fold (allTypes layouts) [] (NoDup_nil _)) as [Hnd Hin].
  split; [reflexivity|].
  split; [rewrite !map_map; cbn [fst snd]; reflexivity|].
  split; [rewrite !map_map; cbn [fst snd]; apply sum_of_filed|].
  split; [exact Hnd|].
  intros t. rewrite Hin. simpl. tauto.
Qed.

(** ** The matcher of the match-layout node *)

Lemma ml_category_agrees (layout : Layout.t) :
  named layout "TITLE ONLY" = false ->
  MatchLayout.getLayoutCategory layout
  = ContentMatcher.getLayoutCategory layout.
Proof.
  unfold named.
  cbv beta zeta delta [MatchLayout.getLayoutCategory
                       ContentMatcher.getLayoutCategory].
  rewrite upper_orEmpty. intros ->. now rewrite orb_false_r.
Qed.

Lemma ml_score_agrees (a : ContentAnalysis) (layout : Layout.t) :
  named layout "TITLE ONLY" = false ->
  MatchLayout.calculateLayoutScore a layout
  = ContentMatcher.calculateLayoutScore a layout.
Proof.
  intros H.
  unfold ContentMatcher.calculateLayoutScore.
  cbv beta zeta delta [MatchLayout.calculateLayoutScore
                       ContentMatcher.rawScore].
  now rewrite (ml_category_agrees layout H).
Qed.

Lemma ml_reasoning_agrees (a : ContentAnalysis) (layout : Layout.t) :
  named layout "TITLE ONLY" = false ->
  MatchLayout.generateReasoning a layout
  = ContentMatcher.generateReasoning a layout.
Proof.
  intros H.
  cbv beta zeta delta [MatchLayout.generateReasoning
                       ContentMatcher.generateReasoning].
  now rewrite (ml_category_agrees layout H).
Qed.

Lemma ml_scoreAll_agrees (a : ContentAnalysis) (layouts : list Layout.t)
  (i : nat) :
  forallb (fun l => negb (named l "TITLE ONLY")) layouts = true ->
  MatchLayout.scoreAll a i layouts = allocated a i layouts.
Proof.
  revert i. induction layouts as [|l t IH]; intros i; simpl; [reflexivity|].
  intros H. apply andb_true_iff in H. destruct H as [Hl Ht].
  apply negb_true_iff in Hl.
  now rewrite (ml_score_agrees a l Hl), (IH _ Ht).
Qed.

(** X18: on templates whose display name does not spell "TITLE ONLY" with
    a blank, the matcher of the match-layout node returns what the
    canonical matcher returns. *)
Theorem matchLayout_copy_agrees :
  forall (c : Content) (layouts : list Layout.t),
    forallb (fun l => negb (named l "TITLE ONLY")) layouts = true ->
    MatchLayout.findBestLayout c (MatchLayout.AsArray layouts)
    = outcome (ContentMatcher.findBestLayout c layouts).
Proof.
  intros c layouts H.
  unfold MatchLayout.findBestLayout, ContentMatcher.findBestLayout.
  cbn [MatchLayout.flatten].
  destruct (Nat.eqb (List.length layouts) 0); [reflexivity|].
  rewrite scoreAll_run, (ml_scoreAll_agrees _ _ _ H). unfold bind.
  change (fun a b : Scored => scoreOf b - scoreOf a)
    with ContentMatcher.byScore.
  set (a := ContentMatcher.analyzeContent c).
  destruct (sort ContentMatcher.byScore (allocated a 0 layouts))
    as [|best others] eqn:Es; [reflexivity|].
  cbn [ret outcome snd].
  assert (Hin : In best (allocated a 0 layouts)).
  { rewrite <- (sort_perm ContentMatcher.byScore), Es. now left. }
  apply allocated_inv in Hin. destruct Hin as (j & l & Hn & _ & Ho).
  assert (Hl : named (obj best) "TITLE ONLY" = false).
  { rewrite Ho. apply nth_error_In in Hn.
    rewrite forallb_forall in H. specialize (H l Hn).
    now apply negb_true_iff in H. }
  now rewrite (ml_reasoning_agrees a (obj best) Hl).
Qed.

Lemma matchLayout_copy_agrees_witness :
  MatchLayout.findBestLayout strategy (MatchLayout.AsArray tiedLayouts)
  = outcome (ContentMatcher.findBestLayout strategy tiedLayouts).
Proof.
  apply (matchLayout_copy_agrees strategy tiedLayouts). reflexivity.
Defined.

(** Where the copy parts from the canonical matcher. *)
Example matchLayout_copy_differs :
  ContentMatcher.getLayoutCategory titleOnlySpaced = "titleOnly"
  /\ MatchLayout.getLayoutCategory titleOnlySpaced = "titleAndBody".
Proof. split; reflexivity. Qed.

Lemma flatten_categories_from (categories : list (string * list Layout.t))
  (acc : list Layout.t) :
  fold_left (fun layoutArray entry => (layoutArray ++ snd entry)%list)
            categories acc
  = (acc ++ flat_map snd categories)%list.
Proof.
  revert acc. induction categories as [|e rest IH]; intros acc; simpl.
  - now rewrite app_nil_r.
  - now rewrite IH, app_assoc.
Qed.

Lemma ml_scoreAll_in (a : ContentAnalysis) (layouts : list Layout.t)
  (i : nat) (s : Scored) :
  In s (MatchLayout.scoreAll a i layouts) ->
  exists l, In l layouts
            /\ scoreOf s = MatchLayout.calculateLayoutScore a l.
Proof.
  revert i. induction layouts as [|l0 t IH]; intros i; simpl; [tauto|].
  intros [<-|H]; [exists l0; split; [now left|reflexivity]|].
  destruct (IH _ H) as (l & Hl & He). exists l. split; [now right|exact He].
Qed.

Lemma ml_scoreAll_covers (a : ContentAnalysis) (layouts : list Layout.t)
  (i : nat) (l : Layout.t) :
  In l layouts ->
  exists s, In s (MatchLayout.scoreAll a i layouts)
            /\ scoreOf s = MatchLayout.calculateLayoutScore a l.
Proof.
  revert i. induction layouts as [|l0 t IH]; intros i; simpl; [tauto|].
  intros [->|H]; [eexists; split; [now left|reflexivity]|].
  destruct (IH (S i) H) as (s & Hs & He). exists s.
  split; [now right|exact He].
Qed.

(** What the node's matcher returns on a non-empty input. *)
Lemma ml_best (c : Content) (input : MatchLayout.LayoutsInput) :
  MatchLayout.flatten input <> [] ->
  exists r,
    MatchLayout.findBestLayout c input = Ok r
    /\ (exists l, In l (MatchLayout.flatten input)
                  /\ scoreOf (bestLayout r)
                     = MatchLayout.calculateLayoutScore
                         (ContentMatcher.analyzeContent c) l)
    /\ (forall l, In l (MatchLayout.flatten input) ->
                  MatchLayout.calculateLayoutScore
                    (ContentMatcher.analyzeContent c) l
                  <= scoreOf (bestLayout r)).
Proof.
  intros Hne. unfold MatchLayout.findBestLayout.
  set (a := ContentMatcher.analyzeContent c).
  destruct (MatchLayout.flatten input) as [|first rest] eqn:Ef;
    [now destruct Hne|].
  change (Nat.eqb (List.length (first :: rest)) 0) with false. cbv iota.
  destruct (sort (fun a0 b => scoreOf b - scoreOf a0)
              (MatchLayout.scoreAll a 0 (first :: rest)))
    as [|best others] eqn:Es.
  - pose proof (sort_perm (fun a0 b => scoreOf b - scoreOf a0)
                  (MatchLayout.scoreAll a 0 (first :: rest))) as Hp.
    rewrite Es in Hp. apply Permutation_nil in Hp. discriminate.
  - eexists. split; [reflexivity|]. cbn [bestLayout].
    split.
    + apply (ml_scoreAll_in a (first :: rest) 0).
      rewrite <- (sort_perm (fun a0 b => scoreOf b - scoreOf a0)), Es.
      now left.
    + intros l Hl.
      destruct (ml_scoreAll_covers a (first :: rest) 0 l Hl) as (s & Hs & <-).
      exact (sort_head_max scoreOf _ best others Es s Hs).
Qed.

(** X19: the node accepts the templates filed by category instead of the
    array: flattening the six buckets rearranges the templates, so the run
    ends with a best template of the same score, though ties may be broken
    differently. *)
Theorem categorized_input_same_best_score :
  forall (c : Content) (first : Layout.t) (rest : list Layout.t),
    let layouts := first :: rest in
    let filed :=
      MatchLayout.AsCategories (LayoutAnalyzer.categorizeLayouts layouts) in
    Permutation (MatchLayout.flatten filed) layouts
    /\ exists r r',
        MatchLayout.findBestLayout c (MatchLayout.AsArray layouts) = Ok r
        /\ MatchLayout.findBestLayout c filed = Ok r'
        /\ scoreOf (bestLayout r) = scoreOf (bestLayout r').
Proof.
  intros c first rest layouts filed.
  assert (Hperm : Permutation (MatchLayout.flatten filed) layouts).
  { subst filed. cbn [MatchLayout.flatten]. rewrite flatten_categories_from.
    cbn [app].
    assert (H : LayoutAnalyzer.categorizeLayouts layouts
                = map (fun k => (k, filedUnder k layouts)) categoryKeys).
    { unfold LayoutAnalyzer.categorizeLayouts, LayoutAnalyzer.emptyCategories.
      rewrite categorize_fold. reflexivity. }
    rewrite H.
    transitivity (flat_map (fun k => filedUnder k layouts) categoryKeys);
      [|apply filed_all].
    unfold categoryKeys. cbn [map flat_map snd]. reflexivity. }
  split; [exact Hperm|].
  assert (Hne1 : MatchLayout.flatten (MatchLayout.AsArray layouts) <> [])
    by discriminate.
  assert (Hne2 : MatchLayout.flatten filed <> []).
  { intros E. rewrite E in Hperm. apply Permutation_nil in Hperm.
    discriminate. }
  destruct (ml_best c _ Hne1) as (r & Hr & (l1 & Hl1 & He1) & Hmax1).
  destruct (ml_best c _ Hne2) as (r' & Hr' & (l2 & Hl2 & He2) & Hmax2).
  exists r, r'. split; [exact Hr|]. split; [exact Hr'|].
  cbn [MatchLayout.flatten] in Hl1, Hmax1.
  assert (H1 : scoreOf (bestLayout r) <= scoreOf (bestLayout r')).
  { rewrite He1. apply Hmax2. rewrite Hperm. exact Hl1. }
  assert (H2 : scoreOf (bestLayout r') <= scoreOf (bestLayout r)).
  { rewrite He2. apply Hmax1. rewrite <- Hperm. exact Hl2. }
  lia.
Qed.

(** ** The helpers of the service *)

(** X20: on canonical scores the service's confidence is "very-high" only
    with at most three templates to choose from, and is "very-low" as soon
    as there are 32: the penalty of two points per further template then
    outweighs any score.  Both thresholds are sharp. *)
Theorem confidence_falls_with_choice :
  (forall (a : ContentAnalysis) (layout : Layout.t) (layoutCount : Z),
      let s := ContentMatcher.calculateLayoutScore a layout in
      (4 <= layoutCount ->
       Server.calculateConfidence s layoutCount <> "very-high")
      /\ (32 <= layoutCount ->
          Server.calculateConfidence s layoutCount = "very-low"))
  /\ Server.calculateConfidence
       (ContentMatcher.calculateLayoutScore fullComparison
                                            twoColumnsWithPicture) 3
     = "very-high"
  /\ Server.calculateConfidence
       (ContentMatcher.calculateLayoutScore fullComparison
                                            twoColumnsWithPicture) 31
     = "low".
Proof.
  split; [|split; reflexivity].
  intros a layout layoutCount s.
  assert (Hs : 0 <= s <= 85).
  { subst s. pose proof (rawScore_upper a layout).
    unfold ContentMatcher.calculateLayoutScore. lia. }
  clearbody s.
  unfold Server.calculateConfidence.
  split; intros Hn.
  - destruct (Z.max 0 (Z.min 100 (Z.max 0 s)
                       - Z.max 0 ((layoutCount - 1) * 2)) >=? 80) eqn:E;
      [|split_ifs; discriminate].
    rewrite Z.geb_leb in E. apply Z.leb_le in E. lia.
  - repeat match goal with
           | |- context [?x >=? ?k] =>
               let E := fresh "E" in
               destruct (x >=? k) eqn:E;
               [rewrite Z.geb_leb in E; apply Z.leb_le in E; lia|]
           end.
    reflexivity.
Qed.

Lemma placed_objs (layouts : list Layout.t) (i : nat) :
  map obj (placed i layouts) = layouts.
Proof.
  revert i. induction layouts as [|l t IH]; intros i; simpl;
    [reflexivity|now rewrite IH].
Qed.

Lemma placed_from (layouts : list Layout.t) (i : nat) :
  Forall (fun s => (i <= ref s)%nat) (placed i layouts).
Proof.
  revert i. induction layouts as [|l t IH]; intros i; simpl; constructor.
  - simpl. lia.
  - eapply Forall_impl; [|apply (IH (S i))]. simpl. intros s Hs. lia.
Qed.

Lemma placed_in_order (layouts : list Layout.t) (i : nat) :
  StronglySorted (fun x y => (ref x < ref y)%nat) (placed i layouts).
Proof.
  revert i. induction layouts as [|l t IH]; intros i; simpl; constructor.
  - apply IH.
  - eapply Forall_impl; [|apply (placed_from t (S i))]. simpl.
    intros s Hs. lia.
Qed.

Lemma sort_by_place (layouts : list Layout.t) :
  sort (fun a b => Layout.score b - Layout.score a) layouts
  = map obj (sort ContentMatcher.byScore (placed 0 layouts)).
Proof.
  rewrite <- (sort_by_key_map obj ContentMatcher.byScore
                (fun a b => Layout.score b - Layout.score a))
    by reflexivity.
  now rewrite placed_objs.
Qed.

(** X21: the explanation ranks the alternatives by the scores the
    templates arrive with.  The templates whose identifier differs from
    the selected one are ranked by descending score, templates of equal
    score in input order; the alternatives describe the first two of the
    ranking, each with its display name, its score and the wording "well"
    above 50 and "adequately" otherwise, so there are never more than
    two.  On templates as the extractor returns them (score 0) these are
    the first two such templates in input order. *)
Theorem explanation_alternatives_ranked :
  forall (a : ContentAnalysis) (selected : Layout.t)
         (layouts : list Layout.t),
    let listed :=
      Server.alternatives
        (Server.generateDetailedExplanation a selected layouts) in
    (List.length listed <= 2)%nat
    /\ (exists ranked,
          Permutation ranked (placed 0 (othersThan selected layouts))
          /\ StronglySorted precedes ranked
          /\ listed
             = map (fun s => describedAlternative (obj s)) (firstn 2 ranked))
    /\ (Forall (fun l => Layout.score l = 0) layouts ->
        listed
        = map unscoredAlternative (firstn 2 (othersThan selected layouts))).
Proof.
  intros a selected layouts listed.
  assert (Hl : listed
               = map describedAlternative
                   (firstn 2 (sort (fun a b => Layout.score b - Layout.score a)
                                (othersThan selected layouts)))).
  { unfold listed.
    cbv beta zeta delta [Server.generateDetailedExplanation].
    cbn [Server.alternatives]. fold (othersThan selected layouts).
    apply map_ext. intros l. unfold describedAlternative.
    now destruct (Layout.score l >? 50). }
  split; [|split].
  - rewrite Hl, length_map, length_firstn. lia.
  - exists (sort ContentMatcher.byScore
              (placed 0 (othersThan selected layouts))).
    split; [apply sort_perm|].
    split; [apply sort_precedes, placed_in_order|].
    rewrite Hl, sort_by_place, firstn_map, map_map. reflexivity.
  - intros H. rewrite Hl.
    assert (Hf : Forall (fun l => Layout.score l = 0)
                        (othersThan selected layouts)).
    { unfold othersThan. rewrite Forall_forall in *. intros l Hin.
      apply filter_In in Hin. now apply H. }
    rewrite (sort_constant_key Layout.score _ 0 Hf).
    apply map_ext_in. intros l Hin.
    assert (Hz : Layout.score l = 0).
    { rewrite Forall_forall in Hf. apply Hf.
      rewrite <- (firstn_skipn 2 (othersThan selected layouts)).
      apply in_or_app. now left. }
    unfold unscoredAlternative, describedAlternative. now rewrite Hz.
Qed.

Lemma explanation_alternatives_ranked_witness :
  Server.alternatives
    (Server.generateDetailedExplanation
       (ContentMatcher.analyzeContent strategy) titleBody tiedLayouts)
  = [ unscoredAlternative blankLayout;
      unscoredAlternative titleTwoSubtitles ].
Proof.
  apply (explanation_alternatives_ranked
           (ContentMatcher.analyzeContent strategy) titleBody tiedLayouts).
  repeat constructor.
Defined.

(** The ranking at work: of five scored templates the selected one is
    left out, and the two listed are the first of the two templates with
    score 60 and then the second, not the templates that come first in
    the input. *)
Example explanation_lists_highest_scores :
  map (fun alt => (Server.displayName alt, Server.score alt,
                   Server.reason alt))
      (Server.alternatives
         (Server.generateDetailedExplanation
            (ContentMatcher.analyzeContent strategy) titleBody
            scoredTemplates))
  = [ (Some "B", 60, "Would work well for this content");
      (Some "D", 60, "Would work well for this content") ].
Proof. reflexivity. Qed.

(** ** Templates with and without placeholders *)

Lemma empty_template_category (layout : Layout.t) :
  Layout.placeholders layout = [] ->
  In (ContentMatcher.getLayoutCategory layout)
     ["titleOnly"; "sectionHeader"; "titleAndTwoColumns"; "blank"].
Proof.
  intros He.
  cbv beta zeta delta [ContentMatcher.getLayoutCategory].
  unfold Layout.placeholderTypes. rewrite He. cbn [map arrIncludes existsb
    filter List.length Z.of_nat andb negb Z.eqb Z.geb Z.compare].
  split_ifs; simpl; tauto.
Qed.

(** X22: for content with a title and a body, a template that offers a
    title and a body placeholder never scores below a template without
    placeholders, and scores strictly above it when the content is
    "general". *)
Theorem placeholders_beat_empty_template :
  forall (a : ContentAnalysis) (layout empty : Layout.t),
    hasTitle a = true -> hasBody a = true ->
    hasRole layout "TITLE" = true -> hasRole layout "BODY" = true ->
    Layout.placeholders empty = [] ->
    ContentMatcher.calculateLayoutScore a empty
    <= ContentMatcher.calculateLayoutScore a layout
    /\ (contentType a = "general" ->
        ContentMatcher.calculateLayoutScore a empty
        < ContentMatcher.calculateLayoutScore a layout).
Proof.
  intros a layout empty HT HB HLT HLB He.
  assert (Hlow : 40 <= ContentMatcher.rawScore a layout).
  { assert (Hto : ContentMatcher.getLayoutCategory layout = "titleOnly" ->
                  25 <= ContentMatcher.getCategoryScores a
                          (ContentMatcher.getLayoutCategory layout)).
    { intros ->. now apply (base_at_least a "titleOnly" 25 25). }
    assert (Htc : ContentMatcher.getLayoutCategory layout
                  = "titleAndTwoColumns" ->
                  15 <= ContentMatcher.getCategoryScores a
                          (ContentMatcher.getLayoutCategory layout)).
    { intros ->. now apply (base_at_least a "titleAndTwoColumns" 15 15). }
    assert (Htb : 10 <= ContentMatcher.getCategoryScores a
                          (ContentMatcher.getLayoutCategory layout)).
    { pose proof (matcher_category_with_title_and_body layout HLT HLB) as Hin.
      simpl in Hin.
      destruct Hin as [<-|[<-|[<-|[<-|[<-|[]]]]]].
      - now apply (base_at_least a "titleOnly" 10 25).
      - now apply (base_at_least a "sectionHeader" 10 20).
      - now apply (base_at_least a "titleAndTwoColumns" 10 15).
      - now apply (base_at_least a "blank" 10 10).
      - now apply (base_at_least a "titleAndBody" 10 35). }
    unfold hasRole in HLT, HLB.
    cbv beta zeta delta [ContentMatcher.rawScore].
    rewrite HT, HB, HLT, HLB. cbn [andb negb].
    set (cat := ContentMatcher.getLayoutCategory layout) in *.
    set (base := ContentMatcher.getCategoryScores a cat) in *.
    destruct (String.eqb cat "titleOnly") eqn:E1;
      [apply String.eqb_eq in E1; specialize (Hto E1)|clear Hto];
      (destruct (String.eqb cat "titleAndTwoColumns") eqn:E2;
       [apply String.eqb_eq in E2; specialize (Htc E2)|clear Htc]);
      try (exfalso; rewrite E1 in E2; discriminate);
      rewrite ?andb_false_r, ?andb_true_r;
      split_ifs; lia. }
  assert (Hraw : ContentMatcher.rawScore a empty
                 <= ContentMatcher.getCategoryScores a
                      (ContentMatcher.getLayoutCategory empty)).
  { cbv beta zeta delta [ContentMatcher.rawScore].
    unfold Layout.placeholderTypes. rewrite He.
    cbn [map arrIncludes existsb]. rewrite !andb_false_r.
    split_ifs; lia. }
  pose proof (getCategoryScores_bounds a
                (ContentMatcher.getLayoutCategory empty)) as Hb.
  pose proof (rawScore_upper a layout) as Hup.
  unfold ContentMatcher.calculateLayoutScore.
  split; [lia|].
  intros Htag.
  assert (Hgen : ContentMatcher.getCategoryScores a
                   (ContentMatcher.getLayoutCategory empty) <= 25).
  { pose proof (empty_template_category empty He) as Hin. simpl in Hin.
    unfold ContentMatcher.getCategoryScores. rewrite Htag.
    destruct Hin as [<-|[<-|[<-|[<-|[]]]]]; vm_compute; discriminate. }
  lia.
Qed.

Lemma placeholders_beat_empty_template_witness :
  ContentMatcher.calculateLayoutScore
    (ContentMatcher.analyzeContent strategy) blankLayout
  < ContentMatcher.calculateLayoutScore
      (ContentMatcher.analyzeContent strategy) titleBody.
Proof.
  apply (placeholders_beat_empty_template
           (ContentMatcher.analyzeContent strategy) titleBody blankLayout);
    reflexivity.
Defined.

(** * The matcher on untyped input *)

















(** ** The typed model inside the untyped one *)

Lemma textFlag_encode (s : option string) :
  Untyped.textFlag (encodeText s)
  = Ok (match s with
        | Some x => JsString.truthy x && JsString.truthy (JsString.trim x)
        | None => false
        end).
Proof. destruct s as [[|c t]|]; reflexivity. Qed.

Lemma lowered_encode (s : option string) :
  Untyped.lowered (encodeText s) = Ok (JsString.toLowerCase (orEmpty s)).
Proof. destruct s as [[|c t]|]; reflexivity. Qed.

Lemma truthy_encodeText (s : option string) :
  truthy (encodeText s) = truthyField s.
Proof. destruct s; reflexivity. Qed.

Lemma truthy_orElse (a b : value) :
  truthy (orElse a b) = truthy a || truthy b.
Proof. unfold orElse. destruct (truthy a) eqn:E; [now rewrite E|reflexivity]. Qed.

Lemma truthy_optLength (l : option (list string)) :
  truthy (Untyped.optLengthOf (encodeTexts l)) = truthyNum (optLength l).
Proof.
  destruct l as [xs|]; [|reflexivity]. simpl. now rewrite length_map.
Qed.

Lemma gt_optLength (l : option (list string)) (k : Z) :
  Untyped.gt (Untyped.optLengthOf (encodeTexts l)) k = gtNum (optLength l) k.
Proof.
  destruct l as [xs|]; [|reflexivity].
  unfold Untyped.gt. simpl. now rewrite length_map.
Qed.

Lemma analyzeContent_encode (c : Content) :
  Untyped.analyzeContent (encodeContent c)
  = Ok (encodeAnalysis (ContentMatcher.analyzeContent c)).
Proof.
  destruct c as [t b url imgs bl bp cols cmp].
  unfold Untyped.analyzeContent, encodeContent, get. cbn [nullish rbind].
  cbn [prop lookup String.eqb Ascii.eqb Bool.eqb].
  rewrite !textFlag_encode. cbn [rbind].
  unfold Untyped.determineContentType, get. cbn [nullish rbind].
  cbn [prop lookup String.eqb Ascii.eqb Bool.eqb].
  rewrite !lowered_encode. cbn [rbind].
  cbn [Untyped.hasImage Untyped.hasBody Untyped.hasBullets
       Untyped.bulletCount truthy].
  rewrite !truthy_orElse, !truthy_encodeText, !truthy_optLength,
    !gt_optLength.
  unfold encodeAnalysis.
  cbv beta zeta delta [ContentMatcher.analyzeContent
                       ContentMatcher.determineContentType].
  cbn [title body imageUrl images bullets bulletPoints columns comparison
       hasTitle hasBody hasImage hasBullets hasMultipleColumns contentLength
       contentType imageCount bulletCount].
  assert (Hlen : forall k,
             Untyped.gt (Untyped.lengthOf (orElse (encodeText b)
                                                  (VStr EmptyString))) k
             = (Z.of_nat (String.length (orEmpty b)) >? k)).
  { intros k. destruct b as [[|ch s]|]; reflexivity. }
  rewrite !Hlen.
  assert (Hic : (if truthy (encodeTexts imgs)
                 then Untyped.lengthOf (encodeTexts imgs)
                 else if truthyField url then VNum 1 else VNum 0)
                = VNum (match imgs with
                        | Some l => Z.of_nat (List.length l)
                        | None => if truthyField url then 1 else 0
                        end)).
  { destruct imgs as [l|]; simpl; [now rewrite length_map|].
    now destruct (truthyField url). }
  assert (Hbc : (if truthy (encodeTexts bp)
                 then Untyped.lengthOf (encodeTexts bp)
                 else if truthy (encodeTexts bl)
                      then Untyped.lengthOf (encodeTexts bl) else VNum 0)
                = VNum (match bp with
                        | Some l => Z.of_nat (List.length l)
                        | None => match bl with
                                  | Some l => Z.of_nat (List.length l)
                                  | None => 0
                                  end
                        end)).
  { destruct bp as [l|]; simpl; [now rewrite length_map|].
    destruct bl as [l|]; simpl; [now rewrite length_map|reflexivity]. }
  rewrite Hic, Hbc.
  unfold Untyped.gt. cbn [Untyped.toNumber].
  reflexivity.
Qed.

Lemma typesOf_encode (ps : list Placeholder.t) :
  Untyped.typesOf (map encodePlaceholder ps)
  = Ok (map (fun p => encodeText (Placeholder.type p)) ps).
Proof.
  induction ps as [|p rest IH]; [reflexivity|].
  simpl. rewrite IH. reflexivity.
Qed.

Lemma placeholderTypes_encode (l : Layout.t) :
  Untyped.placeholderTypes (encodeLayout l)
  = Ok (map encodeText (Layout.placeholderTypes l)).
Proof.
  unfold Untyped.placeholderTypes, encodeLayout, get. simpl.
  rewrite typesOf_encode. unfold Layout.placeholderTypes.
  now rewrite map_map.
Qed.

Lemma isLit_encode (t : option string) (lit : string) :
  Untyped.isLit (encodeText t) lit = isType t lit.
Proof. destruct t; reflexivity. Qed.

Lemma includesLit_encode (types : list (option string)) (lit : string) :
  Untyped.includesLit (map encodeText types) lit = arrIncludes types lit.
Proof.
  unfold Untyped.includesLit, arrIncludes.
  induction types as [|t rest IH]; [reflexivity|].
  simpl. now rewrite isLit_encode, IH.
Qed.

Lemma filter_encode (types : list (option string)) :
  List.length
    (filter (fun t => Untyped.isLit t "BODY" || Untyped.isLit t "CONTENT")
            (map encodeText types))
  = List.length
      (filter (fun t => isType t "BODY" || isType t "CONTENT") types).
Proof.
  induction types as [|t rest IH]; [reflexivity|].
  simpl. rewrite !isLit_encode.
  destruct (isType t "BODY" || isType t "CONTENT"); simpl; now rewrite IH.
Qed.

Lemma upperName_encode (l : Layout.t) :
  Untyped.upperName (encodeLayout l)
  = Ok (orEmpty (option_map JsString.toUpperCase (Layout.displayName l))).
Proof.
  unfold Untyped.upperName, encodeLayout, get. simpl.
  now destruct (Layout.displayName l).
Qed.

Lemma getLayoutCategory_encode (l : Layout.t) :
  Untyped.getLayoutCategory (encodeLayout l)
  = Ok (ContentMatcher.getLayoutCategory l).
Proof.
  unfold Untyped.getLayoutCategory, ContentMatcher.getLayoutCategory.
  rewrite placeholderTypes_encode, upperName_encode. cbn [rbind].
  rewrite !includesLit_encode, filter_encode, length_map.
  reflexivity.
Qed.

Lemma calculateLayoutScore_encode (a : ContentAnalysis) (l : Layout.t) :
  Untyped.calculateLayoutScore (encodeAnalysis a) (encodeLayout l)
  = Ok (ContentMatcher.calculateLayoutScore a l).
Proof.
  unfold Untyped.calculateLayoutScore, ContentMatcher.calculateLayoutScore,
    ContentMatcher.rawScore.
  rewrite placeholderTypes_encode, getLayoutCategory_encode. cbn [rbind].
  rewrite !includesLit_encode.
  reflexivity.
Qed.

Lemma someType_encode (ps : list Placeholder.t) (lit : string) :
  Untyped.someType (map encodePlaceholder ps) lit
  = Ok (arrIncludes (map Placeholder.type ps) lit).
Proof.
  unfold arrIncludes.
  induction ps as [|p rest IH]; [reflexivity|].
  cbn [map Untyped.someType existsb]. unfold get at 1.
  cbn [encodePlaceholder nullish rbind prop lookup String.eqb Ascii.eqb
       Bool.eqb].
  rewrite isLit_encode.
  destruct (isType (Placeholder.type p) lit); [reflexivity|exact IH].
Qed.

Lemma hasPlaceholder_encode (l : Layout.t) (lit : string) :
  Untyped.hasPlaceholder (encodeLayout l) lit
  = Ok (arrIncludes (Layout.placeholderTypes l) lit).
Proof.
  unfold Untyped.hasPlaceholder, encodeLayout, get. simpl.
  apply someType_encode.
Qed.

Lemma generateReasoning_encode (a : ContentAnalysis) (l : Layout.t) :
  Untyped.generateReasoning (encodeAnalysis a) (encodeLayout l)
  = Ok (ContentMatcher.generateReasoning a l).
Proof.
  unfold Untyped.generateReasoning, ContentMatcher.generateReasoning.
  rewrite getLayoutCategory_encode. cbn [rbind].
  rewrite !hasPlaceholder_encode.
  cbn [encodeAnalysis Untyped.hasTitle Untyped.hasBody Untyped.hasImage
       Untyped.contentType].
  destruct (hasTitle a); destruct (hasBody a); reflexivity.
Qed.

Lemma withScore_encode (l : Layout.t) (s : Z) :
  Untyped.withScore (encodeLayout l) s = encodeLayout (Layout.withScore l s).
Proof. reflexivity. Qed.

Lemma scoreAll_encode (a : ContentAnalysis) (ls : list Layout.t) (i : nat) :
  Untyped.scoreAll (encodeAnalysis a) (map encodeLayout ls)
  = (map encodeLayout ls,
     Ok (map (fun s => encodeLayout (obj s)) (allocated a i ls))).
Proof.
  revert i. induction ls as [|l rest IH]; intros i; [reflexivity|].
  simpl. rewrite calculateLayoutScore_encode, (IH (S i)).
  reflexivity.
Qed.

(** X23: on content and templates of the data model's types, written as
    values, the matcher on untyped input does what the typed model does:
    the same templates reach the scorer in the same order, and the outcome
    is the same error or the same result, value for value. *)
Theorem untyped_matcher_agrees_on_typed_input :
  forall (c : Content) (layouts : list Layout.t),
    Untyped.findBestLayout (encodeContent c) (VArr (map encodeLayout layouts))
    = (map encodeLayout
           (map (fun ev => match ev with Scoring l => l end)
                (trace (ContentMatcher.findBestLayout c layouts))),
       encodeOutcome (outcome (ContentMatcher.findBestLayout c layouts))).
Proof.
  intros c [|first rest]; [reflexivity|].
  destruct (findBestLayout_run c first rest)
    as (best & others & Hsort & Hrun).
  rewrite Hrun. unfold trace, outcome. cbn [fst snd encodeOutcome].
  replace (map (fun ev => match ev with Scoring l => l end)
               (map Scoring (first :: rest))) with (first :: rest)
    by (rewrite map_map; symmetry; apply map_id).
  unfold Untyped.findBestLayout.
  change (Untyped.noLayouts (VArr (map encodeLayout (first :: rest))))
    with false. cbv iota.
  rewrite analyzeContent_encode.
  rewrite (scoreAll_encode _ _ 0). cbn [rbind].
  rewrite (sort_by_key_map (fun s => encodeLayout (obj s))
             ContentMatcher.byScore)
    by reflexivity.
  rewrite Hsort. cbn [map].
  rewrite generateReasoning_encode. cbn [rbind].
  unfold encodeResult. cbn [bestLayout alternatives contentAnalysis reasoning].
  now rewrite firstn_map.
Qed.

(** * The request builders on untyped input *)

Lemma lookup_pushUnder_value (k k' : string) (x : value)
  (tbl : list (string * list value)) :
  lookup k (Untyped.pushUnder k' x tbl)
  = if String.eqb k k'
    then option_map (fun b => push b x) (lookup k' tbl)
    else lookup k tbl.
Proof.
  induction tbl as [|[k0 v0] rest IH]; simpl.
  - now destruct (String.eqb k k').
  - destruct (String.eqb_spec k' k0) as [->|Hne]; simpl.
    + destruct (String.eqb_spec k k0) as [->|Hne2]; reflexivity.
    + rewrite IH.
      destruct (String.eqb_spec k k0) as [->|Hne2]; [|reflexivity].
      destruct (String.eqb_spec k0 k') as [<-|_];
        [now destruct Hne|reflexivity].
Qed.

(** Grouping files every placeholder under its role, in order, and throws
    exactly when one of them cannot be filed. *)
Lemma untyped_groupByType_spec (items : list value) :
  forall byType,
    if forallb fileable items
    then exists grouped,
        Untyped.groupByType items byType = Ok grouped
        /\ forall k,
             lookup k grouped
             = extended (lookup k byType)
                        (filter (fun p => String.eqb (roleOf p) k) items)
    else Untyped.groupByType items byType = Throw TypeError.
Proof.
  induction items as [|p rest IH]; intros byType.
  - exists byType. split; [reflexivity|]. intros k. simpl.
    destruct (lookup k byType); simpl; [now rewrite app_nil_r|reflexivity].
  - cbn [forallb Untyped.groupByType]. unfold fileable at 1, get.
    destruct (nullish p); [reflexivity|]. cbn [negb andb rbind].
    fold (roleOf p).
    destruct (existsb (String.eqb (roleOf p)) objectPrototypeKeys);
      [reflexivity|].
    cbn [negb andb].
    set (kp := roleOf p).
    set (byType' := match lookup kp byType with
                    | Some _ => byType
                    | None => push byType (kp, [])
                    end).
    specialize (IH (Untyped.pushUnder kp p byType')).
    destruct (forallb fileable rest); [|exact IH].
    destruct IH as (grouped & Hg & Hl).
    exists grouped. split; [exact Hg|].
    intros k. rewrite Hl, lookup_pushUnder_value.
    cbn [filter]. fold kp. rewrite (String.eqb_sym kp k).
    assert (Hkp : lookup kp byType'
                  = Some (match lookup kp byType with
                          | Some b => b
                          | None => []
                          end)).
    { subst byType'. destruct (lookup kp byType) eqn:E; [exact E|].
      rewrite (lookup_push_new kp kp [] byType E).
      now rewrite String.eqb_refl. }
    destruct (String.eqb_spec k kp) as [->|Hne].
    + rewrite Hkp. cbn [option_map extended]. unfold push.
      destruct (lookup kp byType); cbn [extended];
        now rewrite <- app_assoc.
    + assert (Hk : lookup k byType' = lookup k byType).
      { subst byType'. destruct (lookup kp byType) eqn:E; [reflexivity|].
        rewrite (lookup_push_new k kp [] byType E).
        destruct (String.eqb_spec k kp); [contradiction|reflexivity]. }
      now rewrite Hk.
Qed.

Lemma groupPlaceholders_spec (layout : value) :
  if groupable layout
  then exists grouped,
      Untyped.groupPlaceholders layout = Ok grouped
      /\ forall k,
           lookup k grouped
           = match holders k layout with
             | [] => None
             | bucket => Some bucket
             end
  else Untyped.groupPlaceholders layout = Throw TypeError.
Proof.
  unfold groupable, Untyped.groupPlaceholders, holders, get.
  destruct (nullish layout); [reflexivity|]. cbn [negb andb rbind].
  destruct (prop layout "placeholders") as [| | | | |items|];
    cbn [isArray entries andb]; try reflexivity.
  pose proof (untyped_groupByType_spec items []) as H.
  destruct (forallb fileable items); [|exact H].
  destruct H as (grouped & Hg & Hl). exists grouped.
  split; [exact Hg|]. intros k. rewrite Hl. cbn [lookup extended].
  now destruct (filter (fun p => String.eqb (roleOf p) k) items).
Qed.

Lemma holders_fileable (role : string) (layout p : value) (rest : list value) :
  groupable layout = true ->
  holders role layout = p :: rest ->
  nullish p = false.
Proof.
  unfold groupable, holders. intros Hg Hh.
  apply andb_true_iff in Hg. destruct Hg as [_ Hall].
  rewrite forallb_forall in Hall.
  assert (Hin : In p (filter (fun p0 => String.eqb (roleOf p0) role)
                             (entries (prop layout "placeholders"))))
    by (rewrite Hh; now left).
  apply filter_In in Hin. destruct Hin as [Hin _].
  specialize (Hall p Hin). unfold fileable in Hall.
  apply andb_true_iff in Hall. destruct Hall as [Hn _].
  now destruct (nullish p).
Qed.

(** One edit aimed at the first placeholder of a role. *)
Lemma first_holder (role : string) (layout : value)
  (grouped : list (string * list value)) (requests : list Untyped.Request)
  (request : value -> Untyped.Request) :
  groupable layout = true ->
  (forall k, lookup k grouped
             = match holders k layout with
               | [] => None
               | bucket => Some bucket
               end) ->
  match lookup role grouped with
  | Some bucket =>
      objectId <~ Untyped.firstObjectId bucket ;;
      Ok (push requests (request objectId))
  | None => Ok requests
  end
  = Ok (requests
        ++ match holders role layout with
           | p :: _ => [request (prop p "objectId")]
           | [] => []
           end)%list.
Proof.
  intros Hg Hl. rewrite Hl.
  destruct (holders role layout) as [|p rest] eqn:Eh.
  - now rewrite app_nil_r.
  - cbn [Untyped.firstObjectId]. unfold get.
    now rewrite (holders_fileable role layout p rest Hg Eh).
Qed.

(** The body edit: the bullets, when they are used, must be an array. *)
Lemma body_holder (prefix : string) (layout content : value)
  (grouped : list (string * list value)) (requests : list Untyped.Request) :
  groupable layout = true ->
  nullish content = false ->
  (forall k, lookup k grouped
             = match holders k layout with
               | [] => None
               | bucket => Some bucket
               end) ->
  match lookup "BODY" grouped with
  | Some bucket =>
      bullets <~ get content "bullets" ;;
      bodyText <~
        (if truthy bullets && Untyped.gt (Untyped.lengthOf bullets) 0
         then Untyped.bulletLines prefix bullets
         else Ok (prop content "body")) ;;
      objectId <~ Untyped.firstObjectId bucket ;;
      Ok (push requests (Untyped.InsertText objectId bodyText 0))
  | None => Ok requests
  end
  = if match holders "BODY" layout with [] => true | _ :: _ => false end
       || negb (bulleted content)
       || isArray (prop content "bullets")
    then Ok (requests
             ++ match holders "BODY" layout with
                | p :: _ => [Untyped.InsertText (prop p "objectId")
                               (bodyValue prefix content) 0]
                | [] => []
                end)%list
    else Throw TypeError.
Proof.
  intros Hg Hc Hl. rewrite Hl.
  destruct (holders "BODY" layout) as [|p rest] eqn:Eh.
  - cbn [orb]. now rewrite app_nil_r.
  - cbn [orb]. unfold get. rewrite Hc. cbn [rbind].
    unfold bodyValue, bulleted.
    destruct (truthy (prop content "bullets")
              && Untyped.gt (Untyped.lengthOf (prop content "bullets")) 0).
    + cbn [negb orb].
      destruct (prop content "bullets") as [| | | | |items|];
        cbn [isArray Untyped.bulletLines rbind entries]; try reflexivity.
      cbn [Untyped.firstObjectId]. unfold get.
      now rewrite (holders_fileable "BODY" layout p rest Hg Eh).
    + cbn [negb orb rbind Untyped.firstObjectId]. unfold get.
      now rewrite (holders_fileable "BODY" layout p rest Hg Eh).
Qed.

Lemma prepare_untyped :
  forall (layout content : value) (slideId : string),
    Untyped.prepareSlideRequests layout content slideId
    = if preparable layout content
      then Ok (Untyped.CreateSlide slideId (prop layout "objectId") VUndefined
               :: preparedEdits layout content)
      else Throw TypeError.
Proof.
  intros layout content slideId.
  cbv beta zeta delta [Untyped.prepareSlideRequests]. unfold preparable.
  pose proof (groupPlaceholders_spec layout) as Hgp.
  destruct (groupable layout) eqn:Hg.
  2:{ unfold get at 1. destruct (nullish layout); [reflexivity|].
      cbn [rbind]. now rewrite Hgp. }
  assert (Hn : nullish layout = false).
  { unfold groupable in Hg. now destruct (nullish layout). }
  destruct Hgp as (grouped & -> & Hl).
  unfold get. rewrite Hn. cbn [rbind andb].
  destruct (nullish content) eqn:Hc; [reflexivity|]. cbn [rbind negb andb].
  unfold preparedEdits, requestFor, bodyReadable.
  pose proof (body_holder CompleteWorkflow.bulletPrefix layout content grouped)
    as Hbody.
  unfold get in Hbody. rewrite Hc in Hbody. cbn [rbind] in Hbody.
  destruct (truthy (prop content "title"));
    rewrite ?(first_holder _ layout grouped _ _ Hg Hl); cbn [rbind];
    (destruct (truthy (prop content "body")); cbn [negb orb];
     [rewrite (Hbody _ Hg eq_refl Hl);
      destruct (match holders "BODY" layout with
                | [] => true
                | _ :: _ => false
                end || negb (bulleted content)
               || isArray (prop content "bullets")); [|reflexivity]
     |]);
    cbn [rbind];
    (destruct (truthy (prop content "subtitle"));
     rewrite ?(first_holder _ layout grouped _ _ Hg Hl); cbn [rbind]);
    (destruct (truthy (prop content "imageUrl"));
     rewrite ?(first_holder _ layout grouped _ _ Hg Hl); cbn [rbind]);
    unfold push; cbn [app]; rewrite ?app_nil_r, <- ?app_assoc;
    reflexivity.
Qed.

Lemma holders_truthy (role : string) (layout p : value) :
  role <> "undefined" ->
  In p (holders role layout) -> truthy p = true.
Proof.
  unfold holders. intros Hr Hin. apply filter_In in Hin.
  destruct Hin as [_ Heq]. apply String.eqb_eq in Heq.
  destruct p; try reflexivity; now destruct Hr.
Qed.

Lemma untyped_columnRequests_zip (bucket columns : list value) (index : nat)
  (requests : list Untyped.Request) :
  Forall (fun p => truthy p = true) bucket ->
  Untyped.columnRequests bucket index columns requests
  = Ok (requests
        ++ map (fun pc : value * value =>
                  Untyped.InsertText (prop (fst pc) "objectId") (snd pc) 0)
               (combine (skipn index bucket) columns))%list.
Proof.
  intros Hb. revert index requests.
  induction columns as [|col rest IH]; intros index requests;
    cbn [Untyped.columnRequests].
  - rewrite combine_nil. cbn [map]. now rewrite app_nil_r.
  - rewrite (skipn_nth_error bucket index).
    destruct (nth_error bucket index) as [p|] eqn:E.
    + assert (Hp : truthy p = true).
      { rewrite Forall_forall in Hb. apply Hb.
        now apply nth_error_In with index. }
      rewrite Hp. unfold get.
      rewrite (truthy_not_nullish p Hp). cbn [rbind].
      rewrite IH. unfold push. cbn [combine map fst snd].
      now rewrite <- app_assoc.
    + cbn [rbind combine map]. rewrite IH.
      assert (Hs : skipn (S index) bucket = []).
      { apply skipn_all2. apply nth_error_None in E. lia. }
      rewrite Hs. reflexivity.
Qed.

(** The column edits: the columns, when there is a placeholder for them,
    must be an array. *)
Lemma column_holders (layout content : value)
  (grouped : list (string * list value)) (requests : list Untyped.Request) :
  (forall k, lookup k grouped
             = match holders k layout with
               | [] => None
               | bucket => Some bucket
               end) ->
  (if truthy (prop content "columns") then
     match lookup "CONTENT" grouped with
     | Some bucket =>
         match prop content "columns" with
         | VArr items => Untyped.columnRequests bucket 0 items requests
         | _ => Throw TypeError
         end
     | None => Ok requests
     end
   else Ok requests)
  = if columnsReadable layout content
    then Ok (requests
             ++ (if truthy (prop content "columns")
                 then map (fun pc : value * value =>
                             Untyped.InsertText (prop (fst pc) "objectId")
                                                (snd pc) 0)
                          (combine (holders "CONTENT" layout)
                                   (entries (prop content "columns")))
                 else []))%list
    else Throw TypeError.
Proof.
  intros Hl. unfold columnsReadable.
  destruct (truthy (prop content "columns")) eqn:Ht; cbn [negb orb];
    [|now rewrite app_nil_r].
  rewrite Hl.
  destruct (holders "CONTENT" layout) as [|p rest] eqn:Eh; cbn [orb].
  - cbn [combine map]. now rewrite app_nil_r.
  - destruct (prop content "columns") as [| | | | |items|];
      cbn [isArray entries]; try reflexivity.
    rewrite untyped_columnRequests_zip; [reflexivity|].
    rewrite Forall_forall. intros q Hq.
    apply (holders_truthy "CONTENT" layout); [discriminate|].
    now rewrite Eh.
Qed.

Lemma build_untyped :
  forall (slideId : string) (layout content options : value),
    Untyped.buildSlideRequests slideId layout content options
    = if buildable layout content options
      then Ok (Untyped.CreateSlide slideId (prop layout "objectId")
                 (prop (given options) "insertIndex")
               :: builtEdits layout content options)
      else Throw TypeError.
Proof.
  intros slideId layout content options.
  cbv beta zeta delta [Untyped.buildSlideRequests].
  fold (given options). unfold buildable, preparable.
  pose proof (groupPlaceholders_spec layout) as Hgp.
  assert (Ho : nullish (given options)
               = negb match options with VNull => false | _ => true end)
    by now destruct options.
  destruct (groupable layout) eqn:Hg.
  2:{ unfold get at 1. destruct (nullish layout);
        [now rewrite andb_false_r|].
      cbn [rbind]. unfold get at 1.
      destruct (nullish (given options)); [now rewrite andb_false_r|].
      cbn [rbind]. rewrite Hgp. now rewrite andb_false_r. }
  assert (Hn : nullish layout = false).
  { unfold groupable in Hg. now destruct (nullish layout). }
  destruct Hgp as (grouped & -> & Hl).
  unfold get. rewrite Hn, Ho. cbn [rbind andb].
  destruct (match options with VNull => false | _ => true end);
    [|reflexivity].
  cbn [negb rbind andb].
  destruct (nullish content) eqn:Hc; [reflexivity|]. cbn [rbind negb andb].
  unfold builtEdits, requestFor, bodyReadable.
  pose proof (body_holder Server.bulletPrefix layout content grouped)
    as Hbody.
  unfold get in Hbody. rewrite Hc in Hbody. cbn [rbind] in Hbody.
  destruct (truthy (prop content "title"));
    rewrite ?(first_holder _ layout grouped _ _ Hg Hl); cbn [rbind];
    (destruct (truthy (prop content "body")); cbn [negb orb];
     [rewrite (Hbody _ Hg eq_refl Hl);
      destruct (match holders "BODY" layout with
                | [] => true
                | _ :: _ => false
                end || negb (bulleted content)
               || isArray (prop content "bullets")); [|reflexivity]
     |]);
    cbn [rbind andb];
    (destruct (truthy (prop content "subtitle"));
     rewrite ?(first_holder _ layout grouped _ _ Hg Hl); cbn [rbind]);
    (destruct (truthy (prop content "imageUrl"));
     rewrite ?(first_holder _ layout grouped
                 _ (fun id => Untyped.ReplaceImage id (prop content "imageUrl")
                                (orElse (prop (given options)
                                              "imageReplaceMethod")
                                        (VStr "CENTER_INSIDE")))
                 Hg Hl);
     cbn [rbind]);
    rewrite (column_holders layout content grouped _ Hl);
    (destruct (columnsReadable layout content); [|reflexivity]);
    cbn [rbind]; unfold push; cbn [app];
    rewrite ?app_nil_r, <- ?app_assoc; reflexivity.
Qed.


(** Bullets given as one text make the workflow's builder throw; a
    numeric title and mixed bullets are sent as they are. *)
Example prepare_on_loosely_typed_content :
  Untyped.prepareSlideRequests rawTwoBodies textBullets "s1"
  = Throw TypeError
  /\ Untyped.prepareSlideRequests rawTwoBodies numericFields "s1"
     = Ok [ Untyped.CreateSlide "s1" (VStr "layoutBB") VUndefined;
            Untyped.InsertText (VStr "t1") (VNum 42) 0;
            Untyped.InsertText (VStr "b1")
              (VStr (CompleteWorkflow.bulletPrefix ++ "1" ++ newline
                     ++ CompleteWorkflow.bulletPrefix ++ "null" ++ newline
                     ++ CompleteWorkflow.bulletPrefix ++ "x")) 0 ].
Proof. split; reflexivity. Qed.


(** Columns given as one text, or options that are [null], make the
    service's builder throw; numeric columns are sent as they are. *)
Example build_on_loosely_typed_content :
  Untyped.buildSlideRequests "s1" rawTwoBodies textColumns
    (VObj [("insertIndex", VNum 2)])
  = Throw TypeError
  /\ Untyped.buildSlideRequests "s1" rawTwoBodies numericFields VNull
     = Throw TypeError
  /\ Untyped.buildSlideRequests "s1" rawTwoBodies numericFields VUndefined
     = Ok [ Untyped.CreateSlide "s1" (VStr "layoutBB") VUndefined;
            Untyped.InsertText (VStr "t1") (VNum 42) 0;
            Untyped.InsertText (VStr "b1")
              (VStr (Server.bulletPrefix ++ "1" ++ newline
                     ++ Server.bulletPrefix ++ "null" ++ newline
                     ++ Server.bulletPrefix ++ "x")) 0;
            Untyped.InsertText (VStr "c1") (VNum 7) 0 ].
Proof. repeat split. Qed.

(** ** The typed builders inside the untyped ones *)

Lemma roleOf_encode (p : Placeholder.t) :
  roleOf (encodePlaceholder p) = typeKey (Placeholder.type p).
Proof. unfold roleOf. simpl. now destruct (Placeholder.type p). Qed.

Lemma groupable_encode (l : Layout.t) :
  groupable (encodeLayout l)
  = negb (existsb inheritedKey (Layout.placeholders l)).
Proof.
  unfold groupable, encodeLayout. simpl.
  induction (Layout.placeholders l) as [|p rest IH]; [reflexivity|].
  cbn [map forallb existsb]. rewrite IH, negb_orb.
  unfold fileable at 1, inheritedKey at 1. rewrite roleOf_encode.
  reflexivity.
Qed.

Lemma holders_encode (role : string) (l : Layout.t) :
  holders role (encodeLayout l)
  = map encodePlaceholder (bucketOf role (Layout.placeholders l)).
Proof.
  unfold holders, bucketOf, encodeLayout. simpl.
  induction (Layout.placeholders l) as [|p rest IH]; [reflexivity|].
  cbn [map filter]. rewrite roleOf_encode, IH.
  now destruct (String.eqb (typeKey (Placeholder.type p)) role).
Qed.

Lemma requestFor_encode (l : Layout.t) (role : string) (field : option string)
  (request : value -> Untyped.Request) (request' : Placeholder.t -> Request) :
  (forall p, truthyField field = true ->
             request (VStr (Placeholder.objectId p))
             = encodeRequest (request' p)) ->
  requestFor (encodeLayout l) role (encodeText field) request
  = map encodeRequest (editFor l role field request').
Proof.
  intros H. unfold requestFor, editFor, firstOfRole.
  rewrite truthy_encodeText, holders_encode.
  destruct (truthyField field); [|reflexivity].
  destruct (bucketOf role (Layout.placeholders l)) as [|p rest];
    [reflexivity|].
  cbn [map hd_error]. now rewrite <- H.
Qed.

Lemma encodeText_truthy (field : option string) :
  truthyField field = true -> encodeText field = VStr (orEmpty field).
Proof. destruct field; [reflexivity|discriminate]. Qed.

Lemma bulleted_encode (c : SlideContent) :
  bulleted (encodeSlideContent c)
  = match bullets (fields c) with
    | Some (_ :: _) => true
    | _ => false
    end.
Proof.
  unfold bulleted, encodeSlideContent. simpl.
  now destruct (bullets (fields c)) as [[|x t]|].
Qed.

Lemma bodyValue_encode (prefix : string) (c : SlideContent) :
  truthyField (body (fields c)) = true ->
  bodyValue prefix (encodeSlideContent c)
  = VStr (bodyTextOf prefix (fields c)).
Proof.
  intros Hb. unfold bodyValue, bodyTextOf. rewrite bulleted_encode.
  unfold encodeSlideContent. simpl.
  destruct (bullets (fields c)) as [[|x t]|];
    try (now apply encodeText_truthy).
  cbn [encodeTexts entries]. now rewrite map_map.
Qed.

Lemma bodyReadable_encode (l : Layout.t) (c : SlideContent) :
  bodyReadable (encodeLayout l) (encodeSlideContent c) = true.
Proof.
  unfold bodyReadable. rewrite bulleted_encode.
  unfold encodeSlideContent. simpl.
  destruct (bullets (fields c)) as [[|x t]|]; simpl;
    now rewrite ?orb_true_r.
Qed.

Lemma preparedEdits_encode (l : Layout.t) (c : SlideContent) :
  preparedEdits (encodeLayout l) (encodeSlideContent c)
  = map encodeRequest (plannedEdits l c).
Proof.
  unfold preparedEdits, plannedEdits. rewrite !map_app.
  change (prop (encodeSlideContent c) "title")
    with (encodeText (title (fields c))).
  change (prop (encodeSlideContent c) "body")
    with (encodeText (body (fields c))).
  change (prop (encodeSlideContent c) "subtitle")
    with (encodeText (subtitle c)).
  change (prop (encodeSlideContent c) "imageUrl")
    with (encodeText (imageUrl (fields c))).
  repeat f_equal; apply requestFor_encode; intros p Ht; cbn [encodeRequest];
    rewrite ?(encodeText_truthy _ Ht), ?(bodyValue_encode _ _ Ht);
    reflexivity.
Qed.

(** X26: on a template and content of the data model's types, written
    as values, the workflow's request builder on untyped input does what
    the typed model does: the same error, or the same requests. *)
Theorem untyped_prepare_agrees_on_typed_input :
  forall (l : Layout.t) (c : SlideContent) (slideId : string),
    Untyped.prepareSlideRequests (encodeLayout l) (encodeSlideContent c)
                                 slideId
    = encodeRequests (CompleteWorkflow.prepareSlideRequests l c slideId).
Proof.
  intros l c slideId. rewrite prepare_untyped, prepare_plan.
  unfold preparable. rewrite groupable_encode, bodyReadable_encode.
  destruct (existsb inheritedKey (Layout.placeholders l)); [reflexivity|].
  cbn [negb andb nullish encodeSlideContent encodeRequests map encodeRequest].
  now rewrite <- preparedEdits_encode.
Qed.

Lemma method_encode (o : Server.Options) :
  orElse (prop (given (encodeOptions o)) "imageReplaceMethod")
         (VStr "CENTER_INSIDE")
  = encodeText (Some (if truthyField (Server.imageReplaceMethod o)
                      then orEmpty (Server.imageReplaceMethod o)
                      else "CENTER_INSIDE")).
Proof.
  unfold encodeOptions. simpl.
  now destruct (Server.imageReplaceMethod o) as [[|ch s]|].
Qed.

Lemma columns_encode (l : Layout.t) (c : SlideContent) :
  (if truthy (prop (encodeSlideContent c) "columns")
   then map (fun pc : value * value =>
               Untyped.InsertText (prop (fst pc) "objectId") (snd pc) 0)
            (combine (holders "CONTENT" (encodeLayout l))
                     (entries (prop (encodeSlideContent c) "columns")))
   else [])
  = map encodeRequest
        (map (fun pc : Placeholder.t * string =>
                InsertText (Placeholder.objectId (fst pc)) (snd pc) 0)
             (combine (bucketOf "CONTENT" (Layout.placeholders l))
                      (match columns (fields c) with
                       | Some cols => cols
                       | None => []
                       end))).
Proof.
  rewrite holders_encode.
  change (prop (encodeSlideContent c) "columns")
    with (encodeTexts (columns (fields c))).
  destruct (columns (fields c)) as [cols|]; cbn [encodeTexts truthy entries].
  - generalize (bucketOf "CONTENT" (Layout.placeholders l)). intros bucket.
    revert cols. induction bucket as [|p rest IH]; intros [|col cols];
      try reflexivity.
    cbn [map combine fst snd encodeRequest]. now rewrite IH.
  - now rewrite combine_nil.
Qed.

Lemma builtEdits_encode (l : Layout.t) (c : SlideContent)
  (o : Server.Options) :
  builtEdits (encodeLayout l) (encodeSlideContent c) (encodeOptions o)
  = map encodeRequest (servicePlan l c o).
Proof.
  unfold builtEdits, servicePlan. rewrite !map_app, columns_encode.
  rewrite method_encode.
  change (prop (encodeSlideContent c) "title")
    with (encodeText (title (fields c))).
  change (prop (encodeSlideContent c) "body")
    with (encodeText (body (fields c))).
  change (prop (encodeSlideContent c) "subtitle")
    with (encodeText (subtitle c)).
  change (prop (encodeSlideContent c) "imageUrl")
    with (encodeText (imageUrl (fields c))).
  repeat f_equal; apply requestFor_encode; intros p Ht; cbn [encodeRequest];
    rewrite ?(encodeText_truthy _ Ht), ?(bodyValue_encode _ _ Ht);
    reflexivity.
Qed.

Lemma columnsReadable_encode (l : Layout.t) (c : SlideContent) :
  columnsReadable (encodeLayout l) (encodeSlideContent c) = true.
Proof.
  unfold columnsReadable.
  change (prop (encodeSlideContent c) "columns")
    with (encodeTexts (columns (fields c))).
  destruct (columns (fields c)); simpl; now rewrite ?orb_true_r.
Qed.

(** X27: on a template, content and options of the data model's types,
    written as values, the service's request builder on untyped input
    does what the typed model does: the same error, or the same
    requests. *)
Theorem untyped_build_agrees_on_typed_input :
  forall (slideId : string) (l : Layout.t) (c : SlideContent)
         (o : Server.Options),
    Untyped.buildSlideRequests slideId (encodeLayout l)
                               (encodeSlideContent c) (encodeOptions o)
    = encodeRequests (Server.buildSlideRequests slideId l c o).
Proof.
  intros slideId l c o. rewrite build_untyped, build_plan.
  unfold buildable, preparable.
  rewrite groupable_encode, bodyReadable_encode, columnsReadable_encode.
  destruct (existsb inheritedKey (Layout.placeholders l)); [reflexivity|].
  cbn [negb andb nullish encodeSlideContent encodeOptions encodeRequests
       map encodeRequest].
  rewrite <- builtEdits_encode. reflexivity.
Qed.
